(** * Mixture of adapters: semantic routing and adapter activation

    A shallow embedding of the routing core of the repository
    ([routing/router.py], [routing/route.py], [utils/embeddings.py]) and of the
    request path around it ([main.py], [core/adapter_manager.py],
    [api/server.py]), with the properties of the specification stated and
    settled against it.

    Modelling conventions.
    - A Python float is an exact rational or [NaN] (type [pyfloat]); rounding
      is not modelled.  The only invalid operation the program can form is the
      quotient 0/0, which IEEE arithmetic and numpy answer with NaN.
    - A Python [dict] is an association list in insertion order with unique
      keys ([dict_set] overwrites in place, as Python does).
    - Code that may raise runs in a state-and-exception monad [M]: the state
      reached when the exception is raised is kept, as in Python.
    - The embedding model and the language model are collaborators: they are
      function-valued fields of the objects that own them. *)

From Stdlib Require Import List String Bool Arith ZArith QArith Lia Lqa.
Import ListNotations.

Local Open Scope string_scope.
Local Open Scope list_scope.

(** ** Exceptions and the monad *)

Inductive exn : Type :=
| ValueError (msg : string)
| AttributeError (msg : string)
| TypeError (msg : string)
| EmbeddingError (msg : string).

Inductive res (A : Type) : Type :=
| Ok (a : A)
| Raise (e : exn).

Arguments Ok {A} a.
Arguments Raise {A} e.

Definition M (S A : Type) : Type := S -> res A * S.

Definition ret {S A : Type} (a : A) : M S A := fun s => (Ok a, s).

Definition raise {S A : Type} (e : exn) : M S A := fun s => (Raise e, s).

Definition bind {S A B : Type} (m : M S A) (k : A -> M S B) : M S B :=
  fun s =>
    match m s with
    | (Ok a, s') => k a s'
    | (Raise e, s') => (Raise e, s')
    end.

Definition get {S : Type} : M S S := fun s => (Ok s, s).

Definition put {S : Type} (s : S) : M S unit := fun _ => (Ok tt, s).

Definition lift_res {S A : Type} (r : res A) : M S A := fun s => (r, s).

Declare Scope monad_scope.
Delimit Scope monad_scope with monad.
Notation "x <- c ;; k" := (bind c (fun x => k))
  (at level 61, c at next level, right associativity) : monad_scope.
Notation "c ;;; k" := (bind c (fun _ => k))
  (at level 61, right associativity) : monad_scope.

(** ** Floats *)

Inductive pyfloat : Type :=
| Fin (q : Q)
| NaN.

Definition fadd (x y : pyfloat) : pyfloat :=
  match x, y with
  | Fin a, Fin b => Fin (a + b)
  | _, _ => NaN
  end.

(** Division.  A zero divisor yields [NaN]: the program only ever divides by
    zero when the dividend is zero too (an empty mean, a cosine against a
    zero vector, see [cosine_zero_denominator]). *)
Definition fdiv (x y : pyfloat) : pyfloat :=
  match x, y with
  | Fin a, Fin b => if Qeq_bool b 0 then NaN else Fin (a / b)
  | _, _ => NaN
  end.

(** [x < y] and [x > y]: false as soon as one side is NaN. *)
Definition flt (x y : pyfloat) : bool :=
  match x, y with
  | Fin a, Fin b => negb (Qle_bool b a)
  | _, _ => false
  end.

Definition fgt (x y : pyfloat) : bool := flt y x.

(** [x == y] on floats: rational equality, false on NaN. *)
Definition feq (x y : pyfloat) : bool :=
  match x, y with
  | Fin a, Fin b => Qeq_bool a b
  | _, _ => false
  end.

Definition is_nan (x : pyfloat) : bool :=
  match x with
  | NaN => true
  | Fin _ => false
  end.

Definition of_nat (n : nat) : pyfloat := Fin (inject_Z (Z.of_nat n)).

Definition fsum (l : list pyfloat) : pyfloat := fold_left fadd l (Fin 0).

(** [np.mean] of a list of floats; the mean of an empty list is NaN. *)
Definition np_mean (l : list pyfloat) : pyfloat := fdiv (fsum l) (of_nat (List.length l)).

(** ** Vectors ([utils/embeddings.py]) *)

Definition vec : Type := list Q.

Fixpoint np_dot (v1 v2 : vec) : Q :=
  match v1, v2 with
  | a :: v1', b :: v2' => a * b + np_dot v1' v2'
  | _, _ => 0
  end.

(** The square root of a rational, rounded up to a multiple of
    [2^-52 / Qden q]; exact on squares, and zero only at (or below) zero. *)
Definition np_sqrt (q : Q) : Q :=
  Qmake (Z.sqrt_up (Qnum q * Zpos (Qden q) * 4 ^ 52))
        (Qden q * 2 ^ 52)%positive.

Definition np_linalg_norm (v : vec) : Q := np_sqrt (np_dot v v).

(** [EmbeddingsGenerator.calculate_cosine_similarity]: the quotient is formed
    unconditionally. *)
Definition calculate_cosine_similarity (vector1 vector2 : vec) : pyfloat :=
  fdiv (Fin (np_dot vector1 vector2))
       (Fin (np_linalg_norm vector1 * np_linalg_norm vector2)).

(** The embedding model is a collaborator: [embed] is what
    [generate_embedding] computes, or the exception it raises. *)
Record EmbeddingsGenerator : Type := {
  model_name : string;
  embed : string -> res vec
}.

Definition generate_embedding (g : EmbeddingsGenerator) (text : string) : res vec :=
  embed g text.

(** [[self.generate_embedding(text) for text in texts]]: the first failure
    raises. *)
Fixpoint batch_generate_embeddings (g : EmbeddingsGenerator) (texts : list string)
  : res (list vec) :=
  match texts with
  | [] => Ok []
  | text :: texts' =>
      match generate_embedding g text with
      | Raise e => Raise e
      | Ok v =>
          match batch_generate_embeddings g texts' with
          | Raise e => Raise e
          | Ok vs => Ok (v :: vs)
          end
      end
  end.

(** ** Dictionaries *)

Definition dict (V : Type) : Type := list (string * V).

(** [d[k] = v]: overwrite in place when the key is present, append otherwise. *)
Fixpoint dict_set {V : Type} (d : dict V) (k : string) (v : V) : dict V :=
  match d with
  | [] => [(k, v)]
  | (k', v') :: d' =>
      if String.eqb k' k then (k, v) :: d' else (k', v') :: dict_set d' k v
  end.

Fixpoint dict_get {V : Type} (d : dict V) (k : string) : option V :=
  match d with
  | [] => None
  | (k', v') :: d' => if String.eqb k' k then Some v' else dict_get d' k
  end.

Definition dict_keys {V : Type} (d : dict V) : list string := map fst d.

Definition dict_values {V : Type} (d : dict V) : list V := map snd d.

Definition dict_mem {V : Type} (d : dict V) (k : string) : bool :=
  match dict_get d k with
  | Some _ => true
  | None => false
  end.

(** [max(items, key=lambda x: x[1])]: the running maximum is replaced only by
    an item whose key is strictly greater, so the first of several maxima is
    kept.  [None] stands for the [ValueError] on an empty sequence. *)
Definition max_step (best item : string * pyfloat) : string * pyfloat :=
  if fgt (snd item) (snd best) then item else best.

Definition py_max_by_score (items : list (string * pyfloat))
  : option (string * pyfloat) :=
  match items with
  | [] => None
  | first :: rest => Some (fold_left max_step rest first)
  end.

(** ** Routes ([routing/route.py]) *)

Record AdapterRoute : Type := {
  adapter_name : string;
  training_utterances : list string
}.

(** The arguments of the dataclass constructor before validation. *)
Inductive pyobj : Type :=
| PyNone
| PyStr (s : string)
| PyInt (z : Z)
| PyList (l : list string).

(** [AdapterRoute(adapter_name, training_utterances)] with its
    [__post_init__]: two [isinstance] checks and nothing else. *)
Definition AdapterRoute_new (name utterances : pyobj) : res AdapterRoute :=
  match name with
  | PyStr n =>
      match utterances with
      | PyList us => Ok {| adapter_name := n; training_utterances := us |}
      | _ => Raise (ValueError "training_utterances must be a list")
      end
  | _ => Raise (ValueError "adapter_name must be a string")
  end.

(** ** The router ([routing/router.py]) *)

(** [default_adapter_name] and [score_window] are assigned in [__init__] and
    never written again. *)
Definition default_adapter_name : string := "base".

Definition score_window : nat := 10.

Record SemanticRouter : Type := {
  embeddings_generator : EmbeddingsGenerator;
  base_threshold : pyfloat;
  route_embeddings : dict (list vec);
  historical_scores : list pyfloat
}.

Definition SemanticRouter_init (g : EmbeddingsGenerator) (similarity_threshold : pyfloat)
  : SemanticRouter :=
  {| embeddings_generator := g;
     base_threshold := similarity_threshold;
     route_embeddings := [];
     historical_scores := [] |}.

Definition set_route_embeddings (r : SemanticRouter) (d : dict (list vec)) : SemanticRouter :=
  {| embeddings_generator := embeddings_generator r;
     base_threshold := base_threshold r;
     route_embeddings := d;
     historical_scores := historical_scores r |}.

Definition set_historical_scores (r : SemanticRouter) (h : list pyfloat) : SemanticRouter :=
  {| embeddings_generator := embeddings_generator r;
     base_threshold := base_threshold r;
     route_embeddings := route_embeddings r;
     historical_scores := h |}.

Local Open Scope monad_scope.

Definition add_route (route : AdapterRoute) : M SemanticRouter unit :=
  match training_utterances route with
  | [] => ret tt
  | _ :: _ =>
      r <- get ;;
      embeddings <- lift_res (batch_generate_embeddings (embeddings_generator r)
                                (training_utterances route)) ;;
      put (set_route_embeddings r
             (dict_set (route_embeddings r) (adapter_name route) embeddings))
  end.

Fixpoint add_routes (routes : list AdapterRoute) : M SemanticRouter unit :=
  match routes with
  | [] => ret tt
  | route :: routes' => add_route route ;;; add_routes routes'
  end.

(** The body of the loop of [calculate_similarities]. *)
Definition similarity_step (query_embedding : vec) (similarities : dict pyfloat)
  (item : string * list vec) : dict pyfloat :=
  match snd item with
  | [] => similarities
  | _ :: _ =>
      dict_set similarities (fst item)
        (np_mean (map (calculate_cosine_similarity query_embedding) (snd item)))
  end.

Definition score_routes (query_embedding : vec) (routes : dict (list vec)) : dict pyfloat :=
  fold_left (similarity_step query_embedding) routes [].

Definition calculate_similarities (query : string) : M SemanticRouter (dict pyfloat) :=
  r <- get ;;
  query_embedding <- lift_res (generate_embedding (embeddings_generator r) query) ;;
  ret (score_routes query_embedding (route_embeddings r)).

(** [append] followed by one [pop(0)] when the window is exceeded. *)
Definition push_score (history : list pyfloat) (score : pyfloat) : list pyfloat :=
  let history' := history ++ [score] in
  if (score_window <? List.length history')%nat then tl history' else history'.

Definition fhalf (x : pyfloat) : pyfloat := fdiv x (Fin 2).

Definition calculate_dynamic_threshold (similarities : dict pyfloat)
  : M SemanticRouter pyfloat :=
  match similarities with
  | [] => r <- get ;; ret (base_threshold r)
  | _ :: _ =>
      r <- get ;;
      let current_mean := np_mean (dict_values similarities) in
      let history := push_score (historical_scores r) current_mean in
      put (set_historical_scores r history) ;;;
      let historical_mean := np_mean history in
      ret (fhalf (fadd historical_mean (base_threshold r)))
  end.

Definition route_query_with_scores (query : string)
  : M SemanticRouter (string * dict pyfloat) :=
  similarities <- calculate_similarities query ;;
  match similarities with
  | [] => ret (default_adapter_name, dict_set similarities default_adapter_name (Fin 0))
  | _ :: _ =>
      dynamic_threshold <- calculate_dynamic_threshold similarities ;;
      match py_max_by_score similarities with
      | None => raise (ValueError "max() arg is an empty sequence")
      | Some (best_adapter, best_score) =>
          let similarities' := dict_set similarities default_adapter_name (Fin 0) in
          if flt best_score dynamic_threshold
          then ret (default_adapter_name, similarities')
          else ret (best_adapter, similarities')
      end
  end.

Definition route_query (query : string) : M SemanticRouter string :=
  decision <- route_query_with_scores query ;;
  ret (fst decision).

(** ** The adapter manager ([core/adapter_manager.py]) *)

(** [peft_active] is the adapter currently set on the shared PEFT model
    ([peft_model.set_adapter]); [loaded_adapters] maps names to paths. *)
Record AdapterManager : Type := {
  loaded_adapters : dict string;
  peft_active : option string
}.

(** Every attribute an [AdapterManager] object has: the three fields assigned
    in [__init__] and the six methods of the class. *)
Inductive AdapterManager_attr : Type :=
| attr_base_model
| attr_peft_model
| attr_loaded_adapters
| meth_load_adapter_from_hub
| meth_load_adapter_from_directory
| meth_load_adapters_from_directory
| meth_load_adapters_from_hub
| meth_set_active_adapter
| meth_get_model.

Definition AdapterManager_attrs : dict AdapterManager_attr :=
  [ ("base_model", attr_base_model);
    ("peft_model", attr_peft_model);
    ("loaded_adapters", attr_loaded_adapters);
    ("load_adapter_from_hub", meth_load_adapter_from_hub);
    ("load_adapter_from_directory", meth_load_adapter_from_directory);
    ("load_adapters_from_directory", meth_load_adapters_from_directory);
    ("load_adapters_from_hub", meth_load_adapters_from_hub);
    ("set_active_adapter", meth_set_active_adapter);
    ("get_model", meth_get_model) ].

(** Attribute access [self.adapter_manager.<name>]. *)
Definition AdapterManager_getattr (name : string) : res AdapterManager_attr :=
  match dict_get AdapterManager_attrs name with
  | Some a => Ok a
  | None =>
      Raise (AttributeError
               (String.append "'AdapterManager' object has no attribute '"
                  (String.append name "'")))
  end.

(** Calling an attribute of the manager with no argument. *)
Definition AdapterManager_call0 (a : AdapterManager_attr) : M AdapterManager unit :=
  match a with
  | meth_get_model => ret tt
  | attr_base_model | attr_peft_model | attr_loaded_adapters =>
      raise (TypeError "object is not callable")
  | _ => raise (TypeError "missing required positional argument")
  end.

Definition set_active_adapter (name : string) : M AdapterManager unit :=
  if String.eqb name "base" then ret tt
  else
    am <- get ;;
    if dict_mem (loaded_adapters am) name
    then put {| loaded_adapters := loaded_adapters am; peft_active := Some name |}
    else raise (ValueError (String.append "Adapter "
                              (String.append name " not loaded"))).

(** ** The chat generator ([core/chat_generator.py]) *)

Record message : Type := {
  role : string;
  content : string
}.

(** The language model is a collaborator: [completion active messages stream]
    is the finite sequence of chunks [generate_chat_completion] yields when
    [active] is the adapter set on the model. *)
Record ChatGenerator : Type := {
  completion : option string -> list message -> bool -> list string
}.

(** ** The system ([main.py]) *)

(** What the system writes to its log and asks of the language model. *)
Inductive event : Type :=
| LogRoutingDecision (query selected : string) (dynamic_threshold mean_similarity : pyfloat)
| GenerationStarted (active : option string) (messages : list message) (stream : bool)
| ResponseGenerated (adapter : option string).

Record MixtureOfAdapters : Type := {
  verbose : bool;
  router : SemanticRouter;
  adapter_manager : AdapterManager;
  chat_generator : ChatGenerator;
  current_adapter : option string;
  trace : list event
}.

Definition set_router (m : MixtureOfAdapters) (r : SemanticRouter) : MixtureOfAdapters :=
  {| verbose := verbose m; router := r; adapter_manager := adapter_manager m;
     chat_generator := chat_generator m; current_adapter := current_adapter m;
     trace := trace m |}.

Definition set_adapter_manager (m : MixtureOfAdapters) (am : AdapterManager)
  : MixtureOfAdapters :=
  {| verbose := verbose m; router := router m; adapter_manager := am;
     chat_generator := chat_generator m; current_adapter := current_adapter m;
     trace := trace m |}.

Definition set_current_adapter (m : MixtureOfAdapters) (a : option string)
  : MixtureOfAdapters :=
  {| verbose := verbose m; router := router m; adapter_manager := adapter_manager m;
     chat_generator := chat_generator m; current_adapter := a;
     trace := trace m |}.

Definition set_trace (m : MixtureOfAdapters) (t : list event) : MixtureOfAdapters :=
  {| verbose := verbose m; router := router m; adapter_manager := adapter_manager m;
     chat_generator := chat_generator m; current_adapter := current_adapter m;
     trace := t |}.

Definition on_router {A : Type} (c : M SemanticRouter A) : M MixtureOfAdapters A :=
  fun m => let (a, r) := c (router m) in (a, set_router m r).

Definition on_adapter_manager {A : Type} (c : M AdapterManager A) : M MixtureOfAdapters A :=
  fun m => let (a, am) := c (adapter_manager m) in (a, set_adapter_manager m am).

Definition emit (e : event) : M MixtureOfAdapters unit :=
  fun m => (Ok tt, set_trace m (trace m ++ [e])).

(** The mean similarity [_log_routing_decision] prints: over the positive
    scores only. *)
Definition logged_mean (similarities : dict pyfloat) : pyfloat :=
  np_mean (filter (fun s => fgt s (Fin 0)) (dict_values similarities)).

(** [_log_routing_decision]: the threshold it prints is obtained by calling
    [calculate_dynamic_threshold] on the map it was handed.  The remaining
    statements only format the scores into log lines. *)
Definition log_routing_decision (query selected : string) (similarities : dict pyfloat)
  : M MixtureOfAdapters unit :=
  dynamic_threshold <- on_router (calculate_dynamic_threshold similarities) ;;
  let mean_similarity := logged_mean similarities in
  emit (LogRoutingDecision query selected dynamic_threshold mean_similarity).

(** [generate_response] up to the generation loop: routing, logging,
    activation, the write of [current_adapter] and the start of generation.
    Returns the adapter selected and the chunks the loop will yield. *)
Definition generate_response_setup (query : string) (messages : list message) (stream : bool)
  : M MixtureOfAdapters (string * list string) :=
  decision <- on_router (route_query_with_scores query) ;;
  m <- get ;;
  (if verbose m
   then log_routing_decision query (fst decision) (snd decision)
   else ret tt) ;;;
  (if String.eqb (fst decision) "base"
   then
     disable_all_adapters <- lift_res (AdapterManager_getattr "disable_all_adapters") ;;
     on_adapter_manager (AdapterManager_call0 disable_all_adapters)
   else on_adapter_manager (set_active_adapter (fst decision))) ;;;
  m <- get ;;
  put (set_current_adapter m (Some (fst decision))) ;;;
  m <- get ;;
  emit (GenerationStarted (peft_active (adapter_manager m)) messages stream) ;;;
  ret (fst decision,
       completion (chat_generator m) (peft_active (adapter_manager m)) messages stream).

(** The statements after the loop: the log line reads the shared field. *)
Definition generate_response_finish : M MixtureOfAdapters unit :=
  m <- get ;;
  emit (ResponseGenerated (current_adapter m)).

(** [generate_response] driven to exhaustion by one consumer, nothing else
    running in between. *)
Definition generate_response (query : string) (messages : list message) (stream : bool)
  : M MixtureOfAdapters (list string) :=
  started <- generate_response_setup query messages stream ;;
  generate_response_finish ;;;
  ret (snd started).

Definition get_current_adapter (m : MixtureOfAdapters) : option string :=
  current_adapter m.

(** ** The API server ([api/server.py]) *)

Definition exn_str (e : exn) : string :=
  match e with
  | ValueError msg | AttributeError msg | TypeError msg | EmbeddingError msg => msg
  end.

(** [get_current_adapter() or "base"]: [None] and the empty string are falsy. *)
Definition model_label (m : MixtureOfAdapters) : string :=
  match get_current_adapter m with
  | Some "" | None => "base"
  | Some name => name
  end.

Record GenerateRequest : Type := {
  request_messages : list message;
  request_stream : bool
}.

(** One server-sent event of [_format_chunk], without its timestamp. *)
Record sse : Type := {
  sse_content : string;
  sse_model : string
}.

Inductive http_reply : Type :=
| GenerateResponse (response_content response_model : string)
| EventSourceResponse (events : list sse)
| HTTPException (status_code : nat) (detail : string).

(** The content of the last message whose role is ["user"], else [""]. *)
Definition user_query (messages : list message) : string :=
  match filter (fun msg => String.eqb (role msg) "user") (rev messages) with
  | msg :: _ => content msg
  | [] => ""
  end.

Definition format_chunk (m : MixtureOfAdapters) (text : string) : sse :=
  {| sse_content := text; sse_model := model_label m |}.

Definition nonempty (s : string) : bool := negb (String.eqb s "").

(** [_generate_stream] of a request that is served alone, consumed to its
    end without another request running in between: an exception becomes
    one ["Error: ..."] event.  Requests that interleave are the subject of
    [resume] and [loop_step] below, where the label is read at every
    chunk. *)
Definition generate_stream (query : string) (messages : list message)
  : MixtureOfAdapters -> list sse * MixtureOfAdapters :=
  fun m =>
    match generate_response_setup query messages true m with
    | (Raise e, m') => ([format_chunk m' (String.append "Error: " (exn_str e))], m')
    | (Ok started, m') =>
        (map (format_chunk m') (filter nonempty (snd started)),
         snd (generate_response_finish m'))
    end.

(** The [/generate] endpoint. *)
Definition api_generate (request : GenerateRequest)
  : MixtureOfAdapters -> http_reply * MixtureOfAdapters :=
  fun m =>
    let query := user_query (request_messages request) in
    if request_stream request
    then
      let (events, m') := generate_stream query (request_messages request) m in
      (EventSourceResponse events, m')
    else
      match generate_response query (request_messages request) false m with
      | (Ok chunks, m') => (GenerateResponse (String.concat "" chunks) (model_label m'), m')
      | (Raise e, m') => (HTTPException 500 (exn_str e), m')
      end.

(** ** Streaming requests on the event loop

    Each streaming request is a task of the server's single event loop.  A
    task runs without interruption from one suspension point to the next:
    the set-up of [generate_response] runs up to the first
    [await asyncio.sleep(0)] of the chunk iterator, and every later
    resumption delivers one chunk.  Between two resumptions of a task any
    other task may run. *)

Inductive task : Type :=
| Pending (query : string) (messages : list message)
| Streaming (adapter : string) (pending : list string)
| Finished.

(** What an observer of the server sees. *)
Inductive delivery : Type :=
| Activated (id : nat) (adapter : string)
| Chunk (id : nat) (adapter label : string) (backend : option string) (text : string)
| ErrorChunk (id : nat) (label text : string).

Definition resume (id : nat) (t : task) (m : MixtureOfAdapters)
  : task * list delivery * MixtureOfAdapters :=
  match t with
  | Pending query messages =>
      match generate_response_setup query messages true m with
      | (Ok started, m') =>
          (Streaming (fst started) (snd started), [Activated id (fst started)], m')
      | (Raise e, m') =>
          (Finished,
           [ErrorChunk id (model_label m') (String.append "Error: " (exn_str e))], m')
      end
  | Streaming adapter (text :: pending) =>
      (Streaming adapter pending,
       if nonempty text
       then [Chunk id adapter (model_label m) (peft_active (adapter_manager m)) text]
       else [],
       m)
  | Streaming adapter [] => (Finished, [], snd (generate_response_finish m))
  | Finished => (Finished, [], m)
  end.

Fixpoint replace_nth {A : Type} (n : nat) (l : list A) (x : A) : list A :=
  match l, n with
  | [], _ => []
  | _ :: l', O => x :: l'
  | y :: l', S n' => y :: replace_nth n' l' x
  end.

Record server : Type := {
  tasks : list task;
  system : MixtureOfAdapters;
  delivered : list delivery
}.

(** The event loop resumes task [id]; an index with no task is a no-op. *)
Definition loop_step (s : server) (id : nat) : server :=
  match nth_error (tasks s) id with
  | None => s
  | Some t =>
      let '(t', out, m') := resume id t (system s) in
      {| tasks := replace_nth id (tasks s) t';
         system := m';
         delivered := delivered s ++ out |}
  end.

Definition run_schedule (s : server) (schedule : list nat) : server :=
  fold_left loop_step schedule s.

(** The adapter under which a task is using the backend, if it is. *)
Definition holds_backend (t : task) : option string :=
  match t with
  | Streaming adapter _ => Some adapter
  | _ => None
  end.

(** No two tasks use the backend under different adapter names. *)
Definition exclusive (ts : list task) : Prop :=
  forall i j a b,
    option_map holds_backend (nth_error ts i) = Some (Some a) ->
    option_map holds_backend (nth_error ts j) = Some (Some b) ->
    a = b.

(** The adapter of the latest set-up among the deliveries. *)
Fixpoint last_activated (ds : list delivery) : option string :=
  match ds with
  | [] => None
  | d :: ds' =>
      match last_activated ds' with
      | Some a => Some a
      | None =>
          match d with
          | Activated _ a => Some a
          | _ => None
          end
      end
  end.

(** The label [_format_chunk] shows for an adapter name. *)
Definition label_of (adapter : string) : string :=
  if String.eqb adapter "" then "base" else adapter.

(** Every chunk is delivered while the backend is set to the adapter of the
    latest set-up that precedes it, and carries that adapter's label.  (The
    text of the chunk is another matter: it is fixed by the set-up of the
    chunk's own request.) *)
Definition chunks_follow_latest (ds : list delivery) : Prop :=
  forall before id adapter label backend text after,
    ds = before ++ Chunk id adapter label backend text :: after ->
    exists latest,
      last_activated before = Some latest /\
      backend = Some latest /\
      label = label_of latest.

(** What every schedule maintains of the server. *)
Definition last_writer_wins (s : server) : Prop :=
  current_adapter (system s) = last_activated (delivered s) /\
  (forall a, current_adapter (system s) = Some a ->
             peft_active (adapter_manager (system s)) = Some a) /\
  (forall t a, In t (tasks s) -> holds_backend t = Some a ->
               current_adapter (system s) <> None) /\
  chunks_follow_latest (delivered s).

(** ** Operations of the router, as a caller may issue them *)

Inductive router_op : Type :=
| op_add_route (route : AdapterRoute)
| op_add_routes (routes : list AdapterRoute)
| op_calculate_similarities (query : string)
| op_calculate_dynamic_threshold (similarities : dict pyfloat)
| op_route_query (query : string)
| op_route_query_with_scores (query : string).

(** The router after an operation, whether it returned or raised. *)
Definition run_op (r : SemanticRouter) (op : router_op) : SemanticRouter :=
  match op with
  | op_add_route route => snd (add_route route r)
  | op_add_routes routes => snd (add_routes routes r)
  | op_calculate_similarities query => snd (calculate_similarities query r)
  | op_calculate_dynamic_threshold similarities =>
      snd (calculate_dynamic_threshold similarities r)
  | op_route_query query => snd (route_query query r)
  | op_route_query_with_scores query => snd (route_query_with_scores query r)
  end.

Definition run_ops (r : SemanticRouter) (ops : list router_op) : SemanticRouter :=
  fold_left run_op ops r.

(** ** The specification's wording of the components *)

(** The scores of a similarity map without its fallback entry. *)
Definition non_fallback (similarities : dict pyfloat) : dict pyfloat :=
  filter (fun entry => negb (String.eqb (fst entry) default_adapter_name)) similarities.

(** The threshold estimator as the specification words it: the mean pushed
    is that of the non-fallback scores. *)
Definition spec_next_threshold (similarities : dict pyfloat) (r : SemanticRouter)
  : pyfloat * SemanticRouter :=
  match similarities with
  | [] => (base_threshold r, r)
  | _ :: _ =>
      let current_mean := np_mean (dict_values (non_fallback similarities)) in
      let history := push_score (historical_scores r) current_mean in
      (fhalf (fadd (np_mean history) (base_threshold r)),
       set_historical_scores r history)
  end.

(** An entry of the map that no other entry beats. *)
Definition highest (similarities : dict pyfloat) (best : string * pyfloat) : Prop :=
  In best similarities /\
  forall entry, In entry similarities -> fgt (snd entry) (snd best) = false.

(** The entry one route contributes to the similarity map. *)
Definition score_entry (query_embedding : vec) (item : string * list vec)
  : string * pyfloat :=
  (fst item, np_mean (map (calculate_cosine_similarity query_embedding) (snd item))).

Definition has_embeddings (item : string * list vec) : bool :=
  match snd item with
  | [] => false
  | _ :: _ => true
  end.

(** The keys of a Python dictionary are pairwise distinct. *)
Definition dict_wf {V : Type} (d : dict V) : Prop := NoDup (dict_keys d).

(** What [add_route] maintains of the registry: distinct names, and at
    least one reference embedding under each. *)
Definition routes_wf (routes : dict (list vec)) : Prop :=
  dict_wf routes /\ forall item, In item routes -> has_embeddings item = true.

(** A highest entry that comes before every entry of equal score. *)
Definition first_highest (similarities : dict pyfloat) (best : string * pyfloat) : Prop :=
  highest similarities best /\
  exists before after,
    similarities = before ++ best :: after /\
    forall entry, In entry before -> feq (snd entry) (snd best) = false.

(** The routes that take effect, in registration order: a route is
    registered when [add_route] is called on it with at least one utterance;
    registering a name again keeps its place. *)
Fixpoint registration_order (routes : list AdapterRoute) (seen : list string)
  : list string :=
  match routes with
  | [] => seen
  | route :: routes' =>
      match training_utterances route with
      | [] => registration_order routes' seen
      | _ :: _ =>
          if existsb (String.eqb (adapter_name route)) seen
          then registration_order routes' seen
          else registration_order routes' (seen ++ [adapter_name route])
      end
  end.

(** The position of a name in a list of names ([None] when absent). *)
Fixpoint index_of (name : string) (names : list string) : option nat :=
  match names with
  | [] => None
  | n :: names' =>
      if String.eqb n name then Some O
      else option_map S (index_of name names')
  end.

(** ** A small installation used to run the definitions *)

Definition demo_embed (text : string) : res vec :=
  if String.eqb text "alpha" then Ok [1%Q; 0%Q]
  else if String.eqb text "beta" then Ok [0%Q; 1%Q]
  else if String.eqb text "gamma" then Ok [3%Q; 4%Q]
  else if String.eqb text "zero" then Ok [0%Q; 0%Q]
  else Raise (EmbeddingError "embedding model unavailable").

Definition demo_embeddings : EmbeddingsGenerator :=
  {| model_name := "demo"; embed := demo_embed |}.

Definition route_a : AdapterRoute :=
  {| adapter_name := "a"; training_utterances := ["alpha"] |}.

Definition route_b : AdapterRoute :=
  {| adapter_name := "b"; training_utterances := ["beta"] |}.

Definition route_a2 : AdapterRoute :=
  {| adapter_name := "a2"; training_utterances := ["alpha"] |}.

Definition route_empty : AdapterRoute :=
  {| adapter_name := "e"; training_utterances := [] |}.

Definition route_degenerate : AdapterRoute :=
  {| adapter_name := "z"; training_utterances := ["zero"] |}.

Definition empty_router : SemanticRouter :=
  SemanticRouter_init demo_embeddings (Fin (7 # 10)).

Definition demo_router : SemanticRouter :=
  snd (add_routes [route_a; route_b] empty_router).

Definition tie_router : SemanticRouter :=
  snd (add_routes [route_b; route_a2; route_a] empty_router).

Definition degenerate_router : SemanticRouter :=
  snd (add_routes [route_degenerate] empty_router).

Definition demo_chat : ChatGenerator :=
  {| completion := fun active _ _ =>
       match active with
       | Some name => [String.append name "-1"; String.append name "-2"]
       | None => ["base-1"]
       end |}.

Definition demo_manager : AdapterManager :=
  {| loaded_adapters := [("a", "hub/a"); ("b", "hub/b")]; peft_active := Some "a" |}.

Definition demo_system (verbosity : bool) (r : SemanticRouter) : MixtureOfAdapters :=
  {| verbose := verbosity; router := r; adapter_manager := demo_manager;
     chat_generator := demo_chat; current_adapter := None; trace := [] |}.

Definition ask (text : string) : list message :=
  [{| role := "user"; content := text |}].

Definition demo_server : server :=
  {| tasks := [Pending "alpha" (ask "alpha"); Pending "beta" (ask "beta")];
     system := demo_system false demo_router;
     delivered := [] |}.

(** ** Sentences of the specification, as they are worded *)

(** Section 4.3: the estimator pushes the mean of the non-fallback scores. *)
Definition estimator_excludes_fallback : Prop :=
  forall similarities r,
    calculate_dynamic_threshold similarities r =
    (Ok (fst (spec_next_threshold similarities r)),
     snd (spec_next_threshold similarities r)).

(** Section 4.2: an adapter whose references all have zero norm is left out
    of the similarity map. *)
Definition degenerate_adapter_omitted : Prop :=
  forall r query similarities name embeddings,
    fst (calculate_similarities query r) = Ok similarities ->
    In (name, embeddings) (route_embeddings r) ->
    (forall e, In e embeddings -> np_linalg_norm e == 0) ->
    dict_get similarities name = None.

(** Section 7: a failure of the embedding collaborator makes the router
    select the fallback. *)
Definition embedding_failure_falls_back : Prop :=
  forall r query e,
    generate_embedding (embeddings_generator r) query = Raise e ->
    exists similarities r',
      route_query_with_scores query r = (Ok (default_adapter_name, similarities), r').

(** Section 4.1: registering a route without utterances fails. *)
Definition empty_route_rejected : Prop :=
  forall r route,
    training_utterances route = [] ->
    exists e, fst (add_route route r) = Raise e.

(** Section 8, property 4: whatever the schedule, no two requests use the
    backend under different adapters. *)
Definition requests_serialized : Prop :=
  forall s schedule,
    (forall t, In t (tasks s) -> holds_backend t = None) ->
    exclusive (tasks (run_schedule s schedule)).

(** How an operation may leave the history: untouched, or one push. *)
Definition history_step (h h' : list pyfloat) : Prop :=
  h' = h \/ exists x, h' = push_score h x.

(** The threshold [calculate_dynamic_threshold] returns and the router it
    leaves (it never raises, see [calculate_dynamic_threshold_total]). *)
Definition threshold_value (similarities : dict pyfloat) (r : SemanticRouter) : pyfloat :=
  match fst (calculate_dynamic_threshold similarities r) with
  | Ok t => t
  | Raise _ => NaN
  end.

Definition threshold_state (similarities : dict pyfloat) (r : SemanticRouter)
  : SemanticRouter :=
  snd (calculate_dynamic_threshold similarities r).

(** The events that are log lines. *)
Definition is_log (ev : event) : Prop :=
  match ev with
  | LogRoutingDecision _ _ _ _ => True
  | _ => False
  end.

(** ** Further notions used to state properties of the code *)

(** The last [n] elements of a list. *)
Definition last_n {A : Type} (n : nat) (l : list A) : list A :=
  skipn (List.length l - n) l.

(** The router after one threshold computation per map, in order. *)
Fixpoint feed (maps : list (dict pyfloat)) (r : SemanticRouter) : SemanticRouter :=
  match maps with
  | [] => r
  | similarities :: maps' => feed maps' (snd (calculate_dynamic_threshold similarities r))
  end.

(** Every route of the router names an adapter the manager has loaded. *)
Definition routes_loaded (m : MixtureOfAdapters) : Prop :=
  forall name,
    In name (dict_keys (route_embeddings (router m))) ->
    dict_mem (loaded_adapters (adapter_manager m)) name = true.


Definition route_failing : AdapterRoute :=
  {| adapter_name := "d"; training_utterances := ["alpha"; "delta"] |}.

Definition constant_maps : list (dict pyfloat) :=
  repeat [("a", Fin (9 # 10)); ("b", Fin (9 # 10))] 12.

(** ** Adapter directories ([core/adapter_loader.py]) *)

(** Exceptions of the loading code: those of [exn], plus the ones file and
    dictionary access raise.  [OSError] stands for any other failure of a
    collaborator (reading or decoding a file, the hub, the PEFT library). *)
Inductive error : Type :=
| Builtin (e : exn)
| KeyError (key : string)
| FileNotFoundError (msg : string)
| NotADirectoryError (msg : string)
| OSError (msg : string).

Inductive outcome (A : Type) : Type :=
| Returned (a : A)
| Raised (e : error).

Arguments Returned {A} a.
Arguments Raised {A} e.

(** A decoded JSON document.  Arrays are arrays of strings, the only arrays
    the code reads ([questions]). *)
#[warnings="-register-all"]
Inductive json : Type :=
| JNull
| JBool (b : bool)
| JNum (z : Z)
| JStr (s : string)
| JStrings (items : list string)
| JObj (fields : list (string * json)).

(** A [Path], by components. *)
Definition path : Type := list string.

Definition path_str (p : path) : string := String.concat "/" p.

Definition path_name (p : path) : string := last p "".

Definition joinpath (p : path) (file : string) : path := p ++ [file].

(** The file system as the loader consults it; [fs_load_json] is [open]
    followed by [json.load]. *)
Record filesystem : Type := {
  fs_exists : path -> bool;
  fs_is_dir : path -> bool;
  fs_iterdir : path -> outcome (list path);
  fs_load_json : path -> outcome json
}.

Fixpoint contains (needle hay : string) : bool :=
  if String.prefix needle hay then true
  else
    match hay with
    | EmptyString => false
    | String _ hay' => contains needle hay'
    end.

(** [key in container]. *)
Definition py_in (key : string) (container : json) : outcome bool :=
  match container with
  | JObj fields => Returned (dict_mem fields key)
  | JStrings items => Returned (existsb (String.eqb key) items)
  | JStr s => Returned (contains key s)
  | JNull | JBool _ | JNum _ =>
      Raised (Builtin (TypeError "argument is not iterable"))
  end.

(** [container[key]] for a string key. *)
Definition py_getitem (container : json) (key : string) : outcome json :=
  match container with
  | JObj fields =>
      match dict_get fields key with
      | Some v => Returned v
      | None => Raised (KeyError key)
      end
  | JStrings _ | JStr _ =>
      Raised (Builtin (TypeError "indices must be integers"))
  | JNull | JBool _ | JNum _ =>
      Raised (Builtin (TypeError "object is not subscriptable"))
  end.

(** A decoded value as an argument of the [AdapterRoute] constructor, which
    only asks whether it is a string or a list: booleans are integers, and
    an object, being neither, is passed like [None]. *)
Definition pyobj_of_json (v : json) : pyobj :=
  match v with
  | JNull => PyNone
  | JBool b => PyInt (if b then 1 else 0)
  | JNum z => PyInt z
  | JStr s => PyStr s
  | JStrings items => PyList items
  | JObj _ => PyNone
  end.

Definition of_res {A : Type} (r : res A) : outcome A :=
  match r with
  | Ok a => Returned a
  | Raise e => Raised (Builtin e)
  end.

Definition required_files : list string :=
  ["adapter_config.json"; "adapter_model.bin"; "config.json"].

Definition validate_adapter_directory (fs : filesystem) (adapter_dir : path) : bool :=
  forallb (fun file => fs_exists fs (joinpath adapter_dir file)) required_files.

Definition load_adapter_config (fs : filesystem) (adapter_dir : path) : outcome json :=
  let config_path := joinpath adapter_dir "adapter_config.json" in
  if negb (fs_exists fs config_path)
  then Raised (FileNotFoundError
                 (String.append "Adapter config not found at " (path_str config_path)))
  else fs_load_json fs config_path.

Definition extract_routing_config (adapter_config : json) (name : string)
  : outcome (option AdapterRoute) :=
  match py_in "semantic_routing" adapter_config with
  | Raised e => Raised e
  | Returned false => Returned None
  | Returned true =>
      match py_getitem adapter_config "semantic_routing" with
      | Raised e => Raised e
      | Returned section =>
          match py_getitem section "questions" with
          | Raised e => Raised e
          | Returned utterances =>
              match of_res (AdapterRoute_new (PyStr name) (pyobj_of_json utterances)) with
              | Raised e => Raised e
              | Returned route => Returned (Some route)
              end
          end
      end
  end.

(** The dictionary [load_from_directory] returns. *)
Record adapter_info : Type := {
  info_name : string;
  info_path : path;
  info_config : json;
  info_route : option AdapterRoute
}.

Definition load_from_directory (fs : filesystem) (adapter_dir : path)
  (name : option string) : outcome adapter_info :=
  if negb (validate_adapter_directory fs adapter_dir)
  then Raised (Builtin (ValueError (String.append "Invalid adapter directory: "
                                      (path_str adapter_dir))))
  else
    let name' :=
      match name with
      | None => path_name adapter_dir
      | Some n => n
      end in
    match load_adapter_config fs adapter_dir with
    | Raised e => Raised e
    | Returned adapter_config =>
        match extract_routing_config adapter_config name' with
        | Raised e => Raised e
        | Returned route_config =>
            Returned {| info_name := name'; info_path := adapter_dir;
                        info_config := adapter_config; info_route := route_config |}
        end
    end.

(** The body of the loop of [load_from_directories]: a failing directory is
    reported and skipped. *)
Definition collect_adapter (fs : filesystem) (adapters : list adapter_info)
  (dir_path : path) : list adapter_info :=
  if fs_is_dir fs dir_path && validate_adapter_directory fs dir_path
  then
    match load_from_directory fs dir_path None with
    | Returned info => adapters ++ [info]
    | Raised _ => adapters
    end
  else adapters.

Definition load_from_directories (fs : filesystem) (base_dir : path)
  : outcome (list adapter_info) :=
  if negb (fs_exists fs base_dir)
  then Raised (NotADirectoryError
                 (String.append "Directory not found: " (path_str base_dir)))
  else
    match fs_iterdir fs base_dir with
    | Raised e => Raised e
    | Returned entries => Returned (fold_left (collect_adapter fs) entries [])
    end.

(** ** Loading adapters ([core/adapter_manager.py], [main.py]) *)

(** The collaborators of loading: the file system, the configuration file
    of a hub repository ([hf_hub_download], [open], [json.load]), and the two
    PEFT entry points, each of which returns or raises. *)
Record environment : Type := {
  files : filesystem;
  hub_config : string -> outcome json;
  from_pretrained : string -> string -> outcome unit;
  load_adapter : string -> string -> outcome unit
}.

(** "Initialize PEFT model if not already done": the first adapter creates
    the PEFT model and is its active adapter, a later one is added to it.
    [peft_active] is [None] for as long as there is no PEFT model. *)
Definition peft_load (env : environment) (adapter_path name : string)
  (am : AdapterManager) : outcome unit * AdapterManager :=
  match peft_active am with
  | None =>
      match from_pretrained env adapter_path name with
      | Returned _ =>
          (Returned tt,
           {| loaded_adapters := loaded_adapters am; peft_active := Some name |})
      | Raised e => (Raised e, am)
      end
  | Some _ =>
      match load_adapter env adapter_path name with
      | Returned _ => (Returned tt, am)
      | Raised e => (Raised e, am)
      end
  end.

Definition record_loaded (name adapter_path : string) (am : AdapterManager)
  : AdapterManager :=
  {| loaded_adapters := dict_set (loaded_adapters am) name adapter_path;
     peft_active := peft_active am |}.

(** The [try] block of [load_adapter_from_hub]: any exception yields no
    route. *)
Definition hub_route (env : environment) (name adapter_path : string)
  : option AdapterRoute :=
  match hub_config env adapter_path with
  | Raised _ => None
  | Returned adapter_config =>
      match extract_routing_config adapter_config name with
      | Returned route => route
      | Raised _ => None
      end
  end.

Definition load_adapter_from_hub (env : environment) (name adapter_path : string)
  (am : AdapterManager) : outcome (option AdapterRoute) * AdapterManager :=
  match peft_load env adapter_path name am with
  | (Raised e, am1) => (Raised e, am1)
  | (Returned _, am1) =>
      (Returned (hub_route env name adapter_path), record_loaded name adapter_path am1)
  end.

Definition load_adapter_from_directory (env : environment) (adapter_dir : path)
  (name : option string) (am : AdapterManager)
  : outcome (option AdapterRoute) * AdapterManager :=
  match load_from_directory (files env) adapter_dir name with
  | Raised e => (Raised e, am)
  | Returned info =>
      match peft_load env (path_str (info_path info)) (info_name info) am with
      | (Raised e, am1) => (Raised e, am1)
      | (Returned _, am1) =>
          (Returned (info_route info),
           record_loaded (info_name info) (path_str (info_path info)) am1)
      end
  end.

Definition keep_route (route : option AdapterRoute) (routes : list AdapterRoute)
  : list AdapterRoute :=
  match route with
  | Some r => routes ++ [r]
  | None => routes
  end.

(** The loop of [load_adapters_from_hub], over the items of the dictionary. *)
Fixpoint load_hub_items (env : environment) (items : list (string * string))
  (routes : list AdapterRoute) (am : AdapterManager)
  : outcome (list AdapterRoute) * AdapterManager :=
  match items with
  | [] => (Returned routes, am)
  | (name, adapter_path) :: items' =>
      match load_adapter_from_hub env name adapter_path am with
      | (Raised e, am1) => (Raised e, am1)
      | (Returned route, am1) => load_hub_items env items' (keep_route route routes) am1
      end
  end.

Definition load_adapters_from_hub (env : environment) (adapter_configs : dict string)
  (am : AdapterManager) : outcome (list AdapterRoute) * AdapterManager :=
  load_hub_items env adapter_configs [] am.

(** The loop of [load_adapters_from_directory]. *)
Fixpoint load_infos (env : environment) (infos : list adapter_info)
  (routes : list AdapterRoute) (am : AdapterManager)
  : outcome (list AdapterRoute) * AdapterManager :=
  match infos with
  | [] => (Returned routes, am)
  | info :: infos' =>
      match load_adapter_from_directory env (info_path info) (Some (info_name info)) am with
      | (Raised e, am1) => (Raised e, am1)
      | (Returned route, am1) => load_infos env infos' (keep_route route routes) am1
      end
  end.

Definition load_adapters_from_directory (env : environment) (base_dir : path)
  (am : AdapterManager) : outcome (list AdapterRoute) * AdapterManager :=
  match load_from_directories (files env) base_dir with
  | Raised e => (Raised e, am)
  | Returned infos => load_infos env infos [] am
  end.

(** The adapter configuration ([config/adapter_config.py]). *)
Record HubAdapter : Type := {
  hub_name : string;
  repo_id : string
}.

Record LocalAdapter : Type := {
  local_name : string;
  local_path : path
}.

Record AdapterConfig : Type := {
  hub_adapters : list HubAdapter;
  local_adapters : list LocalAdapter
}.

(** [{adapter.name: adapter.repo_id for adapter in hub_adapters}]. *)
Definition hub_dict (adapters : list HubAdapter) : dict string :=
  fold_left (fun d adapter => dict_set d (hub_name adapter) (repo_id adapter)) adapters [].

(** The loop of [_load_adapters] over the local adapters. *)
Fixpoint load_local_adapters (env : environment) (adapters : list LocalAdapter)
  (routes : list AdapterRoute) (am : AdapterManager)
  : outcome (list AdapterRoute) * AdapterManager :=
  match adapters with
  | [] => (Returned routes, am)
  | adapter :: adapters' =>
      match load_adapter_from_directory env (local_path adapter)
              (Some (local_name adapter)) am with
      | (Raised e, am1) => (Raised e, am1)
      | (Returned route, am1) =>
          load_local_adapters env adapters' (keep_route route routes) am1
      end
  end.

(** [MixtureOfAdapters._load_adapters]: adapters from the hub, then local
    ones, then the routes collected go to the router. *)
Definition load_adapters (env : environment) (config : AdapterConfig)
  (m : MixtureOfAdapters) : outcome unit * MixtureOfAdapters :=
  let am := adapter_manager m in
  match
    match hub_adapters config with
    | [] => (Returned [], am)
    | _ :: _ => load_adapters_from_hub env (hub_dict (hub_adapters config)) am
    end
  with
  | (Raised e, am1) => (Raised e, set_adapter_manager m am1)
  | (Returned hub_routes, am1) =>
      match
        match local_adapters config with
        | [] => (Returned hub_routes, am1)
        | _ :: _ => load_local_adapters env (local_adapters config) hub_routes am1
        end
      with
      | (Raised e, am2) => (Raised e, set_adapter_manager m am2)
      | (Returned routes, am2) =>
          let m2 := set_adapter_manager m am2 in
          match routes with
          | [] => (Returned tt, m2)
          | _ :: _ =>
              match add_routes routes (router m2) with
              | (Ok _, r) => (Returned tt, set_router m2 r)
              | (Raise e, r) => (Raised (Builtin e), set_router m2 r)
              end
          end
      end
  end.

(** A file system holding one adapter directory, and collaborators that
    always succeed. *)
Definition demo_dir : path := ["adapters"; "custom"].

Definition path_eqb (p q : path) : bool :=
  if list_eq_dec string_dec p q then true else false.

Definition demo_config : json :=
  JObj [("peft_type", JStr "LORA");
        ("semantic_routing", JObj [("questions", JStrings ["alpha"])])].

Definition demo_files : filesystem :=
  {| fs_exists := fun p =>
       existsb (path_eqb p)
         [["adapters"]; demo_dir; joinpath demo_dir "adapter_config.json";
          joinpath demo_dir "adapter_model.bin"; joinpath demo_dir "config.json";
          ["adapters"; "notes.txt"]];
     fs_is_dir := fun p => existsb (path_eqb p) [["adapters"]; demo_dir];
     fs_iterdir := fun p =>
       if path_eqb p ["adapters"]
       then Returned [["adapters"; "notes.txt"]; demo_dir]
       else Raised (NotADirectoryError (path_str p));
     fs_load_json := fun p =>
       if path_eqb p (joinpath demo_dir "adapter_config.json")
       then Returned demo_config
       else Raised (OSError "unreadable") |}.

Definition demo_environment : environment :=
  {| files := demo_files;
     hub_config := fun _ => Returned demo_config;
     from_pretrained := fun _ _ => Returned tt;
     load_adapter := fun _ _ => Returned tt |}.

Definition fresh_manager : AdapterManager :=
  {| loaded_adapters := []; peft_active := None |}.

Definition fresh_system : MixtureOfAdapters :=
  {| verbose := true; router := empty_router; adapter_manager := fresh_manager;
     chat_generator := demo_chat; current_adapter := None; trace := [] |}.

Definition demo_adapter_config : AdapterConfig :=
  {| hub_adapters := [{| hub_name := "hub"; repo_id := "user/hub" |}];
     local_adapters := [{| local_name := "custom"; local_path := demo_dir |}] |}.

(** Every adapter loaded in [am] is loaded in [am']. *)
Definition loaded_grows (am am' : AdapterManager) : Prop :=
  forall name,
    dict_mem (loaded_adapters am) name = true ->
    dict_mem (loaded_adapters am') name = true.

(** Every route of a list names an adapter the manager has loaded. *)
Definition routes_named_loaded (routes : list AdapterRoute) (am : AdapterManager) : Prop :=
  forall route,
    In route routes -> dict_mem (loaded_adapters am) (adapter_name route) = true.

(** A routing section without its [questions], on the hub and in a
    directory. *)
Definition broken_config : json := JObj [("semantic_routing", JObj [])].

Definition broken_environment : environment :=
  {| files :=
       {| fs_exists := fun _ => true;
          fs_is_dir := fun _ => true;
          fs_iterdir := fun _ => Returned [];
          fs_load_json := fun _ => Returned broken_config |};
     hub_config := fun _ => Returned broken_config;
     from_pretrained := fun _ _ => Returned tt;
     load_adapter := fun _ _ => Returned tt |}.

(** The chunk events of a request served under its own adapter. *)
Definition own_chunks (id : nat) (adapter : string) (chunks : list string)
  : list delivery :=
  map (fun text => Chunk id adapter (label_of adapter) (Some adapter) text)
    (filter nonempty chunks).

(** ** Notions used to state the routing decision *)

(** [x <= y] on floats: false as soon as one side is NaN. *)
Definition fle (x y : pyfloat) : bool :=
  match x, y with
  | Fin a, Fin b => Qle_bool a b
  | _, _ => false
  end.

(** No score of the map is NaN. *)
Definition no_nan (similarities : dict pyfloat) : Prop :=
  forall entry, In entry similarities -> is_nan (snd entry) = false.

(** The first entry that holds the maximum score: a number, strictly above
    the score of every entry before it and at least the score of every
    entry after it. *)
Definition first_maximum (similarities : dict pyfloat) (best : string * pyfloat) : Prop :=
  exists before after,
    similarities = before ++ best :: after /\
    (forall entry, In entry before -> flt (snd entry) (snd best) = true) /\
    (forall entry, In entry after -> fle (snd entry) (snd best) = true) /\
    is_nan (snd best) = false.

(** The entries of the map whose score is a number. *)
Definition finite_scores (similarities : dict pyfloat) : dict pyfloat :=
  filter (fun entry => negb (is_nan (snd entry))) similarities.

(** Section 4.4, the decision as worded: the fallback exactly when the map
    without its fallback entry is empty or its highest score is below the
    dynamic threshold, and the highest-scoring adapter otherwise. *)
Definition fallback_exactly_below_threshold : Prop :=
  forall r query similarities selected reported r',
    fst (calculate_similarities query r) = Ok similarities ->
    route_query_with_scores query r = (Ok (selected, reported), r') ->
    (selected = default_adapter_name <->
     non_fallback similarities = [] \/
     exists best,
       first_maximum (non_fallback similarities) best /\
       flt (snd best) (threshold_value similarities r) = true) /\
    (selected <> default_adapter_name ->
     exists score, first_maximum (non_fallback similarities) (selected, score)).

(** Section 4.4, the tie-break as worded: when several adapters share the
    maximum score, the one of them that was registered earliest is the one
    returned (unless the fallback is). *)
Definition earliest_of_tied_maximum_returned : Prop :=
  forall g similarity_threshold routes r r' query similarities reported selected
         name score i,
    add_routes routes (SemanticRouter_init g similarity_threshold) = (Ok tt, r) ->
    fst (calculate_similarities query r) = Ok similarities ->
    route_query_with_scores query r = (Ok (selected, reported), r') ->
    In (name, score) similarities ->
    is_nan score = false ->
    (forall entry, In entry similarities -> fgt (snd entry) score = false) ->
    (exists other, In other similarities /\ fst other <> name /\
                   feq (snd other) score = true) ->
    index_of name (registration_order routes []) = Some i ->
    (forall other j,
        In other similarities -> fst other <> name ->
        feq (snd other) score = true ->
        index_of (fst other) (registration_order routes []) = Some j ->
        (i < j)%nat) ->
    selected = name \/ selected = default_adapter_name.

Definition route_base : AdapterRoute :=
  {| adapter_name := "base"; training_utterances := ["alpha"] |}.

Definition route_gamma : AdapterRoute :=
  {| adapter_name := "a"; training_utterances := ["gamma"] |}.

Definition base_named_router : SemanticRouter :=
  snd (add_routes [route_base; route_gamma]
         (SemanticRouter_init demo_embeddings (Fin (1 # 10)))).

Definition nan_first_router : SemanticRouter :=
  snd (add_routes [route_degenerate; route_a2; route_a] empty_router).

(** ** The messages of a request as the handler receives them *)






(** * Proofs *)

Ltac step_monad :=
  unfold bind, ret, raise, get, put, lift_res, on_router, on_adapter_manager, emit in *.

(** ** Floats *)

Lemma flt_irrefl (x : pyfloat) : flt x x = false.
Proof.
  destruct x as [a|]; simpl; [|reflexivity].
  apply negb_false_iff, Qle_bool_iff, Qle_refl.
Qed.

Lemma flt_fin (a b : Q) : flt (Fin a) (Fin b) = true <-> a < b.
Proof.
  simpl. rewrite negb_true_iff. split; intro H.
  - apply Qnot_le_lt. intro Hle. apply Qle_bool_iff in Hle. congruence.
  - destruct (Qle_bool b a) eqn:E; [|reflexivity].
    apply Qle_bool_iff in E. exfalso. apply (Qlt_not_le _ _ H E).
Qed.

Lemma flt_fin_false (a b : Q) : flt (Fin a) (Fin b) = false <-> b <= a.
Proof.
  simpl. rewrite negb_false_iff. apply Qle_bool_iff.
Qed.

Lemma flt_trans (x y z : pyfloat) :
  flt x y = true -> flt y z = true -> flt x z = true.
Proof.
  destruct x as [a|], y as [b|], z as [c|]; try discriminate.
  rewrite !flt_fin. apply Qlt_trans.
Qed.

Lemma flt_asym (x y : pyfloat) : flt x y = true -> flt y x = false.
Proof.
  destruct x as [a|], y as [b|]; try discriminate.
  rewrite flt_fin, flt_fin_false. apply Qlt_le_weak.
Qed.

Lemma feq_fin (a b : Q) : feq (Fin a) (Fin b) = true <-> a == b.
Proof. simpl. apply Qeq_bool_iff. Qed.

Lemma fadd_nan_l (x : pyfloat) : fadd NaN x = NaN.
Proof. reflexivity. Qed.

Lemma fadd_nan_r (x : pyfloat) : fadd x NaN = NaN.
Proof. destruct x; reflexivity. Qed.

Lemma fold_fadd_nan (l : list pyfloat) : fold_left fadd l NaN = NaN.
Proof. induction l as [|x l IH]; simpl; [reflexivity | exact IH]. Qed.

Lemma fsum_nan (l : list pyfloat) : In NaN l -> fsum l = NaN.
Proof.
  unfold fsum. generalize (Fin 0). induction l as [|x l IH]; intros acc Hin.
  - contradiction.
  - simpl. destruct Hin as [-> | Hin].
    + rewrite fadd_nan_r. apply fold_fadd_nan.
    + apply IH, Hin.
Qed.

Lemma np_mean_nan (l : list pyfloat) : In NaN l -> np_mean l = NaN.
Proof. intro H. unfold np_mean. rewrite (fsum_nan l H). reflexivity. Qed.

(** ** The bounded history *)

Lemma push_score_length (h : list pyfloat) (x : pyfloat) :
  (List.length h <= score_window)%nat ->
  (List.length (push_score h x) <= score_window)%nat.
Proof.
  intro Hle. unfold push_score.
  destruct (score_window <? List.length (h ++ [x]))%nat eqn:E.
  - destruct h as [|y h']; simpl in *.
    + unfold score_window. lia.
    + rewrite length_app in *. simpl in *. lia.
  - apply Nat.ltb_ge in E. exact E.
Qed.

Lemma push_score_below (h : list pyfloat) (x : pyfloat) :
  (List.length h < score_window)%nat -> push_score h x = h ++ [x].
Proof.
  intro Hlt. unfold push_score.
  destruct (score_window <? List.length (h ++ [x]))%nat eqn:E; [|reflexivity].
  apply Nat.ltb_lt in E. rewrite length_app in E. simpl in E. lia.
Qed.

Lemma push_score_full (h : list pyfloat) (x : pyfloat) :
  List.length h = score_window -> push_score h x = tl h ++ [x].
Proof.
  intro Heq. unfold push_score.
  destruct (score_window <? List.length (h ++ [x]))%nat eqn:E.
  - destruct h as [|y h']; [discriminate Heq | reflexivity].
  - apply Nat.ltb_ge in E. rewrite length_app in E. simpl in E. lia.
Qed.

Lemma push_score_last (h : list pyfloat) (x : pyfloat) :
  In x (push_score h x).
Proof.
  unfold push_score.
  destruct (score_window <? List.length (h ++ [x]))%nat eqn:E.
  - destruct h as [|y h'].
    + simpl in E. discriminate E.
    + simpl. apply in_or_app. right. left. reflexivity.
  - apply in_or_app. right. left. reflexivity.
Qed.

Lemma history_step_bounded (h h' : list pyfloat) :
  history_step h h' ->
  (List.length h <= score_window)%nat -> (List.length h' <= score_window)%nat.
Proof.
  intros [-> | [x ->]] Hle; [exact Hle | apply push_score_length, Hle].
Qed.

Lemma calculate_dynamic_threshold_eq (similarities : dict pyfloat) (r : SemanticRouter) :
  calculate_dynamic_threshold similarities r =
  match similarities with
  | [] => (Ok (base_threshold r), r)
  | _ :: _ =>
      let history :=
        push_score (historical_scores r) (np_mean (dict_values similarities)) in
      (Ok (fhalf (fadd (np_mean history) (base_threshold r))),
       set_historical_scores r history)
  end.
Proof. destruct similarities; reflexivity. Qed.

Lemma calculate_dynamic_threshold_total (similarities : dict pyfloat) (r : SemanticRouter) :
  calculate_dynamic_threshold similarities r =
  (Ok (threshold_value similarities r), threshold_state similarities r).
Proof.
  unfold threshold_value, threshold_state.
  rewrite calculate_dynamic_threshold_eq. destruct similarities; reflexivity.
Qed.

Lemma log_routing_decision_eq (query selected : string) (similarities : dict pyfloat)
  (m : MixtureOfAdapters) :
  log_routing_decision query selected similarities m =
  (Ok tt,
   set_trace (set_router m (threshold_state similarities (router m)))
     (trace m ++
      [LogRoutingDecision query selected
         (threshold_value similarities (router m)) (logged_mean similarities)])).
Proof.
  unfold log_routing_decision, bind, on_router, emit.
  rewrite calculate_dynamic_threshold_total. reflexivity.
Qed.

Lemma calculate_dynamic_threshold_history (similarities : dict pyfloat) (r : SemanticRouter) :
  history_step (historical_scores r)
    (historical_scores (snd (calculate_dynamic_threshold similarities r))).
Proof.
  rewrite calculate_dynamic_threshold_eq. destruct similarities.
  - left. reflexivity.
  - right. eexists. reflexivity.
Qed.

Lemma add_route_history (route : AdapterRoute) (r : SemanticRouter) :
  historical_scores (snd (add_route route r)) = historical_scores r.
Proof.
  unfold add_route. destruct (training_utterances route); [reflexivity|].
  step_monad. destruct (batch_generate_embeddings _ _); reflexivity.
Qed.

Lemma add_routes_history (routes : list AdapterRoute) (r : SemanticRouter) :
  historical_scores (snd (add_routes routes r)) = historical_scores r.
Proof.
  revert r. induction routes as [|route routes IH]; intro r; [reflexivity|].
  simpl. unfold bind.
  pose proof (add_route_history route r) as H.
  destruct (add_route route r) as [[[]|e] r1]; simpl in H.
  - rewrite IH. exact H.
  - exact H.
Qed.

Lemma calculate_similarities_eq (query : string) (r : SemanticRouter) :
  calculate_similarities query r =
  match generate_embedding (embeddings_generator r) query with
  | Ok query_embedding => (Ok (score_routes query_embedding (route_embeddings r)), r)
  | Raise e => (Raise e, r)
  end.
Proof.
  unfold calculate_similarities. step_monad.
  destruct (generate_embedding _ _); reflexivity.
Qed.

Lemma route_query_with_scores_history (query : string) (r : SemanticRouter) :
  history_step (historical_scores r)
    (historical_scores (snd (route_query_with_scores query r))).
Proof.
  unfold route_query_with_scores, bind at 1.
  rewrite calculate_similarities_eq.
  destruct (generate_embedding _ _) as [qe|e]; [|left; reflexivity].
  destruct (score_routes qe (route_embeddings r)) as [|s sims] eqn:Es.
  - left. reflexivity.
  - unfold bind. rewrite calculate_dynamic_threshold_eq. cbv zeta.
    destruct (py_max_by_score (s :: sims)) as [[best_adapter best_score]|];
      [destruct (flt best_score _)|]; right; eexists; reflexivity.
Qed.

Lemma run_op_history (r : SemanticRouter) (op : router_op) :
  history_step (historical_scores r) (historical_scores (run_op r op)).
Proof.
  destruct op; simpl.
  - left. apply add_route_history.
  - left. apply add_routes_history.
  - left. rewrite calculate_similarities_eq.
    destruct (generate_embedding _ _); reflexivity.
  - apply calculate_dynamic_threshold_history.
  - unfold route_query, bind, ret.
    pose proof (route_query_with_scores_history query r) as H.
    destruct (route_query_with_scores query r) as [[d|e] r1]; exact H.
  - apply route_query_with_scores_history.
Qed.

(** C9: the history of threshold scores never holds more than ten entries:
    every operation of the router keeps the bound, and so does every sequence
    of operations on a freshly constructed router. *)
Theorem history_never_exceeds_window :
  (forall r op,
      (List.length (historical_scores r) <= 10)%nat ->
      (List.length (historical_scores (run_op r op)) <= 10)%nat) /\
  (forall g similarity_threshold ops,
      (List.length
         (historical_scores
            (run_ops (SemanticRouter_init g similarity_threshold) ops)) <= 10)%nat).
Proof.
  assert (Hstep : forall r op,
             (List.length (historical_scores r) <= 10)%nat ->
             (List.length (historical_scores (run_op r op)) <= 10)%nat).
  { intros r op. apply history_step_bounded, run_op_history. }
  split; [exact Hstep|].
  intros g thr ops. unfold run_ops.
  assert (Hgen : forall r,
             (List.length (historical_scores r) <= 10)%nat ->
             (List.length (historical_scores (fold_left run_op ops r)) <= 10)%nat).
  { induction ops as [|op ops IH]; intros r Hr; simpl; [exact Hr|].
    apply IH, Hstep, Hr. }
  apply Hgen. simpl. lia.
Qed.

(** ** The threshold estimator *)

Lemma non_fallback_id (similarities : dict pyfloat) :
  dict_mem similarities default_adapter_name = false ->
  non_fallback similarities = similarities.
Proof.
  unfold dict_mem, non_fallback.
  induction similarities as [|[k v] sims IH]; intro H; [reflexivity|].
  simpl in *. destruct (String.eqb k default_adapter_name) eqn:E.
  - discriminate H.
  - simpl. f_equal. apply IH, H.
Qed.

(** C3, as worded, fails on a map that carries the fallback entry (the map
    the logging path hands over): with scores 0.8 for ["a"] and 0.0 for
    ["base"] the code pushes 0.4, the wording asks for 0.8. *)
Lemma estimator_counts_fallback_entry :
  let similarities := [("a", Fin (8 # 10)); ("base", Fin 0)] in
  (exists x,
      historical_scores (snd (calculate_dynamic_threshold similarities empty_router)) = [x] /\
      feq x (Fin (4 # 10)) = true) /\
  (exists y,
      historical_scores (snd (spec_next_threshold similarities empty_router)) = [y] /\
      feq y (Fin (8 # 10)) = true) /\
  ~ estimator_excludes_fallback.
Proof.
  cbv zeta. split; [|split].
  - eexists. split; [reflexivity | vm_compute; reflexivity].
  - eexists. split; [reflexivity | vm_compute; reflexivity].
  - intro H.
    specialize (H [("a", Fin (8 # 10)); ("base", Fin 0)] empty_router).
    apply (f_equal (fun p => historical_scores (snd p))) in H.
    vm_compute in H. discriminate H.
Qed.

(** C3, amended: on an empty map the estimator returns the base threshold
    and leaves the history alone; on a non-empty map it pushes the mean of
    all the scores of the map it is given (appending, and dropping the oldest
    entry when ten are already held) and returns the half-sum of the mean of
    the new history and the base threshold.  On a map without fallback entry,
    as the router passes it, this is the estimator of the specification. *)
Theorem threshold_pushes_mean_of_given_map :
  forall (similarities : dict pyfloat) (r : SemanticRouter),
    (similarities = [] ->
     calculate_dynamic_threshold similarities r = (Ok (base_threshold r), r)) /\
    (similarities <> [] ->
     exists history,
       calculate_dynamic_threshold similarities r =
       (Ok (fhalf (fadd (np_mean history) (base_threshold r))),
        set_historical_scores r history) /\
       ((List.length (historical_scores r) < 10)%nat ->
        history = historical_scores r ++ [np_mean (dict_values similarities)]) /\
       (List.length (historical_scores r) = 10%nat ->
        history = tl (historical_scores r) ++ [np_mean (dict_values similarities)])) /\
    (dict_mem similarities default_adapter_name = false ->
     calculate_dynamic_threshold similarities r =
     (Ok (fst (spec_next_threshold similarities r)),
      snd (spec_next_threshold similarities r))).
Proof.
  intros similarities r. rewrite calculate_dynamic_threshold_eq.
  split; [|split].
  - intros ->. reflexivity.
  - intro Hne. destruct similarities as [|s sims]; [contradiction|].
    eexists. split; [reflexivity|]. split.
    + apply push_score_below.
    + apply push_score_full.
  - intro Hmem. unfold spec_next_threshold.
    rewrite (non_fallback_id _ Hmem).
    destruct similarities; reflexivity.
Qed.

(** ** Registration *)

(** C6, as worded, fails: a route without utterances is constructed without
    error and [add_route] returns normally. *)
Lemma empty_route_silently_ignored :
  AdapterRoute_new (PyStr "e") (PyList []) = Ok route_empty /\
  add_route route_empty empty_router = (Ok tt, empty_router) /\
  ~ empty_route_rejected.
Proof.
  split; [reflexivity|]. split; [reflexivity|].
  intro H. destruct (H empty_router route_empty eq_refl) as [e He].
  discriminate He.
Qed.

(** C6, amended: a route whose list of utterances is empty passes the
    constructor's checks, and registering it raises nothing and changes
    nothing: the router, its registry included, is the one before the call,
    alone or within a batch. *)
Theorem empty_route_is_skipped :
  forall (r : SemanticRouter) (name : string) (routes : list AdapterRoute),
    let route := {| adapter_name := name; training_utterances := [] |} in
    AdapterRoute_new (PyStr name) (PyList []) = Ok route /\
    add_route route r = (Ok tt, r) /\
    add_routes (route :: routes) r = add_routes routes r.
Proof.
  intros r name routes route. repeat split.
Qed.

(** ** Failure of the embedding collaborator *)

Lemma set_router_same (m : MixtureOfAdapters) : set_router m (router m) = m.
Proof. destruct m; reflexivity. Qed.

Lemma route_query_with_scores_raise (query : string) (r : SemanticRouter) (e : exn) :
  generate_embedding (embeddings_generator r) query = Raise e ->
  route_query_with_scores query r = (Raise e, r).
Proof.
  intro H. unfold route_query_with_scores, bind.
  rewrite calculate_similarities_eq, H. reflexivity.
Qed.

Lemma generate_response_setup_raise (query : string) (messages : list message)
  (stream : bool) (m : MixtureOfAdapters) (e : exn) :
  generate_embedding (embeddings_generator (router m)) query = Raise e ->
  generate_response_setup query messages stream m = (Raise e, m).
Proof.
  intro H. unfold generate_response_setup, bind at 1. unfold on_router.
  rewrite (route_query_with_scores_raise _ _ _ H), set_router_same. reflexivity.
Qed.

(** C5, as worded, fails: when the embedding model raises, so does the
    router. *)
Lemma embedding_failure_propagates :
  route_query_with_scores "delta" demo_router =
  (Raise (EmbeddingError "embedding model unavailable"), demo_router) /\
  ~ embedding_failure_falls_back.
Proof.
  split; [reflexivity|].
  intro H. destruct (H demo_router "delta" _ eq_refl) as (sims & r' & Hr).
  discriminate Hr.
Qed.

(** C5, amended: when the embedding collaborator raises while the query is
    embedded, the router raises the same exception and selects nothing, with
    its state unchanged; [generate_response] raises it before any activation
    or generation; the [/generate] endpoint answers with status 500 carrying
    the message, or, when streaming, with a single ["Error: ..."] event. *)
Theorem embedding_failure_fails_request :
  forall (m : MixtureOfAdapters) (request : GenerateRequest) (e : exn),
    let query := user_query (request_messages request) in
    generate_embedding (embeddings_generator (router m)) query = Raise e ->
    route_query_with_scores query (router m) = (Raise e, router m) /\
    generate_response query (request_messages request) (request_stream request) m =
    (Raise e, m) /\
    api_generate request m =
    (if request_stream request
     then EventSourceResponse
            [{| sse_content := String.append "Error: " (exn_str e);
                sse_model := model_label m |}]
     else HTTPException 500 (exn_str e),
     m).
Proof.
  intros m request e query H. split; [|split].
  - apply route_query_with_scores_raise, H.
  - unfold generate_response, bind.
    rewrite (generate_response_setup_raise _ _ _ _ _ H). reflexivity.
  - unfold api_generate. fold query. destruct (request_stream request).
    + unfold generate_stream.
      rewrite (generate_response_setup_raise _ _ _ _ _ H). reflexivity.
    + unfold generate_response, bind.
      rewrite (generate_response_setup_raise _ _ _ _ _ H). reflexivity.
Qed.

Lemma embedding_failure_fails_request_witness :
  api_generate {| request_messages := ask "delta"; request_stream := false |}
    (demo_system true demo_router) =
  (HTTPException 500 "embedding model unavailable", demo_system true demo_router).
Proof.
  exact (proj2 (proj2 (embedding_failure_fails_request
                         (demo_system true demo_router)
                         {| request_messages := ask "delta"; request_stream := false |}
                         (EmbeddingError "embedding model unavailable")
                         eq_refl))).
Defined.

(** ** The fallback decision in [generate_response] *)

Lemma no_disable_all_adapters :
  AdapterManager_getattr "disable_all_adapters" =
  Raise (AttributeError "'AdapterManager' object has no attribute 'disable_all_adapters'").
Proof. reflexivity. Qed.

Lemma empty_registry_routes_to_base (query : string) (r : SemanticRouter) (v : vec) :
  route_embeddings r = [] ->
  generate_embedding (embeddings_generator r) query = Ok v ->
  route_query_with_scores query r = (Ok ("base", [("base", Fin 0)]), r).
Proof.
  intros Hr Hv. unfold route_query_with_scores, bind.
  rewrite calculate_similarities_eq, Hv, Hr. reflexivity.
Qed.

(** C10: when the routing decision is the fallback ["base"],
    [generate_response] raises [AttributeError], because [AdapterManager] has
    no attribute [disable_all_adapters]; nothing has been asked of the
    language model by then (the trace gains log lines only), and neither the
    adapter manager nor [current_adapter] has changed. *)
Theorem fallback_decision_raises_attribute_error :
  forall (m : MixtureOfAdapters) (query : string) (messages : list message)
         (stream : bool) (similarities : dict pyfloat) (r' : SemanticRouter),
    route_query_with_scores query (router m) = (Ok ("base", similarities), r') ->
    exists m' logged,
      generate_response query messages stream m =
      (Raise (AttributeError
                "'AdapterManager' object has no attribute 'disable_all_adapters'"),
       m') /\
      trace m' = trace m ++ logged /\
      Forall is_log logged /\
      adapter_manager m' = adapter_manager m /\
      current_adapter m' = current_adapter m.
Proof.
  intros m query messages stream similarities r' H.
  unfold generate_response, generate_response_setup.
  unfold bind at 1 2 3 4. unfold on_router at 1. rewrite H.
  unfold get at 1. cbn [fst snd verbose set_router String.eqb Ascii.eqb Bool.eqb].
  rewrite no_disable_all_adapters. unfold lift_res.
  destruct (verbose m).
  - rewrite log_routing_decision_eq. cbn [router set_router trace set_trace].
    eexists. eexists. split; [reflexivity|]. repeat split.
    constructor; [exact I | constructor].
  - unfold ret. eexists. exists []. split; [reflexivity|]. repeat split.
    + symmetry. apply app_nil_r.
    + constructor.
Qed.

Lemma fallback_decision_raises_attribute_error_witness :
  exists m' logged,
    generate_response "alpha" (ask "alpha") true (demo_system true empty_router) =
    (Raise (AttributeError
              "'AdapterManager' object has no attribute 'disable_all_adapters'"),
     m') /\
    trace m' = trace (demo_system true empty_router) ++ logged /\
    Forall is_log logged /\
    adapter_manager m' = adapter_manager (demo_system true empty_router) /\
    current_adapter m' = current_adapter (demo_system true empty_router).
Proof.
  apply (fallback_decision_raises_attribute_error
           (demo_system true empty_router) "alpha" (ask "alpha") true
           [("base", Fin 0)] empty_router).
  apply (empty_registry_routes_to_base "alpha" empty_router [1; 0]); reflexivity.
Defined.

(** ** Dictionaries *)

Lemma dict_set_keys {V : Type} (d : dict V) (k : string) (v : V) :
  dict_keys (dict_set d k v) =
  if existsb (String.eqb k) (dict_keys d) then dict_keys d else dict_keys d ++ [k].
Proof.
  induction d as [|[k' v'] d IH]; simpl; [reflexivity|].
  rewrite (String.eqb_sym k k').
  destruct (String.eqb k' k) eqn:E; simpl.
  - apply String.eqb_eq in E. subst. reflexivity.
  - rewrite IH. destruct (existsb (String.eqb k) (dict_keys d)); reflexivity.
Qed.

Lemma existsb_eqb_in (k : string) (l : list string) :
  existsb (String.eqb k) l = true <-> In k l.
Proof.
  rewrite existsb_exists. split.
  - intros (x & Hin & Hx). apply String.eqb_eq in Hx. subst. exact Hin.
  - intro Hin. exists k. split; [exact Hin | apply String.eqb_refl].
Qed.

Lemma dict_set_fresh {V : Type} (d : dict V) (k : string) (v : V) :
  ~ In k (dict_keys d) -> dict_set d k v = d ++ [(k, v)].
Proof.
  induction d as [|[k' v'] d IH]; simpl; intro H; [reflexivity|].
  destruct (String.eqb k' k) eqn:E.
  - apply String.eqb_eq in E. exfalso. apply H. left. exact E.
  - f_equal. apply IH. intro Hin. apply H. right. exact Hin.
Qed.

Lemma dict_set_in_keys {V : Type} (d : dict V) (k k' : string) (v : V) :
  In k' (dict_keys (dict_set d k v)) <-> k' = k \/ In k' (dict_keys d).
Proof.
  rewrite dict_set_keys.
  destruct (existsb (String.eqb k) (dict_keys d)) eqn:E.
  - apply existsb_eqb_in in E. split; [tauto|]. intros [-> | H]; assumption.
  - rewrite in_app_iff. simpl. split; [intros [H|[H|[]]]|intros [H|H]]; auto.
Qed.

Lemma dict_set_wf {V : Type} (d : dict V) (k : string) (v : V) :
  dict_wf d -> dict_wf (dict_set d k v).
Proof.
  unfold dict_wf. intro H. rewrite dict_set_keys.
  destruct (existsb (String.eqb k) (dict_keys d)) eqn:E; [exact H|].
  apply NoDup_app; [exact H | repeat constructor; intros [] |].
  intros x Hx [<- | []].
  apply existsb_eqb_in in Hx. congruence.
Qed.

Lemma dict_get_in {V : Type} (d : dict V) (k : string) (v : V) :
  dict_get d k = Some v -> In (k, v) d.
Proof.
  induction d as [|[k' v'] d IH]; simpl; [discriminate|].
  destruct (String.eqb k' k) eqn:E.
  - apply String.eqb_eq in E. intro H. inversion H. subst. left. reflexivity.
  - intro H. right. apply IH, H.
Qed.

Lemma dict_in_get {V : Type} (d : dict V) (k : string) (v : V) :
  dict_wf d -> In (k, v) d -> dict_get d k = Some v.
Proof.
  unfold dict_wf.
  induction d as [|[k' v'] d IH]; simpl; intros Hnd Hin; [contradiction|].
  inversion Hnd as [|? ? Hnotin Hnd']; subst.
  destruct Hin as [Heq | Hin].
  - inversion Heq; subst. rewrite String.eqb_refl. reflexivity.
  - destruct (String.eqb k' k) eqn:E.
    + apply String.eqb_eq in E. subst. exfalso. apply Hnotin.
      apply (in_map fst) in Hin. exact Hin.
    + apply IH; assumption.
Qed.

(** ** The similarity map *)

Lemma score_routes_acc (qe : vec) (routes : dict (list vec)) (acc : dict pyfloat) :
  dict_wf routes ->
  (forall k, In k (dict_keys routes) -> ~ In k (dict_keys acc)) ->
  fold_left (similarity_step qe) routes acc =
  acc ++ map (score_entry qe) (filter has_embeddings routes).
Proof.
  unfold dict_wf. revert acc.
  induction routes as [|[k embs] routes IH]; intros acc Hnd Hfresh; simpl.
  - symmetry. apply app_nil_r.
  - inversion Hnd as [|? ? Hnotin Hnd']; subst.
    unfold similarity_step at 2, has_embeddings. simpl.
    destruct embs as [|e embs].
    + apply IH; [exact Hnd'|]. intros k' Hk'. apply Hfresh. right. exact Hk'.
    + rewrite dict_set_fresh by (apply Hfresh; left; reflexivity).
      rewrite IH.
      * rewrite <- app_assoc. reflexivity.
      * exact Hnd'.
      * intros k' Hk'. unfold dict_keys. rewrite map_app, in_app_iff. simpl.
        intros [Hacc | [Heq | []]].
        -- apply (Hfresh k'); [right; exact Hk' | exact Hacc].
        -- subst. apply Hnotin, Hk'.
Qed.

Lemma score_routes_map (qe : vec) (routes : dict (list vec)) :
  dict_wf routes ->
  score_routes qe routes = map (score_entry qe) (filter has_embeddings routes).
Proof.
  intro H. unfold score_routes. rewrite score_routes_acc; [reflexivity | exact H|].
  intros k _ [].
Qed.

Lemma score_routes_keys_subset (qe : vec) (routes : dict (list vec)) (k : string) :
  In k (dict_keys (score_routes qe routes)) -> In k (dict_keys routes).
Proof.
  unfold score_routes.
  assert (H : forall acc,
             In k (dict_keys (fold_left (similarity_step qe) routes acc)) ->
             In k (dict_keys acc) \/ In k (dict_keys routes)).
  { induction routes as [|[k' embs] routes IH]; intros acc Hin; simpl in *.
    - left. exact Hin.
    - destruct (IH _ Hin) as [Hacc | Hr]; [|right; right; exact Hr].
      unfold similarity_step in Hacc. simpl in Hacc.
      destruct embs; [left; exact Hacc|].
      apply dict_set_in_keys in Hacc. destruct Hacc as [-> | Hacc].
      + right. left. reflexivity.
      + left. exact Hacc. }
  intro Hin. destruct (H [] Hin) as [[] | Hr]. exact Hr.
Qed.

Lemma score_routes_wf (qe : vec) (routes : dict (list vec)) :
  dict_wf (score_routes qe routes).
Proof.
  unfold score_routes.
  assert (H : forall acc, dict_wf acc ->
                          dict_wf (fold_left (similarity_step qe) routes acc)).
  { induction routes as [|[k embs] routes IH]; intros acc Hacc; simpl; [exact Hacc|].
    apply IH. unfold similarity_step. simpl.
    destruct embs; [exact Hacc | apply dict_set_wf, Hacc]. }
  apply H. constructor.
Qed.

(** ** The maximum *)

Lemma feq_flt_compat (c x e : pyfloat) :
  feq e x = true -> flt c x = true -> flt c e = true.
Proof.
  destruct c as [qc|], x as [qx|], e as [qe|]; try discriminate.
  rewrite feq_fin, !flt_fin. intros Heq Hlt. rewrite Heq. exact Hlt.
Qed.

Lemma first_highest_single (first : string * pyfloat) : first_highest [first] first.
Proof.
  split; [split|].
  - left. reflexivity.
  - intros e [<- | []]. apply flt_irrefl.
  - exists [], []. split; [reflexivity | intros e []].
Qed.

Lemma first_highest_step (seen : dict pyfloat) (cur x : string * pyfloat) :
  first_highest seen cur -> first_highest (seen ++ [x]) (max_step cur x).
Proof.
  intros [[Hin Hmax] (before & after & Hsplit & Hfirst)].
  unfold max_step. destruct (fgt (snd x) (snd cur)) eqn:E; unfold fgt in *.
  - split; [split|].
    + apply in_or_app. right. left. reflexivity.
    + intros e He. unfold fgt. apply in_app_or in He. destruct He as [He | [<- | []]].
      * destruct (flt (snd x) (snd e)) eqn:Ex; [|reflexivity].
        exfalso.
        pose proof (flt_trans _ _ _ E Ex) as Hc.
        rewrite (Hmax e He) in Hc. discriminate Hc.
      * apply flt_irrefl.
    + exists seen, []. split; [reflexivity|].
      intros e He. destruct (feq (snd e) (snd x)) eqn:Ee; [|reflexivity].
      pose proof (feq_flt_compat _ _ _ Ee E) as Hc.
      rewrite (Hmax e He) in Hc. discriminate Hc.
  - split; [split|].
    + apply in_or_app. left. exact Hin.
    + intros e He. unfold fgt. apply in_app_or in He. destruct He as [He | [<- | []]].
      * apply Hmax, He.
      * exact E.
    + exists before, (after ++ [x]). split; [|exact Hfirst].
      rewrite Hsplit, <- app_assoc. reflexivity.
Qed.

Lemma fold_max_first_highest (rest seen : dict pyfloat) (cur : string * pyfloat) :
  first_highest seen cur ->
  first_highest (seen ++ rest) (fold_left max_step rest cur).
Proof.
  revert seen cur. induction rest as [|x rest IH]; intros seen cur H; simpl.
  - rewrite app_nil_r. exact H.
  - replace (seen ++ x :: rest) with ((seen ++ [x]) ++ rest)
      by (rewrite <- app_assoc; reflexivity).
    apply IH, first_highest_step, H.
Qed.

Lemma py_max_first_highest (similarities : dict pyfloat) (best : string * pyfloat) :
  py_max_by_score similarities = Some best -> first_highest similarities best.
Proof.
  destruct similarities as [|first rest]; simpl; [discriminate|].
  intro H. inversion H; subst.
  apply (fold_max_first_highest rest [first] first), first_highest_single.
Qed.

Lemma np_mean_fin_no_nan (l : list pyfloat) (x : pyfloat) :
  is_nan (np_mean l) = false -> In x l -> is_nan x = false.
Proof.
  intros H Hin. destruct x; [reflexivity|].
  rewrite (np_mean_nan l Hin) in H. discriminate H.
Qed.

Lemma threshold_fin_scores_fin (similarities : dict pyfloat) (r : SemanticRouter) :
  similarities <> [] ->
  is_nan (threshold_value similarities r) = false ->
  forall entry, In entry similarities -> is_nan (snd entry) = false.
Proof.
  intros Hne Hthr entry Hin. unfold threshold_value in Hthr.
  rewrite calculate_dynamic_threshold_eq in Hthr.
  destruct similarities as [|s sims]; [contradiction|]. cbv zeta in Hthr. cbn [fst] in Hthr.
  set (values := dict_values (s :: sims)) in *.
  set (h := push_score (historical_scores r) (np_mean values)) in *.
  assert (Hh : is_nan (np_mean h) = false).
  { destruct (np_mean h); [reflexivity | cbn in Hthr; discriminate Hthr]. }
  assert (Hm : is_nan (np_mean values) = false).
  { apply (np_mean_fin_no_nan h); [exact Hh | apply push_score_last]. }
  apply (np_mean_fin_no_nan values); [exact Hm|].
  apply (in_map snd) in Hin. exact Hin.
Qed.

(** ** The routing decision *)

Lemma route_query_with_scores_eq (query : string) (r : SemanticRouter) :
  route_query_with_scores query r =
  match generate_embedding (embeddings_generator r) query with
  | Raise e => (Raise e, r)
  | Ok qe =>
      let similarities := score_routes qe (route_embeddings r) in
      match py_max_by_score similarities with
      | None => (Ok (default_adapter_name, [(default_adapter_name, Fin 0)]), r)
      | Some best =>
          (Ok (if flt (snd best) (threshold_value similarities r)
               then default_adapter_name else fst best,
               dict_set similarities default_adapter_name (Fin 0)),
           threshold_state similarities r)
      end
  end.
Proof.
  unfold route_query_with_scores, bind at 1.
  rewrite calculate_similarities_eq.
  destruct (generate_embedding _ _) as [qe|e]; [|reflexivity].
  cbv zeta. destruct (score_routes qe (route_embeddings r)) as [|s sims] eqn:Es.
  - reflexivity.
  - unfold bind. rewrite calculate_dynamic_threshold_total.
    destruct (py_max_by_score (s :: sims)) as [[best_adapter best_score]|] eqn:Em.
    + simpl fst. simpl snd. destruct (flt best_score _); reflexivity.
    + discriminate Em.
Qed.

(** *** The first maximum *)

Lemma flt_fle_absurd (x y : pyfloat) : flt x y = true -> fle y x = true -> False.
Proof.
  destruct x as [a|], y as [b|]; try discriminate.
  rewrite flt_fin. simpl. intros Hlt Hle. apply Qle_bool_iff in Hle.
  apply (Qlt_not_le _ _ Hlt Hle).
Qed.

Lemma flt_fle (x y : pyfloat) : flt x y = true -> fle x y = true.
Proof.
  destruct x as [a|], y as [b|]; try discriminate.
  rewrite flt_fin. simpl. intro H. apply Qle_bool_iff, Qlt_le_weak, H.
Qed.

Lemma fle_refl (x : pyfloat) : is_nan x = false -> fle x x = true.
Proof.
  destruct x as [a|]; [|discriminate]. intros _. simpl.
  apply Qle_bool_iff, Qle_refl.
Qed.

Lemma feq_flt_absurd (x y : pyfloat) : feq x y = true -> flt x y = true -> False.
Proof.
  destruct x as [a|], y as [b|]; try discriminate.
  rewrite feq_fin, flt_fin. intros Heq Hlt. rewrite Heq in Hlt.
  apply (Qlt_irrefl _ Hlt).
Qed.

Lemma feq_fin_l (x y : pyfloat) : feq x y = true -> is_nan x = false.
Proof. destruct x, y; try discriminate. reflexivity. Qed.

Lemma first_highest_first_maximum (similarities : dict pyfloat)
  (best : string * pyfloat) :
  no_nan similarities ->
  first_highest similarities best -> first_maximum similarities best.
Proof.
  intros Hn [[Hin Hmax] (before & after & Hsplit & Hfirst)].
  pose proof (Hn best Hin) as Hb.
  exists before, after. split; [exact Hsplit|]. split; [|split; [|exact Hb]].
  - intros e He.
    assert (Hes : In e similarities)
      by (rewrite Hsplit; apply in_or_app; left; exact He).
    pose proof (Hmax e Hes) as Hm. pose proof (Hfirst e He) as Hf.
    pose proof (Hn e Hes) as Hne. unfold fgt in Hm.
    destruct (snd e) as [qe|], (snd best) as [qb|]; try discriminate.
    apply flt_fin. apply flt_fin_false in Hm.
    destruct (Qle_lt_or_eq _ _ Hm) as [Hlt | Heq]; [exact Hlt|].
    apply feq_fin in Heq. congruence.
  - intros e He.
    assert (Hes : In e similarities)
      by (rewrite Hsplit; apply in_or_app; right; right; exact He).
    pose proof (Hmax e Hes) as Hm. pose proof (Hn e Hes) as Hne. unfold fgt in Hm.
    destruct (snd e) as [qe|], (snd best) as [qb|]; try discriminate.
    simpl. apply Qle_bool_iff. apply flt_fin_false in Hm. exact Hm.
Qed.

Lemma first_maximum_unique (similarities : dict pyfloat) (b1 b2 : string * pyfloat) :
  first_maximum similarities b1 -> first_maximum similarities b2 -> b1 = b2.
Proof.
  intros (p1 & a1 & H1 & Hp1 & Ha1 & _) (p2 & a2 & H2 & Hp2 & Ha2 & _).
  subst similarities. revert p2 H2 Hp1 Hp2.
  induction p1 as [|y p1 IH]; intros p2 H2 Hp1 Hp2.
  - destruct p2 as [|x p2]; simpl in H2; inversion H2; subst; [reflexivity|].
    exfalso. apply (flt_fle_absurd (snd x) (snd b2)).
    + apply Hp2. left. reflexivity.
    + apply Ha1. apply in_or_app. right. left. reflexivity.
  - destruct p2 as [|x p2]; simpl in H2; inversion H2; subst.
    + exfalso. apply (flt_fle_absurd (snd b2) (snd b1)).
      * apply Hp1. left. reflexivity.
      * apply Ha2. apply in_or_app. right. left. reflexivity.
    + apply (IH p2); [assumption | |].
      * intros e He. apply Hp1. right. exact He.
      * intros e He. apply Hp2. right. exact He.
Qed.

Lemma first_maximum_in (similarities : dict pyfloat) (best : string * pyfloat) :
  first_maximum similarities best -> In best similarities.
Proof.
  intros (before & after & -> & _). apply in_or_app. right. left. reflexivity.
Qed.

Lemma first_maximum_bounds (similarities : dict pyfloat) (best entry : string * pyfloat) :
  first_maximum similarities best -> In entry similarities ->
  fle (snd entry) (snd best) = true.
Proof.
  intros (before & after & -> & Hb & Ha & Hfin) Hin.
  apply in_app_or in Hin. destruct Hin as [Hin | [<- | Hin]].
  - apply flt_fle, Hb, Hin.
  - apply fle_refl, Hfin.
  - apply Ha, Hin.
Qed.

Lemma max_step_nan (cur x : string * pyfloat) :
  is_nan (snd x) = true -> max_step cur x = cur.
Proof.
  unfold max_step, fgt. destruct (snd x); [discriminate|].
  destruct (snd cur); reflexivity.
Qed.

Lemma fold_max_skip_nan (rest : dict pyfloat) (cur : string * pyfloat) :
  fold_left max_step rest cur = fold_left max_step (finite_scores rest) cur.
Proof.
  revert cur. induction rest as [|x rest IH]; intro cur; [reflexivity|].
  unfold finite_scores. simpl. destruct (is_nan (snd x)) eqn:E; simpl.
  - rewrite (max_step_nan cur x E). apply IH.
  - apply IH.
Qed.

Lemma fold_max_nan_stays (rest : dict pyfloat) (cur : string * pyfloat) :
  is_nan (snd cur) = true -> fold_left max_step rest cur = cur.
Proof.
  intro Hc. induction rest as [|x rest IH]; [reflexivity|]. simpl.
  replace (max_step cur x) with cur; [exact IH|].
  unfold max_step, fgt. destruct (snd cur); [discriminate|].
  destruct (snd x); reflexivity.
Qed.

Lemma finite_scores_no_nan (similarities : dict pyfloat) :
  no_nan (finite_scores similarities).
Proof.
  intros e He. apply filter_In in He. destruct He as [_ He].
  destruct (is_nan (snd e)); [discriminate He | reflexivity].
Qed.

Lemma no_nan_finite_scores (similarities : dict pyfloat) :
  no_nan similarities -> finite_scores similarities = similarities.
Proof.
  induction similarities as [|x sims IH]; intro H; [reflexivity|].
  unfold finite_scores. simpl. rewrite (H x (or_introl eq_refl)). simpl.
  f_equal. apply IH. intros e He. apply H. right. exact He.
Qed.

Lemma py_max_first_maximum (first : string * pyfloat) (rest : dict pyfloat)
  (best : string * pyfloat) :
  is_nan (snd first) = false ->
  py_max_by_score (first :: rest) = Some best ->
  first_maximum (finite_scores (first :: rest)) best.
Proof.
  intros Hf H. simpl in H. rewrite fold_max_skip_nan in H.
  assert (Hs : finite_scores (first :: rest) = first :: finite_scores rest).
  { unfold finite_scores. simpl. rewrite Hf. reflexivity. }
  apply first_highest_first_maximum.
  - apply finite_scores_no_nan.
  - rewrite Hs. apply py_max_first_highest. exact H.
Qed.

Lemma py_max_nan_first (first : string * pyfloat) (rest : dict pyfloat) :
  is_nan (snd first) = true -> py_max_by_score (first :: rest) = Some first.
Proof. intro H. simpl. rewrite (fold_max_nan_stays rest first H). reflexivity. Qed.

Lemma threshold_nan (similarities : dict pyfloat) (r : SemanticRouter)
  (entry : string * pyfloat) :
  In entry similarities -> is_nan (snd entry) = true ->
  threshold_value similarities r = NaN.
Proof.
  intros Hin Hnan.
  destruct (threshold_value similarities r) as [t|] eqn:Et; [|reflexivity].
  assert (Hne : similarities <> []) by (intros ->; contradiction).
  assert (Hfin : is_nan (threshold_value similarities r) = false)
    by (rewrite Et; reflexivity).
  rewrite (threshold_fin_scores_fin similarities r Hne Hfin entry Hin) in Hnan.
  discriminate Hnan.
Qed.

Lemma flt_nan_r (x : pyfloat) : flt x NaN = false.
Proof. destruct x; reflexivity. Qed.

(** The decision taken from a first maximum and a threshold. *)
Lemma decision_of_first_maximum (similarities : dict pyfloat)
  (best : string * pyfloat) (thr : pyfloat) (selected : string) :
  first_maximum similarities best ->
  selected = (if flt (snd best) thr then default_adapter_name else fst best) ->
  (selected = default_adapter_name <->
   similarities = [] \/
   exists b,
     first_maximum similarities b /\
     (flt (snd b) thr = true \/ fst b = default_adapter_name)) /\
  (selected <> default_adapter_name ->
   exists score, first_maximum similarities (selected, score)).
Proof.
  intros Hfm Hsel. split; [split|].
  - intro Hbase. right. exists best. split; [exact Hfm|].
    destruct (flt (snd best) thr); [left; reflexivity|].
    right. congruence.
  - intros [Hnil | (b & Hb & Hcase)].
    + apply first_maximum_in in Hfm. rewrite Hnil in Hfm. contradiction.
    + rewrite (first_maximum_unique _ _ _ Hb Hfm) in Hcase.
      destruct Hcase as [Hlt | Hname].
      * rewrite Hlt in Hsel. exact Hsel.
      * destruct (flt (snd best) thr); congruence.
  - intro Hnb. exists (snd best).
    destruct (flt (snd best) thr); [contradiction|].
    rewrite Hsel. destruct best. exact Hfm.
Qed.

(** C2, as worded, fails when a route is registered under the name
    ["base"]: with the routes ["base"] (score 1 on the query) and ["a"]
    (score 0.6) and base threshold 0.1, the dynamic threshold is 0.45; the
    map without its fallback entry is not empty and its highest score, 0.6,
    is not below the threshold, yet the router returns ["base"]. *)
Lemma route_named_base_is_returned :
  let similarities := score_routes [1; 0] (route_embeddings base_named_router) in
  fst (calculate_similarities "alpha" base_named_router) = Ok similarities /\
  dict_keys similarities = ["base"; "a"] /\
  (exists score,
      non_fallback similarities = [("a", score)] /\ feq score (Fin (3 # 5)) = true) /\
  feq (threshold_value similarities base_named_router) (Fin (9 # 20)) = true /\
  (exists reported,
      fst (route_query_with_scores "alpha" base_named_router) =
      Ok ("base", reported)) /\
  ~ fallback_exactly_below_threshold.
Proof.
  cbv zeta. split; [reflexivity|]. split; [vm_compute; reflexivity|].
  split; [eexists; split; vm_compute; reflexivity|].
  split; [vm_compute; reflexivity|].
  split; [eexists; vm_compute; reflexivity|].
  intro H.
  destruct (route_query_with_scores "alpha" base_named_router)
    as [[[selected reported]|e] r'] eqn:E.
  - assert (Hsel : selected = "base").
    { assert (Hv : fst (route_query_with_scores "alpha" base_named_router) =
                   Ok (selected, reported)) by (rewrite E; reflexivity).
      vm_compute in Hv. inversion Hv. reflexivity. }
    subst selected.
    destruct (H base_named_router "alpha"
                (score_routes [1; 0] (route_embeddings base_named_router))
                "base" reported r' eq_refl E)
      as [[Hfwd _] _].
    destruct (Hfwd eq_refl) as [Hnil | (best & Hfm & Hlt)].
    + vm_compute in Hnil. discriminate Hnil.
    + destruct Hfm as (before & after & Hsplit & _).
      assert (Hone : exists score,
                 non_fallback (score_routes [1; 0] (route_embeddings base_named_router)) =
                 [("a", score)] /\
                 flt score
                   (threshold_value
                      (score_routes [1; 0] (route_embeddings base_named_router))
                      base_named_router) = false).
      { eexists. split; vm_compute; reflexivity. }
      destruct Hone as (score & Hone & Hge). rewrite Hone in Hsplit.
      destruct before as [|x before].
      * simpl in Hsplit. inversion Hsplit; subst. cbn [snd] in Hlt.
        rewrite Hge in Hlt. discriminate Hlt.
      * simpl in Hsplit. inversion Hsplit as [[Hx Hrest]].
        destruct before; discriminate Hrest.
  - assert (Hv : fst (route_query_with_scores "alpha" base_named_router) = Raise e)
      by (rewrite E; reflexivity).
    vm_compute in Hv. discriminate Hv.
Qed.

(** C2, amended: the decision is taken on the whole similarity map, a route
    registered as ["base"] included, against the threshold the estimator
    returns for that map.  On an empty map the router returns ["base"].
    When the first entry of the map scores NaN, the router returns that
    entry's name.  Otherwise, with [best] the first entry of maximal score
    among the entries whose score is a number, it returns ["base"] when the
    score of [best] is strictly below the threshold and the name of [best]
    when it is not.  So, on a map without NaN, ["base"] is returned exactly
    when the map is empty, or the first maximum is strictly below the
    threshold, or the first maximum is a route named ["base"]; and an
    adapter returned is the first maximum.  When moreover no route is named
    ["base"], this is the decision of section 4.4. *)
Theorem routing_decision_by_first_maximum :
  forall (r : SemanticRouter) (query : string) (similarities : dict pyfloat),
    fst (calculate_similarities query r) = Ok similarities ->
    exists selected reported r',
      route_query_with_scores query r = (Ok (selected, reported), r') /\
      (similarities = [] -> selected = default_adapter_name) /\
      (forall first rest,
          similarities = first :: rest -> is_nan (snd first) = true ->
          selected = fst first) /\
      (forall first rest,
          similarities = first :: rest -> is_nan (snd first) = false ->
          exists best,
            first_maximum (finite_scores similarities) best /\
            selected = if flt (snd best) (threshold_value similarities r)
                       then default_adapter_name else fst best) /\
      (no_nan similarities ->
       (selected = default_adapter_name <->
        similarities = [] \/
        exists best,
          first_maximum similarities best /\
          (flt (snd best) (threshold_value similarities r) = true \/
           fst best = default_adapter_name)) /\
       (selected <> default_adapter_name ->
        exists score, first_maximum similarities (selected, score))) /\
      (no_nan similarities ->
       ~ In default_adapter_name (dict_keys similarities) ->
       (selected = default_adapter_name <->
        non_fallback similarities = [] \/
        exists best,
          first_maximum (non_fallback similarities) best /\
          flt (snd best) (threshold_value similarities r) = true) /\
       (selected <> default_adapter_name ->
        exists score, first_maximum (non_fallback similarities) (selected, score))).
Proof.
  intros r query similarities Hsim.
  rewrite calculate_similarities_eq in Hsim.
  rewrite route_query_with_scores_eq.
  destruct (generate_embedding _ _) as [qe|e]; [|discriminate Hsim].
  simpl in Hsim. inversion Hsim as [Heq]. cbv zeta. rewrite Heq. clear Hsim Heq.
  destruct similarities as [|head tail].
  - simpl. do 3 eexists. split; [reflexivity|].
    split; [reflexivity|]. split; [discriminate|]. split; [discriminate|].
    split; intros; (split; [split; [intros _; left; reflexivity | reflexivity]
                           | intro Hc; contradiction Hc; reflexivity]).
  - destruct (py_max_by_score (head :: tail)) as [best|] eqn:Em; [|discriminate Em].
    set (thr := threshold_value (head :: tail) r) in *.
    do 3 eexists. split; [reflexivity|].
    assert (Hfinite : is_nan (snd head) = false ->
                      first_maximum (finite_scores (head :: tail)) best).
    { intro Hh. apply (py_max_first_maximum head tail best Hh Em). }
    assert (Hall : no_nan (head :: tail) ->
                   first_maximum (head :: tail) best).
    { intro Hn. rewrite <- (no_nan_finite_scores _ Hn) at 1.
      apply Hfinite, Hn. left. reflexivity. }
    split; [discriminate|]. split; [|split; [|split]].
    + intros first rest Hfr Hnan. inversion Hfr; subst first rest.
      rewrite (py_max_nan_first head tail Hnan) in Em. inversion Em; subst best.
      unfold thr. rewrite (threshold_nan (head :: tail) r head (or_introl eq_refl) Hnan).
      rewrite flt_nan_r. reflexivity.
    + intros first rest Hfr Hfin. inversion Hfr; subst first rest.
      exists best. split; [apply Hfinite, Hfin | reflexivity].
    + intro Hn. apply (decision_of_first_maximum _ best thr); [apply Hall, Hn | reflexivity].
    + intros Hn Hnb.
      assert (Hmem : dict_mem (head :: tail) default_adapter_name = false).
      { unfold dict_mem.
        destruct (dict_get (head :: tail) default_adapter_name) eqn:E; [|reflexivity].
        apply dict_get_in in E. apply (in_map fst) in E. contradiction. }
      rewrite (non_fallback_id _ Hmem).
      pose proof (Hall Hn) as Hfm.
      assert (Hbest : fst best <> default_adapter_name).
      { intro Hc. apply Hnb. rewrite <- Hc.
        apply (in_map fst), first_maximum_in, Hfm. }
      destruct (decision_of_first_maximum _ best thr _ Hfm eq_refl) as [[Hfwd Hbwd] Hsel].
      split; [split|exact Hsel].
      * intro Hb. destruct (Hfwd Hb) as [Hnil | (b & Hb1 & [Hlt | Hname])].
        -- left. exact Hnil.
        -- right. exists b. split; assumption.
        -- rewrite (first_maximum_unique _ _ _ Hb1 Hfm) in Hname. contradiction.
      * intros [Hnil | (b & Hb1 & Hlt)]; apply Hbwd.
        -- left. exact Hnil.
        -- right. exists b. split; [exact Hb1 | left; exact Hlt].
Qed.

Lemma routing_decision_by_first_maximum_witness :
  let similarities := score_routes [1; 0] (route_embeddings demo_router) in
  exists selected reported r',
    route_query_with_scores "alpha" demo_router = (Ok (selected, reported), r') /\
    (similarities = [] -> selected = default_adapter_name) /\
    (forall first rest,
        similarities = first :: rest -> is_nan (snd first) = true ->
        selected = fst first) /\
    (forall first rest,
        similarities = first :: rest -> is_nan (snd first) = false ->
        exists best,
          first_maximum (finite_scores similarities) best /\
          selected = if flt (snd best) (threshold_value similarities demo_router)
                     then default_adapter_name else fst best) /\
    (no_nan similarities ->
     (selected = default_adapter_name <->
      similarities = [] \/
      exists best,
        first_maximum similarities best /\
        (flt (snd best) (threshold_value similarities demo_router) = true \/
         fst best = default_adapter_name)) /\
     (selected <> default_adapter_name ->
      exists score, first_maximum similarities (selected, score))) /\
    (no_nan similarities ->
     ~ In default_adapter_name (dict_keys similarities) ->
     (selected = default_adapter_name <->
      non_fallback similarities = [] \/
      exists best,
        first_maximum (non_fallback similarities) best /\
        flt (snd best) (threshold_value similarities demo_router) = true) /\
     (selected <> default_adapter_name ->
      exists score, first_maximum (non_fallback similarities) (selected, score))).
Proof.
  cbv zeta.
  apply (routing_decision_by_first_maximum demo_router "alpha"
           (score_routes [1; 0] (route_embeddings demo_router))).
  reflexivity.
Defined.

(** ** Registration order *)

Lemma batch_generate_embeddings_length (g : EmbeddingsGenerator) (texts : list string)
  (embeddings : list vec) :
  batch_generate_embeddings g texts = Ok embeddings ->
  List.length embeddings = List.length texts.
Proof.
  revert embeddings. induction texts as [|t texts IH]; simpl; intros embeddings H.
  - inversion H. reflexivity.
  - destruct (generate_embedding g t); [|discriminate H].
    destruct (batch_generate_embeddings g texts); [|discriminate H].
    inversion H. simpl. f_equal. apply IH. reflexivity.
Qed.

Lemma dict_set_in {V : Type} (d : dict V) (k : string) (v : V) (item : string * V) :
  In item (dict_set d k v) -> item = (k, v) \/ In item d.
Proof.
  induction d as [|[k' v'] d IH]; simpl.
  - intros [<- | []]. left. reflexivity.
  - destruct (String.eqb k' k).
    + intros [<- | H]; [left; reflexivity | right; right; exact H].
    + intros [<- | H]; [right; left; reflexivity|].
      destruct (IH H) as [-> | Hin]; [left; reflexivity | right; right; exact Hin].
Qed.

Lemma add_route_keys (route : AdapterRoute) (r r' : SemanticRouter) :
  add_route route r = (Ok tt, r') ->
  routes_wf (route_embeddings r) ->
  routes_wf (route_embeddings r') /\
  dict_keys (route_embeddings r') =
  registration_order [route] (dict_keys (route_embeddings r)).
Proof.
  unfold add_route. simpl registration_order.
  destruct (training_utterances route) as [|u us] eqn:Eu.
  - intros H Hwf. inversion H; subst. split; [exact Hwf | reflexivity].
  - step_monad.
    destruct (batch_generate_embeddings _ _) as [embs|e] eqn:Eb; [|discriminate].
    intros H [Hwf Hne]. inversion H; subst. simpl. split; [split|].
    + apply dict_set_wf, Hwf.
    + intros item Hin. apply dict_set_in in Hin. destruct Hin as [-> | Hin].
      * apply batch_generate_embeddings_length in Eb.
        unfold has_embeddings. simpl. destruct embs; [discriminate Eb | reflexivity].
      * apply Hne, Hin.
    + apply dict_set_keys.
Qed.

Lemma registration_order_cons (route : AdapterRoute) (routes : list AdapterRoute)
  (seen : list string) :
  registration_order (route :: routes) seen =
  registration_order routes (registration_order [route] seen).
Proof.
  simpl. destruct (training_utterances route); [reflexivity|].
  destruct (existsb _ seen); reflexivity.
Qed.

Lemma add_routes_keys (routes : list AdapterRoute) (r r' : SemanticRouter) :
  add_routes routes r = (Ok tt, r') ->
  routes_wf (route_embeddings r) ->
  routes_wf (route_embeddings r') /\
  dict_keys (route_embeddings r') =
  registration_order routes (dict_keys (route_embeddings r)).
Proof.
  revert r. induction routes as [|route routes IH]; intros r H Hwf.
  - inversion H; subst. split; [exact Hwf | reflexivity].
  - simpl add_routes in H. unfold bind in H.
    destruct (add_route route r) as [[[]|e] r1] eqn:E1; [|discriminate H].
    destruct (add_route_keys _ _ _ E1 Hwf) as [Hwf1 Hk1].
    destruct (IH _ H Hwf1) as [Hwf' Hk'].
    split; [exact Hwf'|].
    rewrite registration_order_cons, <- Hk1. exact Hk'.
Qed.

Lemma score_routes_keys (qe : vec) (routes : dict (list vec)) :
  routes_wf routes ->
  dict_keys (score_routes qe routes) = dict_keys routes.
Proof.
  intros [Hwf Hne]. rewrite (score_routes_map qe routes Hwf).
  assert (Hf : filter has_embeddings routes = routes).
  { clear Hwf. induction routes as [|item routes IH]; [reflexivity|].
    simpl. rewrite (Hne item (or_introl eq_refl)). f_equal.
    apply IH. intros it Hit. apply Hne. right. exact Hit. }
  rewrite Hf. unfold dict_keys. rewrite map_map. reflexivity.
Qed.

Lemma index_of_here (k : string) (before : list string) (after : list string) :
  ~ In k before -> index_of k (before ++ k :: after) = Some (List.length before).
Proof.
  induction before as [|x before IH]; simpl; intro H.
  - rewrite String.eqb_refl. reflexivity.
  - destruct (String.eqb x k) eqn:E.
    + apply String.eqb_eq in E. exfalso. apply H. left. exact E.
    + rewrite IH; [reflexivity|]. intro Hin. apply H. right. exact Hin.
Qed.

Lemma index_of_in (k : string) (names : list string) :
  In k names -> exists j, index_of k names = Some j.
Proof.
  induction names as [|x names IH]; simpl; [intros []|].
  intros [-> | H].
  - rewrite String.eqb_refl. eexists. reflexivity.
  - destruct (String.eqb x k); [eexists; reflexivity|].
    destruct (IH H) as [j ->]. eexists. reflexivity.
Qed.

Lemma index_of_later (k k0 : string) (before after : list string) :
  ~ In k before -> k <> k0 -> In k after ->
  exists j, index_of k (before ++ k0 :: after) = Some j /\
            (List.length before < j)%nat.
Proof.
  induction before as [|x before IH]; simpl; intros Hb Hne Ha.
  - destruct (String.eqb k0 k) eqn:E.
    + apply String.eqb_eq in E. congruence.
    + destruct (index_of_in k after Ha) as [j ->]. exists (S j). split; [reflexivity|lia].
  - destruct (String.eqb x k) eqn:E.
    + apply String.eqb_eq in E. exfalso. apply Hb. left. exact E.
    + destruct IH as (j & -> & Hj); try assumption.
      * intro Hin. apply Hb. right. exact Hin.
      * exists (S j). split; [reflexivity|lia].
Qed.

Lemma nodup_app_apart (x : string) (l1 l2 : list string) :
  NoDup (l1 ++ l2) -> In x l1 -> ~ In x l2.
Proof.
  induction l1 as [|y l1 IH]; simpl; intros Hnd H1 H2; [contradiction|].
  inversion Hnd as [|? ? Hnotin Hnd']; subst.
  destruct H1 as [-> | H1].
  - apply Hnotin, in_or_app. right. exact H2.
  - exact (IH Hnd' H1 H2).
Qed.

Lemma filter_split {A : Type} (f : A -> bool) (l before after : list A) (x : A) :
  filter f l = before ++ x :: after ->
  exists before' after',
    l = before' ++ x :: after' /\
    filter f before' = before /\ filter f after' = after.
Proof.
  revert before. induction l as [|y l IH]; intros before H.
  - destruct before; discriminate H.
  - simpl in H. destruct (f y) eqn:Ey.
    + destruct before as [|z before]; simpl in H;
        injection H as Hhead Htail; subst y.
      * subst after. exists [], l. repeat split; reflexivity.
      * destruct (IH before Htail) as (b' & a' & -> & Hb & Ha).
        exists (z :: b'), a'. simpl. rewrite Ey, Hb. repeat split. exact Ha.
    + destruct (IH before H) as (b' & a' & -> & Hb & Ha).
      exists (y :: b'), a'. simpl. rewrite Ey. repeat split; assumption.
Qed.

Lemma dict_get_head {V : Type} (d : dict V) (name : string) (rest : list string)
  (v : V) :
  dict_keys d = name :: rest -> dict_get d name = Some v ->
  exists tail, d = (name, v) :: tail.
Proof.
  destruct d as [|[k w] tail]; simpl; [discriminate|].
  intros Hk Hg. inversion Hk; subst. rewrite String.eqb_refl in Hg.
  inversion Hg; subst. exists tail. reflexivity.
Qed.

(** C7, as worded, fails when the adapter registered first scores NaN: with
    the routes ["z"] (its only reference is the zero vector), ["a2"] and
    ["a"] registered in this order, ["a2"] and ["a"] share the maximum score
    1 and ["a2"] is the earlier of the two, yet the router returns ["z"]. *)
Lemma nan_registered_first_is_returned :
  let similarities := score_routes [1; 0] (route_embeddings nan_first_router) in
  add_routes [route_degenerate; route_a2; route_a] empty_router =
  (Ok tt, nan_first_router) /\
  registration_order [route_degenerate; route_a2; route_a] [] = ["z"; "a2"; "a"] /\
  fst (calculate_similarities "alpha" nan_first_router) = Ok similarities /\
  dict_get similarities "z" = Some NaN /\
  (exists s2 s, dict_get similarities "a2" = Some s2 /\
                dict_get similarities "a" = Some s /\
                feq s2 (Fin 1) = true /\ feq s (Fin 1) = true) /\
  (exists reported,
      fst (route_query_with_scores "alpha" nan_first_router) = Ok ("z", reported)) /\
  ~ earliest_of_tied_maximum_returned.
Proof.
  cbv zeta. split; [reflexivity|]. split; [reflexivity|]. split; [reflexivity|].
  split; [vm_compute; reflexivity|].
  split; [do 2 eexists; repeat split; vm_compute; reflexivity|].
  split; [eexists; vm_compute; reflexivity|].
  intro H.
  destruct (route_query_with_scores "alpha" nan_first_router)
    as [[[selected reported]|e] r'] eqn:E.
  - assert (Hsel : selected = "z").
    { assert (Hv : fst (route_query_with_scores "alpha" nan_first_router) =
                   Ok (selected, reported)) by (rewrite E; reflexivity).
      vm_compute in Hv. inversion Hv. reflexivity. }
    subst selected.
    assert (Hmap : exists s2 s,
               score_routes [1; 0] (route_embeddings nan_first_router) =
               [("z", NaN); ("a2", s2); ("a", s)] /\
               feq s2 s2 = true /\ feq s s2 = true /\ is_nan s2 = false /\
               flt s2 s2 = false /\ flt s2 s = false).
    { do 2 eexists. repeat split; vm_compute; reflexivity. }
    destruct Hmap as (s2 & s & Hmap & H22 & Hs2 & Hfin & Hlt22 & Hlt2s).
    destruct (H demo_embeddings (Fin (7 # 10)) [route_degenerate; route_a2; route_a]
                nan_first_router r' "alpha"
                (score_routes [1; 0] (route_embeddings nan_first_router))
                reported "z" "a2" s2 1%nat eq_refl eq_refl E) as [Hc | Hc];
      try discriminate Hc.
    + rewrite Hmap. right. left. reflexivity.
    + exact Hfin.
    + intros entry Hin. rewrite Hmap in Hin. unfold fgt.
      destruct Hin as [<- | [<- | [<- | []]]]; cbn [snd]; try assumption.
      destruct s2; reflexivity.
    + exists ("a", s). rewrite Hmap. split; [right; right; left; reflexivity|].
      split; [discriminate | exact Hs2].
    + reflexivity.
    + intros other j Hin Hne Htie Hj. rewrite Hmap in Hin.
      destruct Hin as [<- | [<- | [<- | []]]]; cbn [fst snd] in *.
      * discriminate Htie.
      * contradiction Hne. reflexivity.
      * vm_compute in Hj. inversion Hj. lia.
  - assert (Hv : fst (route_query_with_scores "alpha" nan_first_router) = Raise e)
      by (rewrite E; reflexivity).
    vm_compute in Hv. discriminate Hv.
Qed.

(** C7, amended: on a router whose routes were registered by [add_routes],
    the similarity map lists the adapters in registration order.  When the
    adapter registered first scores NaN, the router returns that adapter,
    whatever the other adapters score.  When the adapter registered first
    scores a number and the router returns an adapter, the score of that
    adapter is a number, no number among the scores of the map is greater,
    and every other adapter with an equal score was registered later. *)
Theorem earliest_registered_maximum_is_returned :
  forall (g : EmbeddingsGenerator) (similarity_threshold : pyfloat)
         (routes : list AdapterRoute) (r r' : SemanticRouter) (query : string)
         (similarities reported : dict pyfloat) (selected : string),
    add_routes routes (SemanticRouter_init g similarity_threshold) = (Ok tt, r) ->
    fst (calculate_similarities query r) = Ok similarities ->
    route_query_with_scores query r = (Ok (selected, reported), r') ->
    dict_keys similarities = registration_order routes [] /\
    (forall name rest,
        registration_order routes [] = name :: rest ->
        dict_get similarities name = Some NaN ->
        selected = name) /\
    (forall name rest first_score,
        registration_order routes [] = name :: rest ->
        dict_get similarities name = Some first_score ->
        is_nan first_score = false ->
        selected <> default_adapter_name ->
        exists score,
          dict_get similarities selected = Some score /\
          is_nan score = false /\
          (forall entry,
              In entry similarities -> is_nan (snd entry) = false ->
              fle (snd entry) score = true) /\
          forall other score',
            other <> selected ->
            dict_get similarities other = Some score' ->
            feq score' score = true ->
            exists i j,
              index_of selected (registration_order routes []) = Some i /\
              index_of other (registration_order routes []) = Some j /\
              (i < j)%nat).
Proof.
  intros g thr0 routes r r' query similarities reported selected Hreg Hsim Hroute.
  assert (Hwf0 : routes_wf (route_embeddings (SemanticRouter_init g thr0))).
  { split; [constructor | intros item []]. }
  destruct (add_routes_keys _ _ _ Hreg Hwf0) as [Hwf Hkeys]. simpl in Hkeys.
  rewrite calculate_similarities_eq in Hsim.
  rewrite route_query_with_scores_eq in Hroute.
  destruct (generate_embedding _ _) as [qe|e]; [|discriminate Hsim].
  simpl in Hsim. injection Hsim as Heq. cbv zeta in Hroute. rewrite Heq in Hroute.
  pose proof (score_routes_keys qe _ Hwf) as Hk. rewrite Heq, Hkeys in Hk.
  pose proof (score_routes_wf qe (route_embeddings r)) as Hnd. rewrite Heq in Hnd.
  clear Heq.
  split; [exact Hk|]. rewrite <- Hk. split.
  - intros name rest Hfirst Hget.
    destruct (dict_get_head _ _ _ _ Hfirst Hget) as (tail & ->).
    rewrite (py_max_nan_first (name, NaN) tail eq_refl) in Hroute.
    rewrite (threshold_nan ((name, NaN) :: tail) r (name, NaN)
               (or_introl eq_refl) eq_refl) in Hroute.
    inversion Hroute. reflexivity.
  - intros name rest first_score Hfirst Hget Hfin Hsel.
    destruct (dict_get_head _ _ _ _ Hfirst Hget) as (tail & Hshape).
    destruct (py_max_by_score similarities) as [best|] eqn:Em;
      [|inversion Hroute; subst; contradiction Hsel; reflexivity].
    assert (Hfm : first_maximum (finite_scores similarities) best).
    { rewrite Hshape in Em |- *.
      apply (py_max_first_maximum (name, first_score) tail best Hfin Em). }
    destruct (flt (snd best) (threshold_value similarities r));
      inversion Hroute; subst selected; [contradiction Hsel; reflexivity|].
    clear Hroute Hshape Hget Hfirst.
    assert (Hbest : In best similarities).
    { apply first_maximum_in in Hfm. apply filter_In in Hfm. apply Hfm. }
    destruct best as [k v]. cbn [fst snd] in *.
    exists v. split; [apply (dict_in_get _ _ _ Hnd Hbest)|].
    split; [destruct Hfm as (_ & _ & _ & _ & _ & Hv); exact Hv|].
    split.
    + intros entry Hin Hnum.
      apply (first_maximum_bounds _ (k, v) entry Hfm).
      apply filter_In. split; [exact Hin|]. rewrite Hnum. reflexivity.
    + intros other score' Hneq Ho Htie.
      destruct Hfm as (before & after & Hsplit & Hbefore & _ & _).
      destruct (filter_split _ _ _ _ _ Hsplit) as (b' & a' & Hfull & Hb' & Ha').
      apply dict_get_in in Ho.
      assert (Hof : In (other, score') (finite_scores similarities)).
      { apply filter_In. split; [exact Ho|].
        cbn [snd]. rewrite (feq_fin_l _ _ Htie). reflexivity. }
      rewrite Hsplit in Hof.
      unfold dict_wf, dict_keys in Hnd. unfold dict_keys.
      rewrite Hfull, map_app in *. simpl map in *.
      apply NoDup_remove in Hnd. destruct Hnd as [Hnd Hnotin].
      assert (Hkb : ~ In k (map fst b')).
      { intro Hin. apply Hnotin, in_or_app. left. exact Hin. }
      exists (List.length (map fst b')).
      apply in_app_or in Hof. destruct Hof as [Hof | [Hof | Hof]].
      * exfalso. apply (feq_flt_absurd score' v Htie). apply (Hbefore _ Hof).
      * inversion Hof. congruence.
      * assert (Hoa : In other (map fst a')).
        { rewrite <- Ha' in Hof. apply filter_In in Hof. destruct Hof as [Hof _].
          apply (in_map fst) in Hof. exact Hof. }
        assert (Hob : ~ In other (map fst b')).
        { intro Hin. exact (nodup_app_apart _ _ _ Hnd Hin Hoa). }
        destruct (index_of_later other k _ _ Hob Hneq Hoa) as (j & Hj & Hlt).
        exists j. split; [apply index_of_here, Hkb|]. split; assumption.
Qed.

Lemma earliest_registered_maximum_is_returned_witness :
  let similarities := score_routes [1; 0] (route_embeddings tie_router) in
  dict_keys similarities = registration_order [route_b; route_a2; route_a] [] /\
  (forall name rest,
      registration_order [route_b; route_a2; route_a] [] = name :: rest ->
      dict_get similarities name = Some NaN ->
      "a2" = name) /\
  (forall name rest first_score,
      registration_order [route_b; route_a2; route_a] [] = name :: rest ->
      dict_get similarities name = Some first_score ->
      is_nan first_score = false ->
      "a2" <> default_adapter_name ->
      exists score,
        dict_get similarities "a2" = Some score /\
        is_nan score = false /\
        (forall entry,
            In entry similarities -> is_nan (snd entry) = false ->
            fle (snd entry) score = true) /\
        forall other score',
          other <> "a2" ->
          dict_get similarities other = Some score' ->
          feq score' score = true ->
          exists i j,
            index_of "a2" (registration_order [route_b; route_a2; route_a] []) = Some i /\
            index_of other (registration_order [route_b; route_a2; route_a] []) = Some j /\
            (i < j)%nat).
Proof.
  cbv zeta.
  eapply (earliest_registered_maximum_is_returned demo_embeddings (Fin (7 # 10))
            [route_b; route_a2; route_a] tie_router _ "alpha" _ _ "a2").
  - reflexivity.
  - reflexivity.
  - vm_compute. reflexivity.
Defined.

(** ** Zero-norm references *)

Lemma np_sqrt_zero (q : Q) : np_sqrt q == 0 -> q <= 0.
Proof.
  unfold np_sqrt, Qeq, Qle. cbn [Qnum Qden]. rewrite !Z.mul_1_r, Z.mul_0_l. intro H.
  destruct (Z_lt_le_dec 0 (Qnum q)) as [Hpos | Hle]; [|exact Hle].
  exfalso.
  assert (Hp : (0 < Qnum q * Z.pos (Qden q) * 4 ^ 52)%Z).
  { apply Z.mul_pos_pos; [apply Z.mul_pos_pos; [exact Hpos | reflexivity] | reflexivity]. }
  apply Z.sqrt_up_pos in Hp. rewrite H in Hp. apply (Z.lt_irrefl _ Hp).
Qed.

Lemma np_sqrt_of_zero (q : Q) : q == 0 -> np_sqrt q == 0.
Proof.
  unfold np_sqrt, Qeq. cbn [Qnum Qden]. rewrite !Z.mul_1_r, !Z.mul_0_l.
  intros ->. reflexivity.
Qed.

Lemma square_nonneg (a : Q) : 0 <= a * a.
Proof.
  unfold Qle. simpl. rewrite Z.mul_1_r. apply Z.square_nonneg.
Qed.

Lemma np_dot_self_nonneg (v : vec) : 0 <= np_dot v v.
Proof.
  induction v as [|a v IH]; simpl; [apply Qle_refl|].
  pose proof (square_nonneg a). lra.
Qed.

Lemma np_dot_self_zero (v : vec) :
  np_dot v v <= 0 -> Forall (fun a => a == 0) v.
Proof.
  induction v as [|a v IH]; simpl; intro H; [constructor|].
  pose proof (np_dot_self_nonneg v) as Hv.
  pose proof (square_nonneg a) as Ha.
  constructor.
  - assert (Hz : a * a == 0) by lra.
    apply Qmult_integral in Hz. destruct Hz; assumption.
  - apply IH. lra.
Qed.

Lemma np_dot_zero_l (v w : vec) : Forall (fun a => a == 0) v -> np_dot v w == 0.
Proof.
  intro H. revert w. induction H as [|a v Ha _ IH]; intro w; [reflexivity|].
  destruct w as [|b w]; simpl; [reflexivity|].
  rewrite Ha, IH. ring.
Qed.

Lemma np_dot_zero_r (v w : vec) : Forall (fun a => a == 0) w -> np_dot v w == 0.
Proof.
  intro H. revert v. induction H as [|b w Hb _ IH]; intro v.
  - destruct v; reflexivity.
  - destruct v as [|a v]; simpl; [reflexivity|].
    rewrite Hb, IH. ring.
Qed.

(** Whenever the denominator of the cosine is zero, so is its numerator: the
    quotient by zero the code forms is always 0/0. *)
Lemma cosine_zero_denominator (v1 v2 : vec) :
  np_linalg_norm v1 * np_linalg_norm v2 == 0 -> np_dot v1 v2 == 0.
Proof.
  intro H. apply Qmult_integral in H. destruct H as [H | H].
  - apply np_dot_zero_l, np_dot_self_zero, np_sqrt_zero, H.
  - apply np_dot_zero_r, np_dot_self_zero, np_sqrt_zero, H.
Qed.

Lemma cosine_zero_norm (query_embedding e : vec) :
  np_linalg_norm e == 0 -> calculate_cosine_similarity query_embedding e = NaN.
Proof.
  intro H. unfold calculate_cosine_similarity, fdiv.
  assert (Hz : Qeq_bool (np_linalg_norm query_embedding * np_linalg_norm e) 0 = true).
  { apply Qeq_bool_iff. rewrite H. ring. }
  rewrite Hz. reflexivity.
Qed.

Lemma score_routes_get (qe : vec) (routes : dict (list vec)) (name : string)
  (embeddings : list vec) :
  dict_wf routes -> In (name, embeddings) routes -> embeddings <> [] ->
  dict_get (score_routes qe routes) name =
  Some (np_mean (map (calculate_cosine_similarity qe) embeddings)).
Proof.
  intros Hwf Hin Hne.
  apply dict_in_get; [apply score_routes_wf|].
  rewrite (score_routes_map qe routes Hwf).
  apply (in_map (score_entry qe) _ (name, embeddings)).
  apply filter_In. split; [exact Hin|].
  unfold has_embeddings. simpl. destruct embeddings; [contradiction | reflexivity].
Qed.

(** C4, as worded, fails: a route whose only reference embedding is the
    zero vector keeps its entry in the similarity map, with score NaN. *)
Lemma degenerate_adapter_scored_nan :
  route_embeddings degenerate_router = [("z", [[0; 0]])] /\
  np_linalg_norm [0; 0] == 0 /\
  fst (calculate_similarities "alpha" degenerate_router) = Ok [("z", NaN)] /\
  ~ degenerate_adapter_omitted.
Proof.
  split; [reflexivity|]. split; [reflexivity|]. split; [reflexivity|].
  intro H.
  specialize (H degenerate_router "alpha" [("z", NaN)] "z" [[0; 0]] eq_refl
                (or_introl eq_refl)).
  assert (Hz : forall e, In e [[0; 0]] -> np_linalg_norm e == 0).
  { intros e [<- | []]. reflexivity. }
  specialize (H Hz). discriminate H.
Qed.

(** C4, amended: every route that holds at least one reference embedding
    has an entry in the similarity map, and its score is the mean of the
    cosines against all of its references, none excluded.  The cosine against
    a zero-norm reference is the quotient 0/0, that is NaN, and one such
    reference makes the adapter's score NaN (the entry stays in the map). *)
Theorem zero_norm_reference_yields_nan :
  forall (r : SemanticRouter) (query : string) (query_embedding : vec)
         (name : string) (embeddings : list vec),
    generate_embedding (embeddings_generator r) query = Ok query_embedding ->
    dict_wf (route_embeddings r) ->
    In (name, embeddings) (route_embeddings r) ->
    embeddings <> [] ->
    exists similarities,
      calculate_similarities query r = (Ok similarities, r) /\
      dict_get similarities name =
      Some (np_mean (map (calculate_cosine_similarity query_embedding) embeddings)) /\
      (forall e, In e embeddings -> np_linalg_norm e == 0 ->
                 calculate_cosine_similarity query_embedding e = NaN /\
                 dict_get similarities name = Some NaN).
Proof.
  intros r query qe name embeddings Hq Hwf Hin Hne.
  rewrite calculate_similarities_eq, Hq.
  eexists. split; [reflexivity|].
  pose proof (score_routes_get qe _ _ _ Hwf Hin Hne) as Hget.
  split; [exact Hget|].
  intros e He Hnorm.
  pose proof (cosine_zero_norm qe e Hnorm) as Hcos.
  split; [exact Hcos|].
  rewrite Hget. f_equal. apply np_mean_nan.
  rewrite <- Hcos. apply in_map, He.
Qed.

Lemma zero_norm_reference_yields_nan_witness :
  exists similarities,
    calculate_similarities "alpha" degenerate_router = (Ok similarities, degenerate_router) /\
    dict_get similarities "z" =
    Some (np_mean (map (calculate_cosine_similarity [1; 0]) [[0; 0]])) /\
    (forall e, In e [[0; 0]] -> np_linalg_norm e == 0 ->
               calculate_cosine_similarity [1; 0] e = NaN /\
               dict_get similarities "z" = Some NaN).
Proof.
  apply (zero_norm_reference_yields_nan degenerate_router "alpha" [1; 0] "z" [[0; 0]]).
  - reflexivity.
  - unfold dict_wf. simpl. repeat constructor. intros [].
  - left. reflexivity.
  - discriminate.
Defined.

(** ** Requests on the event loop *)

Lemma set_active_adapter_eq (name : string) (am : AdapterManager) :
  set_active_adapter name am =
  if String.eqb name "base" then (Ok tt, am)
  else if dict_mem (loaded_adapters am) name
       then (Ok tt, {| loaded_adapters := loaded_adapters am; peft_active := Some name |})
       else (Raise (ValueError (String.append "Adapter "
                                  (String.append name " not loaded"))), am).
Proof.
  unfold set_active_adapter. step_monad.
  destruct (String.eqb name "base"); [reflexivity|].
  destruct (dict_mem (loaded_adapters am) name); reflexivity.
Qed.

Lemma generate_response_setup_eq (query : string) (messages : list message)
  (stream : bool) (m : MixtureOfAdapters) :
  generate_response_setup query messages stream m =
  match route_query_with_scores query (router m) with
  | (Raise e, r1) => (Raise e, set_router m r1)
  | (Ok decision, r1) =>
      let m1 := set_router m r1 in
      let m2 :=
        if verbose m
        then snd (log_routing_decision query (fst decision) (snd decision) m1)
        else m1 in
      if String.eqb (fst decision) "base"
      then (Raise (AttributeError
                     "'AdapterManager' object has no attribute 'disable_all_adapters'"),
            m2)
      else
        match set_active_adapter (fst decision) (adapter_manager m2) with
        | (Raise e, am) => (Raise e, set_adapter_manager m2 am)
        | (Ok _, am) =>
            let m3 :=
              set_current_adapter (set_adapter_manager m2 am) (Some (fst decision)) in
            (Ok (fst decision,
                 completion (chat_generator m3) (peft_active (adapter_manager m3))
                   messages stream),
             set_trace m3
               (trace m3 ++
                [GenerationStarted (peft_active (adapter_manager m3)) messages stream]))
        end
  end.
Proof.
  unfold generate_response_setup.
  unfold bind at 1. unfold on_router at 1.
  destruct (route_query_with_scores query (router m)) as [[decision|e] r1];
    [|reflexivity].
  unfold bind at 1. unfold get at 1. cbn [verbose set_router].
  unfold bind at 1.
  assert (Hlog :
            (if verbose m
             then log_routing_decision query (fst decision) (snd decision)
             else ret tt) (set_router m r1) =
            (Ok tt,
             if verbose m
             then snd (log_routing_decision query (fst decision) (snd decision)
                         (set_router m r1))
             else set_router m r1)).
  { destruct (verbose m); [|reflexivity].
    rewrite log_routing_decision_eq. reflexivity. }
  rewrite Hlog. cbv zeta.
  set (m2 := if verbose m then _ else _).
  unfold bind at 1.
  destruct (String.eqb (fst decision) "base").
  - unfold bind at 1. rewrite no_disable_all_adapters. reflexivity.
  - unfold on_adapter_manager.
    destruct (set_active_adapter (fst decision) (adapter_manager m2)) as [[[]|e] am];
      reflexivity.
Qed.

Lemma log_routing_decision_frame (query selected : string) (similarities : dict pyfloat)
  (m : MixtureOfAdapters) :
  let m' := snd (log_routing_decision query selected similarities m) in
  current_adapter m' = current_adapter m /\ adapter_manager m' = adapter_manager m.
Proof. rewrite log_routing_decision_eq. split; reflexivity. Qed.

Lemma generate_response_setup_ok (query : string) (messages : list message)
  (stream : bool) (m m' : MixtureOfAdapters) (started : string * list string) :
  generate_response_setup query messages stream m = (Ok started, m') ->
  current_adapter m' = Some (fst started) /\
  peft_active (adapter_manager m') = Some (fst started) /\
  fst started <> "base".
Proof.
  rewrite generate_response_setup_eq.
  destruct (route_query_with_scores query (router m)) as [[decision|e] r1];
    [|discriminate].
  cbv zeta. set (m2 := if verbose m then _ else _).
  destruct (String.eqb (fst decision) "base") eqn:Eb; [discriminate|].
  rewrite set_active_adapter_eq, Eb.
  destruct (dict_mem (loaded_adapters (adapter_manager m2)) (fst decision));
    [|discriminate].
  intro H. inversion H; subst. simpl.
  repeat split. apply String.eqb_neq, Eb.
Qed.

Lemma generate_response_setup_raise_frame (query : string) (messages : list message)
  (stream : bool) (m m' : MixtureOfAdapters) (e : exn) :
  generate_response_setup query messages stream m = (Raise e, m') ->
  current_adapter m' = current_adapter m /\ adapter_manager m' = adapter_manager m.
Proof.
  rewrite generate_response_setup_eq.
  destruct (route_query_with_scores query (router m)) as [[decision|e'] r1].
  - cbv zeta.
    assert (Hm2 : forall m2,
               m2 = (if verbose m
                     then snd (log_routing_decision query (fst decision) (snd decision)
                                 (set_router m r1))
                     else set_router m r1) ->
               current_adapter m2 = current_adapter m /\
               adapter_manager m2 = adapter_manager m).
    { intros m2 ->. destruct (verbose m).
      - destruct (log_routing_decision_frame query (fst decision) (snd decision)
                    (set_router m r1)) as [H1 H2].
        rewrite H1, H2. split; reflexivity.
      - split; reflexivity. }
    set (m2 := if verbose m then _ else _) in *.
    specialize (Hm2 m2 eq_refl). destruct Hm2 as [Hc Ha].
    destruct (String.eqb (fst decision) "base") eqn:Eb.
    + intro H. inversion H; subst. split; assumption.
    + rewrite set_active_adapter_eq, Eb.
      destruct (dict_mem (loaded_adapters (adapter_manager m2)) (fst decision));
        [discriminate|].
      intro H. inversion H; subst. simpl. rewrite Ha. split; [exact Hc|].
      destruct (adapter_manager m). reflexivity.
  - intro H. inversion H; subst. split; reflexivity.
Qed.

Lemma last_activated_app (l1 l2 : list delivery) :
  last_activated (l1 ++ l2) =
  match last_activated l2 with
  | Some a => Some a
  | None => last_activated l1
  end.
Proof.
  induction l1 as [|d l1 IH]; simpl.
  - destruct (last_activated l2); reflexivity.
  - rewrite IH. destruct (last_activated l2); reflexivity.
Qed.

Lemma chunks_follow_latest_snoc (ds : list delivery) (d : delivery) :
  chunks_follow_latest ds ->
  (forall id adapter label backend text,
      d = Chunk id adapter label backend text ->
      exists latest,
        last_activated ds = Some latest /\ backend = Some latest /\
        label = label_of latest) ->
  chunks_follow_latest (ds ++ [d]).
Proof.
  intros Hds Hd before id adapter label backend text after Heq.
  destruct after as [|a0 after0].
  - apply app_inj_tail in Heq. destruct Heq as [-> Hchunk].
    apply (Hd id adapter label backend text). exact Hchunk.
  - destruct (exists_last (l := a0 :: after0)) as (after' & y & Hy); [discriminate|].
    rewrite Hy in Heq.
    replace (before ++ Chunk id adapter label backend text :: after' ++ [y])
      with ((before ++ Chunk id adapter label backend text :: after') ++ [y]) in Heq
      by (rewrite <- app_assoc; reflexivity).
    apply app_inj_tail in Heq. destruct Heq as [Heq _].
    apply (Hds before id adapter label backend text after'). exact Heq.
Qed.

Lemma replace_nth_in {A : Type} (n : nat) (l : list A) (x y : A) :
  In y (replace_nth n l x) -> y = x \/ In y l.
Proof.
  revert n. induction l as [|z l IH]; intros n H; simpl in H.
  - destruct n; contradiction.
  - destruct n as [|n]; simpl in H.
    + destruct H as [<- | H]; [left; reflexivity | right; right; exact H].
    + destruct H as [<- | H]; [right; left; reflexivity|].
      destruct (IH n H) as [-> | Hin]; [left; reflexivity | right; right; exact Hin].
Qed.

Lemma model_label_of (m : MixtureOfAdapters) (a : string) :
  current_adapter m = Some a -> model_label m = label_of a.
Proof.
  unfold model_label, get_current_adapter, label_of. intros ->.
  destruct a; reflexivity.
Qed.

Lemma holders_after_replace (P : Prop) (id : nat) (ts : list task) (t' : task) :
  (forall t a, In t ts -> holds_backend t = Some a -> P) ->
  (forall a, holds_backend t' = Some a -> P) ->
  forall t a, In t (replace_nth id ts t') -> holds_backend t = Some a -> P.
Proof.
  intros Hold Hnew t a Hin Hh.
  apply replace_nth_in in Hin. destruct Hin as [-> | Hin].
  - exact (Hnew a Hh).
  - exact (Hold t a Hin Hh).
Qed.

Lemma loop_step_last_writer_wins (s : server) (id : nat) :
  last_writer_wins s -> last_writer_wins (loop_step s id).
Proof.
  intros (H1 & H2 & H3 & H4). unfold loop_step.
  destruct (nth_error (tasks s) id) as [t|] eqn:Et; [|repeat split; assumption].
  apply nth_error_In in Et.
  destruct t as [query messages | adapter pending | ]; unfold resume.
  - destruct (generate_response_setup query messages true (system s))
      as [[started|e] m'] eqn:E.
    + destruct (generate_response_setup_ok _ _ _ _ _ _ E) as (Hc & Hp & _).
      unfold last_writer_wins. cbn [tasks system delivered].
      split; [|split; [|split]].
      * rewrite last_activated_app. exact Hc.
      * intros a Ha. rewrite Hc in Ha. inversion Ha; subst. exact Hp.
      * intros t a _ _. rewrite Hc. discriminate.
      * apply chunks_follow_latest_snoc; [exact H4 | discriminate].
    + destruct (generate_response_setup_raise_frame _ _ _ _ _ _ E) as [Hc Ha].
      unfold last_writer_wins. cbn [tasks system delivered].
      split; [|split; [|split]].
      * rewrite last_activated_app, Hc. exact H1.
      * intros a Hca. rewrite Ha. apply H2. rewrite <- Hc. exact Hca.
      * rewrite Hc. apply holders_after_replace; [exact H3 | discriminate].
      * apply chunks_follow_latest_snoc; [exact H4 | discriminate].
  - destruct pending as [|text pending].
    + unfold last_writer_wins. cbn [tasks system delivered].
      rewrite app_nil_r. unfold generate_response_finish. step_monad.
      cbn [snd current_adapter adapter_manager set_trace].
      split; [exact H1|]. split; [exact H2|]. split; [|exact H4].
      apply holders_after_replace; [exact H3 | discriminate].
    + pose proof (H3 _ adapter Et eq_refl) as Hsome.
      unfold last_writer_wins. cbn [tasks system delivered].
      split; [|split; [|split]].
      * rewrite last_activated_app.
        destruct (nonempty text); simpl; exact H1.
      * exact H2.
      * apply holders_after_replace; [exact H3 | intros _ _; exact Hsome].
      * destruct (nonempty text); [|rewrite app_nil_r; exact H4].
        apply chunks_follow_latest_snoc; [exact H4|].
        intros id' adapter' label backend text' Hchunk. inversion Hchunk; subst.
        destruct (current_adapter (system s)) as [latest|] eqn:Ec;
          [|contradiction Hsome; reflexivity].
        exists latest. split; [symmetry; exact H1|].
        split; [apply H2; reflexivity | apply model_label_of, Ec].
  - unfold last_writer_wins. cbn [tasks system delivered]. rewrite app_nil_r.
    split; [exact H1|]. split; [exact H2|]. split; [|exact H4].
    apply holders_after_replace; [exact H3 | discriminate].
Qed.

Lemma run_schedule_last_writer_wins (schedule : list nat) (s : server) :
  last_writer_wins s -> last_writer_wins (run_schedule s schedule).
Proof.
  unfold run_schedule. revert s.
  induction schedule as [|id schedule IH]; intros s H; simpl; [exact H|].
  apply IH, loop_step_last_writer_wins, H.
Qed.

(** C1, as worded, fails: two streaming requests, routed to ["a"] and to
    ["b"], are both in their generation loop after each has run its set-up,
    and the next chunk of the first, whose text ["a-1"] was fixed by its own
    set-up under ["a"], is delivered while the backend is set to ["b"] and
    is labelled ["b"]. *)
Lemma concurrent_requests_overlap :
  tasks (run_schedule demo_server [0; 1]%nat) =
  [Streaming "a" ["a-1"; "a-2"]; Streaming "b" ["b-1"; "b-2"]] /\
  delivered (run_schedule demo_server [0; 1; 0]%nat) =
  [Activated 0 "a"; Activated 1 "b"; Chunk 0 "a" "b" (Some "b") "a-1"] /\
  ~ requests_serialized.
Proof.
  split; [vm_compute; reflexivity|]. split; [vm_compute; reflexivity|].
  intro H.
  assert (Hinit : forall t, In t (tasks demo_server) -> holds_backend t = None).
  { intros t [<- | [<- | []]]; reflexivity. }
  specialize (H demo_server [0; 1]%nat Hinit 0%nat 1%nat "a" "b").
  assert (Ht : tasks (run_schedule demo_server [0; 1]%nat) =
               [Streaming "a" ["a-1"; "a-2"]; Streaming "b" ["b-1"; "b-2"]])
    by (vm_compute; reflexivity).
  rewrite Ht in H. specialize (H eq_refl eq_refl). discriminate H.
Qed.

(** C1, amended: the code has no gate and the adapter in use is shared
    state.  From a server with no request in progress, whatever the schedule
    of resumptions: [current_adapter] names the adapter of the latest
    successful set-up, the adapter set on the backend is that same one, and
    every chunk, whichever request it belongs to, is delivered while the
    backend is set to the adapter of the latest set-up before it and is
    labelled with that adapter.  Nothing is claimed of the adapter under
    which the text of a chunk was generated. *)
Theorem chunks_follow_latest_activation :
  forall (s : server) (schedule : list nat),
    (forall t, In t (tasks s) -> holds_backend t = None) ->
    delivered s = [] ->
    current_adapter (system s) = None ->
    let s' := run_schedule s schedule in
    current_adapter (system s') = last_activated (delivered s') /\
    (forall a, current_adapter (system s') = Some a ->
               peft_active (adapter_manager (system s')) = Some a) /\
    (forall before id adapter label backend text after,
        delivered s' = before ++ Chunk id adapter label backend text :: after ->
        exists latest,
          last_activated before = Some latest /\
          backend = Some latest /\
          label = label_of latest).
Proof.
  intros s schedule Hidle Hnone Hcur s'.
  assert (Hinit : last_writer_wins s).
  { unfold last_writer_wins. rewrite Hnone, Hcur.
    split; [reflexivity|]. split; [discriminate|]. split.
    - intros t a Hin Hh. rewrite (Hidle t Hin) in Hh. discriminate Hh.
    - intros before id adapter label backend text after Heq.
      destruct before; discriminate Heq. }
  destruct (run_schedule_last_writer_wins schedule s Hinit) as (H1 & H2 & _ & H4).
  split; [exact H1|]. split; [exact H2 | exact H4].
Qed.

Lemma chunks_follow_latest_activation_witness :
  let s' := run_schedule demo_server [0; 1; 0; 1]%nat in
  current_adapter (system s') = last_activated (delivered s') /\
  (forall a, current_adapter (system s') = Some a ->
             peft_active (adapter_manager (system s')) = Some a) /\
  (forall before id adapter label backend text after,
      delivered s' = before ++ Chunk id adapter label backend text :: after ->
      exists latest,
        last_activated before = Some latest /\
        backend = Some latest /\
        label = label_of latest).
Proof.
  apply (chunks_follow_latest_activation demo_server [0; 1; 0; 1]%nat).
  - intros t [<- | [<- | []]]; reflexivity.
  - reflexivity.
  - reflexivity.
Defined.

(** ** Pushes per request *)

Lemma generate_response_router (query : string) (messages : list message)
  (stream : bool) (m : MixtureOfAdapters) :
  router (snd (generate_response query messages stream m)) =
  match route_query_with_scores query (router m) with
  | (Raise _, r1) => r1
  | (Ok decision, r1) =>
      if verbose m then threshold_state (snd decision) r1 else r1
  end.
Proof.
  unfold generate_response, bind at 1. rewrite generate_response_setup_eq.
  destruct (route_query_with_scores query (router m)) as [[decision|e] r1];
    [|reflexivity].
  cbv zeta.
  assert (Hm2 : router (if verbose m
                        then snd (log_routing_decision query (fst decision)
                                    (snd decision) (set_router m r1))
                        else set_router m r1) =
                if verbose m then threshold_state (snd decision) r1 else r1).
  { destruct (verbose m); [|reflexivity].
    rewrite log_routing_decision_eq. reflexivity. }
  set (m2 := if verbose m then snd _ else _) in *.
  destruct (String.eqb (fst decision) "base"); [exact Hm2|].
  destruct (set_active_adapter (fst decision) (adapter_manager m2)) as [[[]|e] am];
    [|exact Hm2].
  unfold generate_response_finish. step_monad. exact Hm2.
Qed.

(** The pushes one request makes: one by the router, and one more by the
    logging of the decision when the system is verbose. *)
Lemma pushes_per_request (query : string) (messages : list message) (stream : bool)
  (m : MixtureOfAdapters) (similarities : dict pyfloat) :
  fst (calculate_similarities query (router m)) = Ok similarities ->
  similarities <> [] ->
  let once :=
    push_score (historical_scores (router m)) (np_mean (dict_values similarities)) in
  historical_scores (router (snd (generate_response query messages stream m))) =
  if verbose m
  then push_score once
         (np_mean (dict_values (dict_set similarities default_adapter_name (Fin 0))))
  else once.
Proof.
  intros Hsim Hne once. rewrite generate_response_router.
  rewrite route_query_with_scores_eq.
  rewrite calculate_similarities_eq in Hsim.
  destruct (generate_embedding _ _) as [qe|e]; [|discriminate Hsim].
  simpl in Hsim. inversion Hsim as [Heq]. cbv zeta. rewrite Heq.
  destruct (py_max_by_score similarities) as [best|] eqn:Em.
  - cbn [snd]. unfold threshold_state.
    assert (Hset : dict_set similarities default_adapter_name (Fin 0) <> []).
    { destruct similarities as [|[k v] sims]; [contradiction|]. simpl.
      destruct (String.eqb k default_adapter_name); discriminate. }
    destruct (verbose m).
    + rewrite !calculate_dynamic_threshold_eq.
      destruct (dict_set similarities default_adapter_name (Fin 0)) eqn:Ed;
        [contradiction|].
      destruct similarities; [contradiction|]. reflexivity.
    + rewrite calculate_dynamic_threshold_eq.
      destruct similarities; [contradiction|]. reflexivity.
  - destruct similarities; [contradiction | discriminate Em].
Qed.

(** C8 on a registry of two routes: handled without logging, the query
    ["alpha"] leaves one score in the history (the mean 1/2 of its scores 1
    and 0); handled with logging it leaves two, the second being the mean 1/3
    of the map with the fallback entry added. *)
Theorem logged_request_pushes_twice :
  let quiet :=
    snd (generate_response "alpha" (ask "alpha") true (demo_system false demo_router)) in
  let logged :=
    snd (generate_response "alpha" (ask "alpha") true (demo_system true demo_router)) in
  (exists x,
      historical_scores (router quiet) = [x] /\ feq x (Fin (1 # 2)) = true) /\
  (exists x y,
      historical_scores (router logged) = [x; y] /\
      feq x (Fin (1 # 2)) = true /\ feq y (Fin (1 # 3)) = true).
Proof.
  cbv zeta. split.
  - eexists. split; [vm_compute; reflexivity | vm_compute; reflexivity].
  - do 2 eexists. split; [vm_compute; reflexivity|].
    split; vm_compute; reflexivity.
Qed.

(** * Further properties of the code *)

(** ** Lookup after assignment *)

Lemma dict_get_set_same {V : Type} (d : dict V) (k : string) (v : V) :
  dict_get (dict_set d k v) k = Some v.
Proof.
  induction d as [|[k' v'] d IH]; simpl.
  - rewrite String.eqb_refl. reflexivity.
  - destruct (String.eqb k' k) eqn:E; simpl.
    + rewrite String.eqb_refl. reflexivity.
    + rewrite E. exact IH.
Qed.

Lemma dict_get_set_other {V : Type} (d : dict V) (k k' : string) (v : V) :
  k' <> k -> dict_get (dict_set d k v) k' = dict_get d k'.
Proof.
  intro Hne. induction d as [|[k0 v0] d IH]; simpl.
  - destruct (String.eqb k k') eqn:E; [|reflexivity].
    apply String.eqb_eq in E. congruence.
  - destruct (String.eqb k0 k) eqn:E; simpl.
    + apply String.eqb_eq in E. subst k0.
      destruct (String.eqb k k') eqn:E'; [|reflexivity].
      apply String.eqb_eq in E'. congruence.
    + destruct (String.eqb k0 k'); [reflexivity | exact IH].
Qed.

Lemma dict_get_of_key {V : Type} (d : dict V) (k : string) :
  In k (dict_keys d) -> exists v, dict_get d k = Some v.
Proof.
  induction d as [|[k' v'] d IH]; simpl; [intros []|].
  destruct (String.eqb k' k) eqn:E; [intros _; eexists; reflexivity|].
  intros [Heq | Hin]; [|exact (IH Hin)].
  apply String.eqb_neq in E. contradiction.
Qed.

(** ** Registration and lookup *)



Lemma add_routes_app (routes1 routes2 : list AdapterRoute) (r : SemanticRouter) :
  add_routes (routes1 ++ routes2) r =
  match add_routes routes1 r with
  | (Ok _, r1) => add_routes routes2 r1
  | (Raise e, r1) => (Raise e, r1)
  end.
Proof.
  revert r. induction routes1 as [|route routes1 IH]; intro r; [reflexivity|].
  simpl. unfold bind.
  destruct (add_route route r) as [[[]|e] r1]; [apply IH | reflexivity].
Qed.

(** A batch registration is not atomic: when the embedding of a route's
    utterances raises, [add_routes] raises that exception, the routes before
    it in the batch stay registered and the routes after it are not
    registered. *)
Theorem add_routes_stops_at_first_failure :
  forall (r r1 : SemanticRouter) (before after : list AdapterRoute)
         (route : AdapterRoute) (e : exn),
    add_routes before r = (Ok tt, r1) ->
    training_utterances route <> [] ->
    batch_generate_embeddings (embeddings_generator r1) (training_utterances route) =
    Raise e ->
    add_routes (before ++ route :: after) r = (Raise e, r1).
Proof.
  intros r r1 before after route e Hb Hne He.
  rewrite add_routes_app, Hb. simpl. unfold bind, add_route.
  destruct (training_utterances route) as [|u us]; [contradiction|].
  step_monad. rewrite He. reflexivity.
Qed.

Lemma add_routes_stops_at_first_failure_witness :
  add_routes ([route_a] ++ route_failing :: [route_b]) empty_router =
  (Raise (EmbeddingError "embedding model unavailable"),
   snd (add_routes [route_a] empty_router)).
Proof.
  apply (add_routes_stops_at_first_failure empty_router
           (snd (add_routes [route_a] empty_router)) [route_a] [route_b] route_failing).
  - reflexivity.
  - discriminate.
  - reflexivity.
Defined.

(** ** What the router reports *)

(** Whenever the router returns, the map it reports holds the fallback entry
    with score 0 and an entry for the name it selected, and that name is
    ["base"] or the name of a registered route. *)
Theorem selected_adapter_is_reported :
  forall (r r' : SemanticRouter) (query selected : string) (reported : dict pyfloat),
    route_query_with_scores query r = (Ok (selected, reported), r') ->
    dict_get reported default_adapter_name = Some (Fin 0) /\
    (selected = default_adapter_name \/
     In selected (dict_keys (route_embeddings r))) /\
    exists score, dict_get reported selected = Some score.
Proof.
  intros r r' query selected reported H.
  rewrite route_query_with_scores_eq in H.
  destruct (generate_embedding _ _) as [qe|e]; [|discriminate H].
  cbv zeta in H.
  destruct (py_max_by_score (score_routes qe (route_embeddings r))) as [best|] eqn:Em.
  - inversion H; subst. clear H.
    split; [apply dict_get_set_same|].
    destruct (flt (snd best) _).
    + split; [left; reflexivity|]. eexists. apply dict_get_set_same.
    + pose proof (py_max_first_highest _ _ Em) as [[Hin _] _].
      assert (Hk : In (fst best) (dict_keys (score_routes qe (route_embeddings r)))).
      { apply (in_map fst) in Hin. exact Hin. }
      split; [right; apply (score_routes_keys_subset qe), Hk|].
      destruct (String.eqb (fst best) default_adapter_name) eqn:Eb.
      * apply String.eqb_eq in Eb. rewrite Eb. eexists. apply dict_get_set_same.
      * apply String.eqb_neq in Eb. rewrite dict_get_set_other by exact Eb.
        apply dict_get_of_key, Hk.
  - inversion H; subst. split; [reflexivity|].
    split; [left; reflexivity|]. eexists. reflexivity.
Qed.

Lemma selected_adapter_is_reported_witness :
  dict_get (snd (match fst (route_query_with_scores "alpha" demo_router) with
                 | Ok decision => decision
                 | Raise _ => ("", [])
                 end)) default_adapter_name = Some (Fin 0) /\
  ("a" = default_adapter_name \/ In "a" (dict_keys (route_embeddings demo_router))) /\
  exists score,
    dict_get (snd (match fst (route_query_with_scores "alpha" demo_router) with
                   | Ok decision => decision
                   | Raise _ => ("", [])
                   end)) "a" = Some score.
Proof.
  apply (selected_adapter_is_reported demo_router
           (snd (route_query_with_scores "alpha" demo_router)) "alpha").
  vm_compute. reflexivity.
Defined.

(** ** The window of recent scores *)

Lemma last_n_all {A : Type} (n : nat) (l : list A) :
  (List.length l <= n)%nat -> last_n n l = l.
Proof.
  intro H. unfold last_n. replace (List.length l - n)%nat with 0%nat by lia.
  reflexivity.
Qed.

Lemma push_score_last_n (h : list pyfloat) (x : pyfloat) :
  (List.length h <= score_window)%nat ->
  push_score h x = last_n score_window (h ++ [x]).
Proof.
  intro Hle. unfold push_score, last_n. rewrite length_app. simpl List.length.
  destruct (score_window <? List.length h + 1)%nat eqn:E.
  - apply Nat.ltb_lt in E.
    replace (List.length h + 1 - score_window)%nat with 1%nat by lia.
    reflexivity.
  - apply Nat.ltb_ge in E.
    replace (List.length h + 1 - score_window)%nat with 0%nat by lia.
    reflexivity.
Qed.

Lemma last_n_app_last_n {A : Type} (n : nat) (l l' : list A) :
  last_n n (last_n n l ++ l') = last_n n (l ++ l').
Proof.
  unfold last_n at 2.
  destruct (Nat.le_gt_cases (List.length l) n) as [Hle | Hgt].
  - replace (List.length l - n)%nat with 0%nat by lia. reflexivity.
  - set (k := (List.length l - n)%nat).
    unfold last_n. rewrite !length_app, length_skipn. fold k.
    replace (List.length l - k + List.length l' - n)%nat
      with (List.length l')%nat by (unfold k; lia).
    replace (List.length l + List.length l' - n)%nat
      with (k + List.length l')%nat by (unfold k; lia).
    rewrite Nat.add_comm, <- skipn_skipn.
    f_equal. rewrite skipn_app.
    replace (k - List.length l)%nat with 0%nat by (unfold k; lia).
    reflexivity.
Qed.

Lemma feed_history (maps : list (dict pyfloat)) (r : SemanticRouter) :
  (List.length (historical_scores r) <= score_window)%nat ->
  Forall (fun similarities => similarities <> []) maps ->
  historical_scores (feed maps r) =
  last_n score_window
    (historical_scores r ++
     map (fun similarities => np_mean (dict_values similarities)) maps).
Proof.
  revert r. induction maps as [|sims maps IH]; intros r Hlen Hne; simpl.
  - rewrite app_nil_r. symmetry. apply last_n_all, Hlen.
  - inversion Hne as [|? ? Hs Hrest]; subst.
    rewrite calculate_dynamic_threshold_eq.
    destruct sims as [|s sims]; [contradiction|]. cbv zeta. cbn [snd].
    rewrite IH.
    + cbn [historical_scores set_historical_scores].
      rewrite push_score_last_n by exact Hlen.
      rewrite last_n_app_last_n, <- app_assoc. reflexivity.
    + cbn [historical_scores set_historical_scores].
      apply push_score_length, Hlen.
    + exact Hrest.
Qed.

(** The history is a sliding window: after any number of threshold
    computations on non-empty maps it holds, in order, the last ten of the
    scores it held before followed by the means of those maps. *)
Theorem history_is_last_ten_means :
  forall (maps : list (dict pyfloat)) (r : SemanticRouter),
    (List.length (historical_scores r) <= 10)%nat ->
    Forall (fun similarities => similarities <> []) maps ->
    historical_scores (feed maps r) =
    last_n 10
      (historical_scores r ++
       map (fun similarities => np_mean (dict_values similarities)) maps).
Proof. exact feed_history. Qed.

Lemma history_is_last_ten_means_witness :
  historical_scores (feed constant_maps empty_router) =
  last_n 10
    (historical_scores empty_router ++
     map (fun similarities => np_mean (dict_values similarities)) constant_maps).
Proof.
  apply (history_is_last_ten_means constant_maps empty_router).
  - simpl. lia.
  - unfold constant_maps. simpl. repeat constructor; discriminate.
Defined.


(** ** Outcomes of a request *)

Lemma logged_frame (query selected : string) (similarities : dict pyfloat)
  (m : MixtureOfAdapters) (r1 : SemanticRouter) :
  let m2 :=
    if verbose m
    then snd (log_routing_decision query selected similarities (set_router m r1))
    else set_router m r1 in
  adapter_manager m2 = adapter_manager m /\
  current_adapter m2 = current_adapter m /\
  chat_generator m2 = chat_generator m.
Proof.
  destruct (verbose m); cbv zeta.
  - rewrite log_routing_decision_eq. repeat split.
  - repeat split.
Qed.

Lemma setup_fallback (query : string) (messages : list message) (stream : bool)
  (m : MixtureOfAdapters) (similarities : dict pyfloat) (r1 : SemanticRouter) :
  route_query_with_scores query (router m) = (Ok ("base", similarities), r1) ->
  exists m',
    generate_response_setup query messages stream m =
    (Raise (AttributeError
              "'AdapterManager' object has no attribute 'disable_all_adapters'"), m') /\
    adapter_manager m' = adapter_manager m /\
    current_adapter m' = current_adapter m.
Proof.
  intro H. rewrite generate_response_setup_eq, H. cbv zeta. cbn [fst snd].
  destruct (logged_frame query "base" similarities m r1) as (Ha & Hc & _).
  eexists. split; [reflexivity|]. split; assumption.
Qed.

Lemma setup_selected (query : string) (messages : list message) (stream : bool)
  (m : MixtureOfAdapters) (selected : string) (similarities : dict pyfloat)
  (r1 : SemanticRouter) :
  route_query_with_scores query (router m) = (Ok (selected, similarities), r1) ->
  selected <> "base" ->
  dict_mem (loaded_adapters (adapter_manager m)) selected = true ->
  exists m',
    generate_response_setup query messages stream m =
    (Ok (selected, completion (chat_generator m) (Some selected) messages stream), m') /\
    current_adapter m' = Some selected /\
    peft_active (adapter_manager m') = Some selected /\
    loaded_adapters (adapter_manager m') = loaded_adapters (adapter_manager m).
Proof.
  intros H Hnb Hl. rewrite generate_response_setup_eq, H. cbv zeta. cbn [fst snd].
  destruct (logged_frame query selected similarities m r1) as (Ha & Hc & Hg).
  apply String.eqb_neq in Hnb. rewrite Hnb.
  rewrite set_active_adapter_eq, Hnb, Ha, Hl.
  eexists. split.
  - cbn [chat_generator set_current_adapter set_adapter_manager adapter_manager
           peft_active].
    rewrite Hg. reflexivity.
  - repeat split.
Qed.

Lemma setup_unloaded (query : string) (messages : list message) (stream : bool)
  (m : MixtureOfAdapters) (selected : string) (similarities : dict pyfloat)
  (r1 : SemanticRouter) :
  route_query_with_scores query (router m) = (Ok (selected, similarities), r1) ->
  selected <> "base" ->
  dict_mem (loaded_adapters (adapter_manager m)) selected = false ->
  exists m',
    generate_response_setup query messages stream m =
    (Raise (ValueError (String.append "Adapter "
                          (String.append selected " not loaded"))), m') /\
    adapter_manager m' = adapter_manager m /\
    current_adapter m' = current_adapter m.
Proof.
  intros H Hnb Hl. rewrite generate_response_setup_eq, H. cbv zeta. cbn [fst snd].
  destruct (logged_frame query selected similarities m r1) as (Ha & Hc & Hg).
  apply String.eqb_neq in Hnb. rewrite Hnb.
  rewrite set_active_adapter_eq, Hnb, Ha, Hl.
  eexists. split; [reflexivity|]. split; [|exact Hc].
  cbn [adapter_manager set_adapter_manager]. reflexivity.
Qed.

Lemma selected_registered (r r' : SemanticRouter) (query selected : string)
  (reported : dict pyfloat) :
  route_query_with_scores query r = (Ok (selected, reported), r') ->
  selected = default_adapter_name \/ In selected (dict_keys (route_embeddings r)).
Proof.
  intro H. rewrite route_query_with_scores_eq in H.
  destruct (generate_embedding _ _) as [qe|e]; [|discriminate H].
  cbv zeta in H.
  destruct (py_max_by_score (score_routes qe (route_embeddings r))) as [best|] eqn:Em.
  - inversion H; subst. destruct (flt (snd best) _); [left; reflexivity|].
    right. pose proof (py_max_first_highest _ _ Em) as [[Hin _] _].
    apply (score_routes_keys_subset qe). apply (in_map fst) in Hin. exact Hin.
  - inversion H; subst. left. reflexivity.
Qed.

(** When every route of the router names a loaded adapter, a request can
    fail in two ways only: the embedding of the query raises, and that
    exception comes out; or the routing decision is the fallback, and the
    [AttributeError] of the missing [disable_all_adapters] comes out.  In
    particular no request fails with "Adapter ... not loaded". *)
Theorem request_fails_only_on_embedding_or_fallback :
  forall (m m' : MixtureOfAdapters) (query : string) (messages : list message)
         (stream : bool) (e : exn),
    routes_loaded m ->
    generate_response query messages stream m = (Raise e, m') ->
    generate_embedding (embeddings_generator (router m)) query = Raise e \/
    (e = AttributeError
           "'AdapterManager' object has no attribute 'disable_all_adapters'" /\
     exists similarities r1,
       route_query_with_scores query (router m) = (Ok ("base", similarities), r1)).
Proof.
  intros m m' query messages stream e Hloaded H.
  unfold generate_response, bind at 1 in H.
  destruct (route_query_with_scores query (router m)) as [[[selected sims]|e1] r1] eqn:Er.
  - destruct (String.eqb selected "base") eqn:Eb.
    + apply String.eqb_eq in Eb. subst selected.
      destruct (setup_fallback query messages stream m sims r1 Er) as (m1 & Hs & _).
      rewrite Hs in H. inversion H; subst.
      right. split; [reflexivity|]. exists sims, r1. reflexivity.
    + apply String.eqb_neq in Eb.
      assert (Hl : dict_mem (loaded_adapters (adapter_manager m)) selected = true).
      { apply Hloaded. destruct (selected_registered _ _ _ _ _ Er) as [Hb | Hin];
          [contradiction | exact Hin]. }
      destruct (setup_selected query messages stream m selected sims r1 Er Eb Hl)
        as (m1 & Hs & _).
      rewrite Hs in H. unfold generate_response_finish in H. step_monad.
      discriminate H.
  - rewrite route_query_with_scores_eq in Er.
    destruct (generate_embedding _ _) as [qe|e2] eqn:Eg.
    + cbv zeta in Er. destruct (py_max_by_score _); discriminate Er.
    + inversion Er; subst.
      rewrite (generate_response_setup_raise _ _ _ _ _ Eg) in H.
      inversion H; subst. left. reflexivity.
Qed.

Lemma request_fails_only_on_embedding_or_fallback_witness :
  generate_embedding (embeddings_generator (router (demo_system true demo_router)))
    "delta" = Raise (EmbeddingError "embedding model unavailable") \/
  (EmbeddingError "embedding model unavailable" =
   AttributeError "'AdapterManager' object has no attribute 'disable_all_adapters'" /\
   exists similarities r1,
     route_query_with_scores "delta" (router (demo_system true demo_router)) =
     (Ok ("base", similarities), r1)).
Proof.
  apply (request_fails_only_on_embedding_or_fallback
           (demo_system true demo_router) (demo_system true demo_router)
           "delta" (ask "delta") true).
  - intros name [<- | [<- | []]]; reflexivity.
  - reflexivity.
Defined.

(** ** Replies of the [/generate] endpoint *)

(** A request that does not stream runs from routing to reply without a
    suspension point (the only one, [await asyncio.sleep(0)], is on the
    streaming path), so no other request runs in between.  When the router
    selects an adapter that is loaded, the reply holds the concatenated
    chunks of the completion generated under that adapter and is labelled
    with that adapter; afterwards the adapter is the one set on the backend
    and in [current_adapter]. *)
Theorem complete_reply_under_selected_adapter :
  forall (m : MixtureOfAdapters) (request : GenerateRequest) (selected : string)
         (similarities : dict pyfloat) (r1 : SemanticRouter),
    request_stream request = false ->
    route_query_with_scores (user_query (request_messages request)) (router m) =
    (Ok (selected, similarities), r1) ->
    selected <> "base" ->
    dict_mem (loaded_adapters (adapter_manager m)) selected = true ->
    exists m',
      api_generate request m =
      (GenerateResponse
         (String.concat ""
            (completion (chat_generator m) (Some selected)
               (request_messages request) false))
         (label_of selected),
       m') /\
      current_adapter m' = Some selected /\
      peft_active (adapter_manager m') = Some selected.
Proof.
  intros m request selected similarities r1 Hstream Hr Hnb Hl.
  unfold api_generate. rewrite Hstream.
  unfold generate_response, bind at 1.
  destruct (setup_selected _ (request_messages request) false m _ _ _ Hr Hnb Hl)
    as (m1 & Hs & Hc & Hp & _).
  rewrite Hs. unfold generate_response_finish. step_monad. cbn [snd].
  eexists. split.
  - rewrite (model_label_of _ selected); [reflexivity | exact Hc].
  - split; assumption.
Qed.

Lemma complete_reply_under_selected_adapter_witness :
  exists m',
    api_generate {| request_messages := ask "beta"; request_stream := false |}
      (demo_system false demo_router) =
    (GenerateResponse
       (String.concat ""
          (completion (chat_generator (demo_system false demo_router)) (Some "b")
             (ask "beta") false))
       (label_of "b"),
     m') /\
    current_adapter m' = Some "b" /\
    peft_active (adapter_manager m') = Some "b".
Proof.
  apply (complete_reply_under_selected_adapter (demo_system false demo_router)
           {| request_messages := ask "beta"; request_stream := false |} "b"
           (snd (match fst (route_query_with_scores "beta" demo_router) with
                 | Ok decision => decision
                 | Raise _ => ("", [])
                 end))
           (snd (route_query_with_scores "beta" demo_router))).
  - reflexivity.
  - vm_compute. reflexivity.
  - discriminate.
  - reflexivity.
Defined.

(** When the routing decision is the fallback or an adapter that is not
    loaded, the endpoint reports the failure and nothing is activated: the
    reply is status 500 (or, when streaming, a single ["Error: ..."] event
    under the label in force before the request), with the message of the
    [AttributeError] for the fallback and ["Adapter ... not loaded"]
    otherwise; the adapter manager and [current_adapter] are unchanged. *)
Theorem endpoint_reports_failed_activation :
  forall (m : MixtureOfAdapters) (request : GenerateRequest) (selected : string)
         (similarities : dict pyfloat) (r1 : SemanticRouter),
    route_query_with_scores (user_query (request_messages request)) (router m) =
    (Ok (selected, similarities), r1) ->
    selected = "base" \/
    dict_mem (loaded_adapters (adapter_manager m)) selected = false ->
    let message :=
      if String.eqb selected "base"
      then "'AdapterManager' object has no attribute 'disable_all_adapters'"
      else String.append "Adapter " (String.append selected " not loaded") in
    exists m',
      api_generate request m =
      (if request_stream request
       then EventSourceResponse
              [{| sse_content := String.append "Error: " message;
                  sse_model := model_label m |}]
       else HTTPException 500 message,
       m') /\
      adapter_manager m' = adapter_manager m /\
      current_adapter m' = current_adapter m.
Proof.
  intros m request selected similarities r1 Hr Hcase message.
  assert (Hsetup : forall stream,
             exists m',
               generate_response_setup (user_query (request_messages request))
                 (request_messages request) stream m =
               (Raise (if String.eqb selected "base"
                       then AttributeError message else ValueError message), m') /\
               adapter_manager m' = adapter_manager m /\
               current_adapter m' = current_adapter m).
  { intro stream. unfold message. destruct (String.eqb selected "base") eqn:Eb.
    - apply String.eqb_eq in Eb. subst selected.
      apply (setup_fallback _ _ _ _ _ _ Hr).
    - apply String.eqb_neq in Eb. destruct Hcase as [Hb | Hl]; [contradiction|].
      apply (setup_unloaded _ _ _ _ _ _ _ Hr Eb Hl). }
  assert (Hstr : exn_str (if String.eqb selected "base"
                          then AttributeError message else ValueError message) =
                 message).
  { destruct (String.eqb selected "base"); reflexivity. }
  unfold api_generate. destruct (request_stream request).
  - unfold generate_stream. destruct (Hsetup true) as (m1 & Hs & Ha & Hc).
    rewrite Hs. exists m1. split; [|split; assumption].
    unfold format_chunk, model_label, get_current_adapter. rewrite Hstr, Hc.
    reflexivity.
  - unfold generate_response, bind at 1. destruct (Hsetup false) as (m1 & Hs & Ha & Hc).
    rewrite Hs. exists m1. split; [|split; assumption]. rewrite Hstr. reflexivity.
Qed.

Lemma endpoint_reports_failed_activation_witness :
  exists m',
    api_generate {| request_messages := ask "alpha"; request_stream := false |}
      (demo_system false empty_router) =
    (HTTPException 500
       "'AdapterManager' object has no attribute 'disable_all_adapters'", m') /\
    adapter_manager m' = adapter_manager (demo_system false empty_router) /\
    current_adapter m' = current_adapter (demo_system false empty_router).
Proof.
  apply (endpoint_reports_failed_activation (demo_system false empty_router)
           {| request_messages := ask "alpha"; request_stream := false |} "base"
           [("base", Fin 0)] empty_router).
  - reflexivity.
  - left. reflexivity.
Defined.

(** ** The query of a conversation *)






(** ** Scores of other adapters *)

Lemma dict_get_scored (qe : vec) (routes : dict (list vec)) (name : string) :
  dict_wf routes ->
  dict_get (score_routes qe routes) name =
  match dict_get routes name with
  | Some (e :: es) =>
      Some (np_mean (map (calculate_cosine_similarity qe) (e :: es)))
  | _ => None
  end.
Proof.
  intro Hwf. rewrite (score_routes_map qe routes Hwf). unfold dict_wf in Hwf.
  induction routes as [|[k embs] routes IH]; [reflexivity|].
  inversion Hwf as [|? ? Hnotin Hwf']; subst.
  simpl. unfold has_embeddings at 1. simpl.
  destruct (String.eqb k name) eqn:E.
  - apply String.eqb_eq in E. subst k.
    destruct embs as [|e es].
    + rewrite IH by exact Hwf'.
      destruct (dict_get routes name) as [v|] eqn:Eg; [|reflexivity].
      apply dict_get_in in Eg. apply (in_map fst) in Eg. contradiction.
    + simpl. rewrite String.eqb_refl. reflexivity.
  - destruct embs as [|e es].
    + apply IH, Hwf'.
    + simpl. rewrite E. apply IH, Hwf'.
Qed.

(** Registering a route changes the score of no other adapter: for every
    query embedding, an adapter other than the one registered has the same
    entry (or absence of entry) in the similarity map as before. *)
Theorem registration_leaves_other_scores :
  forall (r r' : SemanticRouter) (route : AdapterRoute) (query_embedding : vec)
         (name : string),
    dict_wf (route_embeddings r) ->
    add_route route r = (Ok tt, r') ->
    name <> adapter_name route ->
    dict_get (score_routes query_embedding (route_embeddings r')) name =
    dict_get (score_routes query_embedding (route_embeddings r)) name.
Proof.
  intros r r' route qe name Hwf Hadd Hne.
  unfold add_route in Hadd.
  destruct (training_utterances route) as [|u us].
  - inversion Hadd; subst. reflexivity.
  - step_monad. destruct (batch_generate_embeddings _ _) as [embs|e];
      [|discriminate Hadd].
    inversion Hadd; subst. cbn [route_embeddings set_route_embeddings].
    rewrite !dict_get_scored; [|exact Hwf | apply dict_set_wf, Hwf].
    rewrite dict_get_set_other by exact Hne. reflexivity.
Qed.

Lemma registration_leaves_other_scores_witness :
  dict_get (score_routes [1; 0]
              (route_embeddings (snd (add_route route_b (snd (add_route route_a empty_router))))))
    "a" =
  dict_get (score_routes [1; 0]
              (route_embeddings (snd (add_route route_a empty_router)))) "a".
Proof.
  apply (registration_leaves_other_scores (snd (add_route route_a empty_router))
           (snd (add_route route_b (snd (add_route route_a empty_router))))
           route_b [1; 0] "a").
  - unfold dict_wf. simpl. repeat constructor. intros [].
  - reflexivity.
  - discriminate.
Defined.

(** ** A request alone on the event loop *)



Lemma pushes_per_request_witness :
  let m := demo_system true demo_router in
  let similarities := score_routes [1; 0] (route_embeddings demo_router) in
  let once :=
    push_score (historical_scores (router m)) (np_mean (dict_values similarities)) in
  historical_scores (router (snd (generate_response "alpha" (ask "alpha") true m))) =
  if verbose m
  then push_score once
         (np_mean (dict_values (dict_set similarities default_adapter_name (Fin 0))))
  else once.
Proof.
  apply (pushes_per_request "alpha" (ask "alpha") true (demo_system true demo_router)
           (score_routes [1; 0] (route_embeddings demo_router))).
  - reflexivity.
  - discriminate.
Defined.


(** ** Adapter directories *)

Lemma extract_routing_config_some (adapter_config : json) (name : string)
  (route : AdapterRoute) :
  extract_routing_config adapter_config name = Returned (Some route) ->
  adapter_name route = name /\
  exists section,
    py_getitem adapter_config "semantic_routing" = Returned section /\
    py_getitem section "questions" = Returned (JStrings (training_utterances route)).
Proof.
  unfold extract_routing_config.
  destruct (py_in "semantic_routing" adapter_config) as [[|]|e]; try discriminate.
  destruct (py_getitem adapter_config "semantic_routing") as [section|e] eqn:Es;
    [|discriminate].
  destruct (py_getitem section "questions") as [utterances|e] eqn:Eq; [|discriminate].
  destruct utterances; simpl; try discriminate.
  intro H. inversion H; subst. simpl. split; [reflexivity|].
  exists section. split; [reflexivity | exact Eq].
Qed.

Lemma extract_routing_config_none (adapter_config : json) (name : string) :
  extract_routing_config adapter_config name = Returned None ->
  py_in "semantic_routing" adapter_config = Returned false.
Proof.
  unfold extract_routing_config.
  destruct (py_in "semantic_routing" adapter_config) as [[|]|e]; try discriminate.
  - destruct (py_getitem adapter_config "semantic_routing") as [section|e];
      [|discriminate].
    destruct (py_getitem section "questions") as [utterances|e]; [|discriminate].
    destruct (of_res _); discriminate.
  - reflexivity.
Qed.

(** What a loaded directory yields: the directory holds the three required
    files; the adapter is named as asked, or after the last component of the
    directory when no name is given; the configuration is the decoded
    [adapter_config.json]; a route, when there is one, carries the adapter's
    name and exactly the strings of [semantic_routing.questions], and there
    is none exactly when the configuration has no [semantic_routing] key. *)
Theorem loaded_directory_describes_adapter :
  forall (fs : filesystem) (adapter_dir : path) (name : option string)
         (info : adapter_info),
    load_from_directory fs adapter_dir name = Returned info ->
    (forall file, In file required_files ->
                  fs_exists fs (joinpath adapter_dir file) = true) /\
    info_name info =
    match name with
    | None => path_name adapter_dir
    | Some n => n
    end /\
    info_path info = adapter_dir /\
    fs_load_json fs (joinpath adapter_dir "adapter_config.json") =
    Returned (info_config info) /\
    (forall route,
        info_route info = Some route ->
        adapter_name route = info_name info /\
        exists section,
          py_getitem (info_config info) "semantic_routing" = Returned section /\
          py_getitem section "questions" =
          Returned (JStrings (training_utterances route))) /\
    (info_route info = None ->
     py_in "semantic_routing" (info_config info) = Returned false).
Proof.
  intros fs adapter_dir name info H. unfold load_from_directory in H.
  destruct (validate_adapter_directory fs adapter_dir) eqn:Ev; [|discriminate H].
  cbn [negb] in H. cbv zeta in H.
  unfold load_adapter_config in H. cbv zeta in H.
  assert (Hfiles : forall file, In file required_files ->
                                fs_exists fs (joinpath adapter_dir file) = true).
  { intros file Hin. unfold validate_adapter_directory in Ev.
    rewrite forallb_forall in Ev. apply Ev, Hin. }
  rewrite (Hfiles "adapter_config.json" (or_introl eq_refl)) in H. cbn [negb] in H.
  destruct (fs_load_json fs (joinpath adapter_dir "adapter_config.json"))
    as [adapter_config|e] eqn:El; [|discriminate H].
  destruct (extract_routing_config adapter_config _) as [route_config|e] eqn:Ex;
    [|discriminate H].
  inversion H; subst. clear H. cbn [info_name info_path info_config info_route].
  split; [exact Hfiles|]. split; [reflexivity|]. split; [reflexivity|].
  split; [reflexivity|]. split.
  - intros route ->. apply (extract_routing_config_some _ _ _ Ex).
  - intros ->. apply (extract_routing_config_none _ _ Ex).
Qed.

Lemma loaded_directory_describes_adapter_witness :
  let info :=
    {| info_name := "custom"; info_path := demo_dir; info_config := demo_config;
       info_route := Some {| adapter_name := "custom"; training_utterances := ["alpha"] |} |} in
  (forall file, In file required_files ->
                fs_exists demo_files (joinpath demo_dir file) = true) /\
  info_name info = path_name demo_dir /\
  info_path info = demo_dir /\
  fs_load_json demo_files (joinpath demo_dir "adapter_config.json") =
  Returned (info_config info) /\
  (forall route,
      info_route info = Some route ->
      adapter_name route = info_name info /\
      exists section,
        py_getitem (info_config info) "semantic_routing" = Returned section /\
        py_getitem section "questions" =
        Returned (JStrings (training_utterances route))) /\
  (info_route info = None ->
   py_in "semantic_routing" (info_config info) = Returned false).
Proof.
  apply (loaded_directory_describes_adapter demo_files demo_dir None).
  vm_compute. reflexivity.
Defined.

Lemma load_from_directory_invalid (fs : filesystem) (adapter_dir : path)
  (name : option string) :
  validate_adapter_directory fs adapter_dir = false ->
  load_from_directory fs adapter_dir name =
  Raised (Builtin (ValueError (String.append "Invalid adapter directory: "
                                 (path_str adapter_dir)))).
Proof. intro H. unfold load_from_directory. rewrite H. reflexivity. Qed.

(** A directory that lacks one of [adapter_config.json], [adapter_model.bin]
    and [config.json] is rejected with [ValueError] before anything is read,
    and loading an adapter from it leaves the adapter manager as it was:
    nothing is handed to PEFT and nothing is recorded as loaded. *)
Theorem incomplete_directory_is_rejected :
  forall (env : environment) (adapter_dir : path) (name : option string)
         (am : AdapterManager) (file : string),
    In file required_files ->
    fs_exists (files env) (joinpath adapter_dir file) = false ->
    load_from_directory (files env) adapter_dir name =
    Raised (Builtin (ValueError (String.append "Invalid adapter directory: "
                                   (path_str adapter_dir)))) /\
    load_adapter_from_directory env adapter_dir name am =
    (Raised (Builtin (ValueError (String.append "Invalid adapter directory: "
                                    (path_str adapter_dir)))), am).
Proof.
  intros env adapter_dir name am file Hin Hmissing.
  assert (Hv : validate_adapter_directory (files env) adapter_dir = false).
  { unfold validate_adapter_directory.
    destruct (forallb _ required_files) eqn:E; [|reflexivity].
    rewrite forallb_forall in E. rewrite (E file Hin) in Hmissing.
    discriminate Hmissing. }
  split; [apply load_from_directory_invalid, Hv|].
  unfold load_adapter_from_directory.
  rewrite (load_from_directory_invalid _ _ _ Hv). reflexivity.
Qed.

Lemma incomplete_directory_is_rejected_witness :
  load_from_directory (files demo_environment) ["adapters"] None =
  Raised (Builtin (ValueError (String.append "Invalid adapter directory: "
                                 (path_str ["adapters"])))) /\
  load_adapter_from_directory demo_environment ["adapters"] None fresh_manager =
  (Raised (Builtin (ValueError (String.append "Invalid adapter directory: "
                                  (path_str ["adapters"])))), fresh_manager).
Proof.
  apply (incomplete_directory_is_rejected demo_environment ["adapters"] None
           fresh_manager "config.json").
  - right. right. left. reflexivity.
  - reflexivity.
Defined.

Lemma collect_adapter_acc (fs : filesystem) (entries : list path)
  (acc : list adapter_info) :
  fold_left (collect_adapter fs) entries acc =
  acc ++
  flat_map
    (fun entry =>
       if fs_is_dir fs entry
       then
         match load_from_directory fs entry None with
         | Returned info => [info]
         | Raised _ => []
         end
       else [])
    entries.
Proof.
  revert acc. induction entries as [|entry entries IH]; intro acc; simpl.
  - symmetry. apply app_nil_r.
  - rewrite IH. unfold collect_adapter.
    destruct (fs_is_dir fs entry); simpl.
    + destruct (validate_adapter_directory fs entry) eqn:Ev.
      * destruct (load_from_directory fs entry None);
          [rewrite <- app_assoc|]; reflexivity.
      * rewrite (load_from_directory_invalid _ _ _ Ev). reflexivity.
    + reflexivity.
Qed.

(** Scanning a base directory that exists and can be listed never raises:
    it returns, in listing order, the adapters of exactly those entries that
    are directories and load without error, each named after its directory;
    every other entry is skipped. *)
Theorem scan_skips_what_fails_to_load :
  forall (fs : filesystem) (base_dir : path) (entries : list path),
    fs_exists fs base_dir = true ->
    fs_iterdir fs base_dir = Returned entries ->
    let loadable entry :=
      if fs_is_dir fs entry
      then
        match load_from_directory fs entry None with
        | Returned info => [info]
        | Raised _ => []
        end
      else [] in
    load_from_directories fs base_dir = Returned (flat_map loadable entries) /\
    forall info,
      In info (flat_map loadable entries) ->
      In (info_path info) entries /\ info_name info = path_name (info_path info).
Proof.
  intros fs base_dir entries Hex Hit loadable. split.
  - unfold load_from_directories. rewrite Hex, Hit. cbn [negb].
    rewrite collect_adapter_acc. reflexivity.
  - intros info Hin. apply in_flat_map in Hin. destruct Hin as (entry & He & Hi).
    unfold loadable in Hi. destruct (fs_is_dir fs entry); [|contradiction].
    destruct (load_from_directory fs entry None) as [info'|e] eqn:El; [|contradiction].
    destruct Hi as [<- | []].
    unfold load_from_directory in El.
    destruct (negb (validate_adapter_directory fs entry)); [discriminate El|].
    cbv zeta in El.
    destruct (load_adapter_config fs entry); [|discriminate El].
    destruct (extract_routing_config _ _); [|discriminate El].
    inversion El; subst. simpl. split; [exact He | reflexivity].
Qed.

Lemma scan_skips_what_fails_to_load_witness :
  let loadable entry :=
    if fs_is_dir demo_files entry
    then
      match load_from_directory demo_files entry None with
      | Returned info => [info]
      | Raised _ => []
      end
    else [] in
  load_from_directories demo_files ["adapters"] =
  Returned (flat_map loadable [["adapters"; "notes.txt"]; demo_dir]) /\
  forall info,
    In info (flat_map loadable [["adapters"; "notes.txt"]; demo_dir]) ->
    In (info_path info) [["adapters"; "notes.txt"]; demo_dir] /\
    info_name info = path_name (info_path info).
Proof.
  apply (scan_skips_what_fails_to_load demo_files ["adapters"]
           [["adapters"; "notes.txt"]; demo_dir]); reflexivity.
Defined.

(** ** Loading and activating *)

Lemma dict_mem_set_same {V : Type} (d : dict V) (k : string) (v : V) :
  dict_mem (dict_set d k v) k = true.
Proof. unfold dict_mem. rewrite dict_get_set_same. reflexivity. Qed.

Lemma dict_mem_set_grows {V : Type} (d : dict V) (k k' : string) (v : V) :
  dict_mem d k' = true -> dict_mem (dict_set d k v) k' = true.
Proof.
  intro H. destruct (String.eqb k' k) eqn:E.
  - apply String.eqb_eq in E. subst. apply dict_mem_set_same.
  - apply String.eqb_neq in E. unfold dict_mem in *.
    rewrite dict_get_set_other by exact E. exact H.
Qed.

Lemma peft_load_frame (env : environment) (adapter_path name : string)
  (am am' : AdapterManager) (result : outcome unit) :
  peft_load env adapter_path name am = (result, am') ->
  loaded_adapters am' = loaded_adapters am /\
  (forall e, result = Raised e -> am' = am) /\
  (result = Returned tt -> peft_active am' <> None).
Proof.
  unfold peft_load. destruct (peft_active am) as [a|] eqn:Ea.
  - destruct (load_adapter env adapter_path name); intro H; inversion H; subst;
      (split; [reflexivity|]; split; [reflexivity|]).
    + intros _. rewrite Ea. discriminate.
    + discriminate.
  - destruct (from_pretrained env adapter_path name); intro H; inversion H; subst;
      (split; [reflexivity|]; split).
    + discriminate.
    + intros _. discriminate.
    + reflexivity.
    + discriminate.
Qed.

Lemma hub_route_name (env : environment) (name adapter_path : string)
  (route : AdapterRoute) :
  hub_route env name adapter_path = Some route -> adapter_name route = name.
Proof.
  unfold hub_route. destruct (hub_config env adapter_path) as [cfg|e]; [|discriminate].
  destruct (extract_routing_config cfg name) as [r|e] eqn:Ex; [|discriminate].
  intros ->. apply (extract_routing_config_some _ _ _ Ex).
Qed.

(** Loading from the hub, then activating: when [load_adapter_from_hub]
    returns, the adapter is recorded under its name with its path, the
    adapters loaded before are still loaded, a PEFT model exists, the route
    returned (if any) bears the adapter's name, and [set_active_adapter]
    with that name succeeds and makes it the active adapter.  When it raises
    instead, the manager is unchanged. *)
Theorem hub_adapter_loads_then_activates :
  forall (env : environment) (name adapter_path : string) (am am' : AdapterManager)
         (result : outcome (option AdapterRoute)),
    load_adapter_from_hub env name adapter_path am = (result, am') ->
    name <> "base" ->
    (forall e, result = Raised e -> am' = am) /\
    (forall route,
        result = Returned route ->
        dict_get (loaded_adapters am') name = Some adapter_path /\
        loaded_grows am am' /\
        peft_active am' <> None /\
        (forall r, route = Some r -> adapter_name r = name) /\
        set_active_adapter name am' =
        (Ok tt, {| loaded_adapters := loaded_adapters am'; peft_active := Some name |})).
Proof.
  intros env name adapter_path am am' result H Hnb.
  unfold load_adapter_from_hub in H.
  destruct (peft_load env adapter_path name am) as [[[]|e] am1] eqn:Ep;
    destruct (peft_load_frame _ _ _ _ _ _ Ep) as (Hl & Hr & Ha);
    inversion H; subst; clear H.
  - split; [discriminate|]. intros route Hroute. inversion Hroute; subst.
    cbn [record_loaded loaded_adapters peft_active].
    split; [apply dict_get_set_same|].
    split; [intros k Hk; cbn [record_loaded loaded_adapters]; rewrite Hl;
            apply dict_mem_set_grows, Hk|].
    split; [apply Ha; reflexivity|].
    split; [intros r Hsome; apply (hub_route_name _ _ _ _ Hsome)|].
    rewrite set_active_adapter_eq. apply String.eqb_neq in Hnb. rewrite Hnb.
    cbn [record_loaded loaded_adapters]. rewrite dict_mem_set_same. reflexivity.
  - split; [|discriminate]. intros e' _. apply (Hr e). reflexivity.
Qed.

Lemma hub_adapter_loads_then_activates_witness :
  let loaded := load_adapter_from_hub demo_environment "hub" "user/hub" fresh_manager in
  (forall e, fst loaded = Raised e -> snd loaded = fresh_manager) /\
  (forall route,
      fst loaded = Returned route ->
      dict_get (loaded_adapters (snd loaded)) "hub" = Some "user/hub" /\
      loaded_grows fresh_manager (snd loaded) /\
      peft_active (snd loaded) <> None /\
      (forall r, route = Some r -> adapter_name r = "hub") /\
      set_active_adapter "hub" (snd loaded) =
      (Ok tt, {| loaded_adapters := loaded_adapters (snd loaded);
                 peft_active := Some "hub" |})).
Proof.
  apply (hub_adapter_loads_then_activates demo_environment "hub" "user/hub"
           fresh_manager).
  - reflexivity.
  - discriminate.
Defined.

(** ** Routes and loaded adapters *)

Lemma load_adapter_from_hub_inv (env : environment) (name adapter_path : string)
  (am am' : AdapterManager) (result : outcome (option AdapterRoute)) :
  load_adapter_from_hub env name adapter_path am = (result, am') ->
  loaded_grows am am' /\
  forall r, result = Returned (Some r) ->
            dict_mem (loaded_adapters am') (adapter_name r) = true.
Proof.
  unfold load_adapter_from_hub.
  destruct (peft_load env adapter_path name am) as [[[]|e] am1] eqn:Ep;
    destruct (peft_load_frame _ _ _ _ _ _ Ep) as (Hl & Hr & _);
    intro H; inversion H; subst; clear H.
  - split.
    + intros k Hk. cbn [record_loaded loaded_adapters]. rewrite Hl.
      apply dict_mem_set_grows, Hk.
    + intros r Hres. inversion Hres as [Hroute].
      rewrite (hub_route_name _ _ _ _ Hroute).
      cbn [record_loaded loaded_adapters]. apply dict_mem_set_same.
  - split; [|discriminate]. intros k Hk. rewrite Hl. exact Hk.
Qed.

Lemma loaded_directory_route_name (fs : filesystem) (adapter_dir : path)
  (name : option string) (info : adapter_info) (route : AdapterRoute) :
  load_from_directory fs adapter_dir name = Returned info ->
  info_route info = Some route ->
  adapter_name route = info_name info.
Proof.
  unfold load_from_directory.
  destruct (negb (validate_adapter_directory fs adapter_dir)); [discriminate|].
  cbv zeta. destruct (load_adapter_config fs adapter_dir) as [cfg|e]; [|discriminate].
  destruct (extract_routing_config cfg _) as [rc|e] eqn:Ex; [|discriminate].
  intro H. inversion H; subst. simpl. intros ->.
  apply (extract_routing_config_some _ _ _ Ex).
Qed.

Lemma load_adapter_from_directory_inv (env : environment) (adapter_dir : path)
  (name : option string) (am am' : AdapterManager)
  (result : outcome (option AdapterRoute)) :
  load_adapter_from_directory env adapter_dir name am = (result, am') ->
  loaded_grows am am' /\
  forall r, result = Returned (Some r) ->
            dict_mem (loaded_adapters am') (adapter_name r) = true.
Proof.
  unfold load_adapter_from_directory.
  destruct (load_from_directory (files env) adapter_dir name) as [info|e] eqn:El.
  - destruct (peft_load env _ _ am) as [[[]|e] am1] eqn:Ep;
      destruct (peft_load_frame _ _ _ _ _ _ Ep) as (Hl & Hr & _);
      intro H; inversion H; subst; clear H.
    + split.
      * intros k Hk. cbn [record_loaded loaded_adapters]. rewrite Hl.
        apply dict_mem_set_grows, Hk.
      * intros r Hres. inversion Hres as [Hroute].
        rewrite (loaded_directory_route_name _ _ _ _ _ El Hroute).
        cbn [record_loaded loaded_adapters]. apply dict_mem_set_same.
    + split; [|discriminate]. intros k Hk. rewrite Hl. exact Hk.
  - intro H. inversion H; subst. split; [intros k Hk; exact Hk | discriminate].
Qed.

Lemma keep_route_named_loaded (route : option AdapterRoute) (routes : list AdapterRoute)
  (am am' : AdapterManager) :
  routes_named_loaded routes am ->
  loaded_grows am am' ->
  (forall r, route = Some r -> dict_mem (loaded_adapters am') (adapter_name r) = true) ->
  routes_named_loaded (keep_route route routes) am'.
Proof.
  intros Hroutes Hgrow Hroute r Hin. destruct route as [r0|]; simpl in Hin.
  - apply in_app_or in Hin. destruct Hin as [Hin | [<- | []]].
    + apply Hgrow, Hroutes, Hin.
    + apply Hroute. reflexivity.
  - apply Hgrow, Hroutes, Hin.
Qed.

Lemma load_hub_items_inv (env : environment) (items : list (string * string))
  (routes : list AdapterRoute) (am am' : AdapterManager)
  (result : outcome (list AdapterRoute)) :
  load_hub_items env items routes am = (result, am') ->
  routes_named_loaded routes am ->
  loaded_grows am am' /\
  (forall routes', result = Returned routes' ->
                   routes_named_loaded routes' am' /\
                   forall item, In item items ->
                                dict_mem (loaded_adapters am') (fst item) = true).
Proof.
  revert routes am. induction items as [|[name adapter_path] items IH];
    intros routes am H Hroutes; simpl in H.
  - inversion H; subst. split; [intros k Hk; exact Hk|].
    intros routes' Hres. inversion Hres; subst. split; [exact Hroutes | intros item []].
  - destruct (load_adapter_from_hub env name adapter_path am) as [[route|e] am1] eqn:E1.
    + destruct (load_adapter_from_hub_inv _ _ _ _ _ _ E1) as [Hg1 Hr1].
      assert (Hname : dict_mem (loaded_adapters am1) name = true).
      { unfold load_adapter_from_hub in E1.
        destruct (peft_load env adapter_path name am) as [[[]|e] am0]; inversion E1.
        cbn [record_loaded loaded_adapters]. apply dict_mem_set_same. }
      destruct (IH _ _ H) as [Hg2 Hr2].
      { apply (keep_route_named_loaded route routes am am1 Hroutes Hg1).
        intros r ->. apply Hr1. reflexivity. }
      split; [intros k Hk; apply Hg2, Hg1, Hk|].
      intros routes' Hres. destruct (Hr2 routes' Hres) as [Hn Hitems].
      split; [exact Hn|]. intros item [<- | Hin]; [apply Hg2, Hname | apply Hitems, Hin].
    + inversion H; subst.
      destruct (load_adapter_from_hub_inv _ _ _ _ _ _ E1) as [Hg1 _].
      split; [exact Hg1 | discriminate].
Qed.

Lemma load_from_directory_named (fs : filesystem) (adapter_dir : path) (name : string)
  (info : adapter_info) :
  load_from_directory fs adapter_dir (Some name) = Returned info ->
  info_name info = name.
Proof.
  unfold load_from_directory.
  destruct (negb (validate_adapter_directory fs adapter_dir)); [discriminate|].
  cbv zeta. destruct (load_adapter_config fs adapter_dir); [|discriminate].
  destruct (extract_routing_config _ _); [|discriminate].
  intro H. inversion H. reflexivity.
Qed.

Lemma load_local_adapters_inv (env : environment) (adapters : list LocalAdapter)
  (routes : list AdapterRoute) (am am' : AdapterManager)
  (result : outcome (list AdapterRoute)) :
  load_local_adapters env adapters routes am = (result, am') ->
  routes_named_loaded routes am ->
  loaded_grows am am' /\
  (forall routes', result = Returned routes' ->
                   routes_named_loaded routes' am' /\
                   forall adapter, In adapter adapters ->
                                   dict_mem (loaded_adapters am') (local_name adapter) = true).
Proof.
  revert routes am. induction adapters as [|adapter adapters IH];
    intros routes am H Hroutes; simpl in H.
  - inversion H; subst. split; [intros k Hk; exact Hk|].
    intros routes' Hres. inversion Hres; subst. split; [exact Hroutes | intros a []].
  - destruct (load_adapter_from_directory env (local_path adapter)
                (Some (local_name adapter)) am) as [[route|e] am1] eqn:E1.
    + destruct (load_adapter_from_directory_inv _ _ _ _ _ _ E1) as [Hg1 Hr1].
      assert (Hname : dict_mem (loaded_adapters am1) (local_name adapter) = true).
      { unfold load_adapter_from_directory in E1.
        destruct (load_from_directory (files env) (local_path adapter)
                    (Some (local_name adapter))) as [info|e] eqn:El; [|discriminate E1].
        destruct (peft_load env _ _ am) as [[[]|e] am0]; inversion E1.
        cbn [record_loaded loaded_adapters].
        rewrite (load_from_directory_named _ _ _ _ El). apply dict_mem_set_same. }
      destruct (IH _ _ H) as [Hg2 Hr2].
      { apply (keep_route_named_loaded route routes am am1 Hroutes Hg1).
        intros r ->. apply Hr1. reflexivity. }
      split; [intros k Hk; apply Hg2, Hg1, Hk|].
      intros routes' Hres. destruct (Hr2 routes' Hres) as [Hn Hitems].
      split; [exact Hn|]. intros a [<- | Hin]; [apply Hg2, Hname | apply Hitems, Hin].
    + inversion H; subst.
      destruct (load_adapter_from_directory_inv _ _ _ _ _ _ E1) as [Hg1 _].
      split; [exact Hg1 | discriminate].
Qed.

Lemma add_route_keys_subset (route : AdapterRoute) (r : SemanticRouter) (k : string) :
  In k (dict_keys (route_embeddings (snd (add_route route r)))) ->
  In k (dict_keys (route_embeddings r)) \/ k = adapter_name route.
Proof.
  unfold add_route. destruct (training_utterances route); [left; assumption|].
  step_monad. destruct (batch_generate_embeddings _ _); [|left; assumption].
  simpl. intro H. apply dict_set_in_keys in H. tauto.
Qed.

Lemma add_routes_keys_subset (routes : list AdapterRoute) (r : SemanticRouter)
  (k : string) :
  In k (dict_keys (route_embeddings (snd (add_routes routes r)))) ->
  In k (dict_keys (route_embeddings r)) \/
  exists route, In route routes /\ k = adapter_name route.
Proof.
  revert r. induction routes as [|route routes IH]; intros r H; [left; exact H|].
  simpl in H. unfold bind in H.
  pose proof (add_route_keys_subset route r k) as H1.
  destruct (add_route route r) as [[[]|e] r1]; simpl in H1.
  - destruct (IH r1 H) as [Hk | (route' & Hin & Heq)].
    + destruct (H1 Hk) as [Hr | Hn]; [left; exact Hr|].
      right. exists route. split; [left; reflexivity | exact Hn].
    + right. exists route'. split; [right; exact Hin | exact Heq].
  - destruct (H1 H) as [Hr | Hn]; [left; exact Hr|].
    right. exists route. split; [left; reflexivity | exact Hn].
Qed.

Lemma hub_dict_items (adapters : list HubAdapter) (adapter : HubAdapter) :
  In adapter adapters ->
  exists adapter_path, In (hub_name adapter, adapter_path) (hub_dict adapters).
Proof.
  unfold hub_dict.
  assert (H : forall d,
             (In (hub_name adapter) (dict_keys d) \/ In adapter adapters) ->
             In (hub_name adapter)
                (dict_keys (fold_left (fun d a => dict_set d (hub_name a) (repo_id a))
                              adapters d))).
  { induction adapters as [|a adapters IH]; intros d Hd; simpl.
    - destruct Hd as [Hd | []]. exact Hd.
    - apply IH. destruct Hd as [Hd | [-> | Hin]].
      + left. apply dict_set_in_keys. right. exact Hd.
      + left. apply dict_set_in_keys. left. reflexivity.
      + right. exact Hin. }
  intro Hin. specialize (H [] (or_intror Hin)).
  apply dict_get_of_key in H. destruct H as [v Hv].
  exists v. apply dict_get_in, Hv.
Qed.

Lemma load_adapters_inv (env : environment) (config : AdapterConfig)
  (m m' : MixtureOfAdapters) (result : outcome unit) :
  load_adapters env config m = (result, m') ->
  loaded_grows (adapter_manager m) (adapter_manager m') /\
  (forall k, In k (dict_keys (route_embeddings (router m'))) ->
             In k (dict_keys (route_embeddings (router m))) \/
             dict_mem (loaded_adapters (adapter_manager m')) k = true) /\
  (result = Returned tt ->
   (forall adapter, In adapter (hub_adapters config) ->
                    dict_mem (loaded_adapters (adapter_manager m')) (hub_name adapter) = true) /\
   (forall adapter, In adapter (local_adapters config) ->
                    dict_mem (loaded_adapters (adapter_manager m')) (local_name adapter) = true)).
Proof.
  unfold load_adapters. cbv zeta.
  assert (Hhub : exists hres am1,
             match hub_adapters config with
             | [] => (Returned [], adapter_manager m)
             | _ :: _ =>
                 load_adapters_from_hub env (hub_dict (hub_adapters config))
                   (adapter_manager m)
             end = (hres, am1) /\
             loaded_grows (adapter_manager m) am1 /\
             forall routes, hres = Returned routes ->
                            routes_named_loaded routes am1 /\
                            forall adapter, In adapter (hub_adapters config) ->
                                            dict_mem (loaded_adapters am1) (hub_name adapter) = true).
  { destruct (hub_adapters config) as [|a0 hubs] eqn:Eh.
    - do 2 eexists. split; [reflexivity|]. split; [intros k Hk; exact Hk|].
      intros routes Hres. inversion Hres; subst.
      split; [intros r [] | intros a []].
    - unfold load_adapters_from_hub.
      destruct (load_hub_items env (hub_dict (a0 :: hubs)) [] (adapter_manager m))
        as [hres am1] eqn:E.
      do 2 eexists. split; [reflexivity|].
      destruct (load_hub_items_inv _ _ _ _ _ _ E) as [Hg Hr]; [intros r []|].
      split; [exact Hg|]. intros routes Hres. destruct (Hr routes Hres) as [Hn Hitems].
      split; [exact Hn|]. intros adapter Hin.
      destruct (hub_dict_items (a0 :: hubs) adapter Hin) as [p Hp].
      apply (Hitems _ Hp). }
  destruct Hhub as (hres & am1 & -> & Hg1 & Hr1).
  destruct hres as [hub_routes|e].
  - destruct (Hr1 hub_routes eq_refl) as [Hn1 Hh1].
    assert (Hloc : exists lres am2,
               match local_adapters config with
               | [] => (Returned hub_routes, am1)
               | _ :: _ =>
                   load_local_adapters env (local_adapters config) hub_routes am1
               end = (lres, am2) /\
               loaded_grows am1 am2 /\
               forall routes, lres = Returned routes ->
                              routes_named_loaded routes am2 /\
                              forall adapter, In adapter (local_adapters config) ->
                                              dict_mem (loaded_adapters am2)
                                                (local_name adapter) = true).
    { destruct (local_adapters config) as [|a0 locals] eqn:El.
      - do 2 eexists. split; [reflexivity|]. split; [intros k Hk; exact Hk|].
        intros routes Hres. inversion Hres; subst. split; [exact Hn1 | intros a []].
      - destruct (load_local_adapters env (a0 :: locals) hub_routes am1)
          as [lres am2] eqn:E.
        do 2 eexists. split; [reflexivity|].
        apply (load_local_adapters_inv _ _ _ _ _ _ E Hn1). }
    destruct Hloc as (lres & am2 & -> & Hg2 & Hr2).
    destruct lres as [routes|e].
    + destruct (Hr2 routes eq_refl) as [Hn2 Hl2].
      assert (Hgrow : loaded_grows (adapter_manager m) am2).
      { intros k Hk. apply Hg2, Hg1, Hk. }
      destruct routes as [|r0 routes].
      * intro H. inversion H; subst. cbn [adapter_manager router set_adapter_manager].
        split; [exact Hgrow|]. split; [intros k Hk; left; exact Hk|].
        intros _. split; [intros a Ha; apply Hg2, Hh1, Ha | exact Hl2].
      * pose proof (add_routes_keys_subset (r0 :: routes)
                      (router (set_adapter_manager m am2))) as Hkeys.
        destruct (add_routes (r0 :: routes) (router (set_adapter_manager m am2)))
          as [[[]|e] r] eqn:Ea; intro H; inversion H; subst;
          cbn [adapter_manager router set_adapter_manager set_router] in *;
          (split; [exact Hgrow|]; split;
           [intros k Hk; destruct (Hkeys k Hk) as [Hold | (route & Hin & ->)];
            [left; exact Hold | right; apply Hn2, Hin]|]).
        -- intros _. split; [intros a Ha; apply Hg2, Hh1, Ha | exact Hl2].
        -- discriminate.
    + intro H. inversion H; subst. cbn [adapter_manager router set_adapter_manager].
      split; [intros k Hk; apply Hg2, Hg1, Hk|].
      split; [intros k Hk; left; exact Hk | discriminate].
  - intro H. inversion H; subst. cbn [adapter_manager router set_adapter_manager].
    split; [exact Hg1|]. split; [intros k Hk; left; exact Hk | discriminate].
Qed.

(** Loading keeps routes and loaded adapters in step: if every route of the
    router names a loaded adapter before [_load_adapters], the same holds
    after it, whether it returns or raises part-way (a failing PEFT load, a
    bad directory, an embedding failure in [add_routes]).  So no route the
    router can select after start-up lacks its adapter. *)
Theorem load_adapters_keeps_routes_loaded :
  forall (env : environment) (config : AdapterConfig) (m : MixtureOfAdapters),
    routes_loaded m ->
    routes_loaded (snd (load_adapters env config m)).
Proof.
  intros env config m Hloaded name Hin.
  destruct (load_adapters env config m) as [result m'] eqn:E.
  destruct (load_adapters_inv _ _ _ _ _ E) as (Hgrow & Hkeys & _).
  cbn [snd] in *. destruct (Hkeys name Hin) as [Hold | Hnew]; [|exact Hnew].
  apply Hgrow, Hloaded, Hold.
Qed.

Lemma load_adapters_keeps_routes_loaded_witness :
  routes_loaded (snd (load_adapters demo_environment demo_adapter_config fresh_system)).
Proof.
  apply (load_adapters_keeps_routes_loaded demo_environment demo_adapter_config
           fresh_system).
  intros name [].
Defined.

(** When [_load_adapters] returns, every adapter of the configuration, from
    the hub or local, is recorded as loaded (and the adapters loaded before
    still are), whether or not it brought a route. *)
Theorem configured_adapters_are_loaded :
  forall (env : environment) (config : AdapterConfig) (m m' : MixtureOfAdapters),
    load_adapters env config m = (Returned tt, m') ->
    (forall adapter, In adapter (hub_adapters config) ->
                     dict_mem (loaded_adapters (adapter_manager m')) (hub_name adapter) = true) /\
    (forall adapter, In adapter (local_adapters config) ->
                     dict_mem (loaded_adapters (adapter_manager m')) (local_name adapter) = true) /\
    loaded_grows (adapter_manager m) (adapter_manager m').
Proof.
  intros env config m m' H.
  destruct (load_adapters_inv _ _ _ _ _ H) as (Hgrow & _ & Hall).
  destruct (Hall eq_refl) as [Hh Hl].
  split; [exact Hh|]. split; [exact Hl | exact Hgrow].
Qed.

Lemma configured_adapters_are_loaded_witness :
  let m' := snd (load_adapters demo_environment demo_adapter_config fresh_system) in
  (forall adapter, In adapter (hub_adapters demo_adapter_config) ->
                   dict_mem (loaded_adapters (adapter_manager m')) (hub_name adapter) = true) /\
  (forall adapter, In adapter (local_adapters demo_adapter_config) ->
                   dict_mem (loaded_adapters (adapter_manager m')) (local_name adapter) = true) /\
  loaded_grows (adapter_manager fresh_system) (adapter_manager m').
Proof.
  apply (configured_adapters_are_loaded demo_environment demo_adapter_config
           fresh_system).
  vm_compute. reflexivity.
Defined.

(** ** A malformed routing section *)

(** The two loaders treat a routing section that cannot be read (a missing
    [questions] key, a value that is not a list, ...) differently.  From the
    hub the exception is swallowed: the adapter is loaded and recorded,
    without a route.  From a directory the exception comes out of
    [load_adapter_from_directory] and the adapter is not loaded. *)
Theorem malformed_routing_hub_loads_directory_raises :
  forall (env : environment) (name adapter_path : string) (adapter_dir : path)
         (adapter_config : json) (e : error) (am am1 : AdapterManager),
    extract_routing_config adapter_config name = Raised e ->
    hub_config env adapter_path = Returned adapter_config ->
    peft_load env adapter_path name am = (Returned tt, am1) ->
    validate_adapter_directory (files env) adapter_dir = true ->
    fs_load_json (files env) (joinpath adapter_dir "adapter_config.json") =
    Returned adapter_config ->
    load_adapter_from_hub env name adapter_path am =
    (Returned None, record_loaded name adapter_path am1) /\
    load_adapter_from_directory env adapter_dir (Some name) am = (Raised e, am).
Proof.
  intros env name adapter_path adapter_dir adapter_config e am am1
         Hex Hhub Hpeft Hvalid Hjson.
  split.
  - unfold load_adapter_from_hub. rewrite Hpeft. unfold hub_route.
    rewrite Hhub, Hex. reflexivity.
  - unfold load_adapter_from_directory, load_from_directory, load_adapter_config.
    rewrite Hvalid. cbn [negb]. cbv zeta.
    assert (Hcfg : fs_exists (files env) (joinpath adapter_dir "adapter_config.json") = true).
    { unfold validate_adapter_directory in Hvalid. rewrite forallb_forall in Hvalid.
      apply Hvalid. left. reflexivity. }
    rewrite Hcfg, Hjson. cbn [negb]. rewrite Hex. reflexivity.
Qed.

Lemma malformed_routing_hub_loads_directory_raises_witness :
  load_adapter_from_hub broken_environment "x" "user/x" fresh_manager =
  (Returned None,
   record_loaded "x" "user/x" {| loaded_adapters := []; peft_active := Some "x" |}) /\
  load_adapter_from_directory broken_environment ["x"] (Some "x") fresh_manager =
  (Raised (KeyError "questions"), fresh_manager).
Proof.
  apply (malformed_routing_hub_loads_directory_raises broken_environment "x" "user/x"
           ["x"] broken_config (KeyError "questions") fresh_manager
           {| loaded_adapters := []; peft_active := Some "x" |});
    reflexivity.
Defined.

(** ** A request left alone finishes *)

Lemma step_finished (m : MixtureOfAdapters) (ds : list delivery) :
  loop_step {| tasks := [Finished]; system := m; delivered := ds |} 0 =
  {| tasks := [Finished]; system := m; delivered := ds |}.
Proof.
  unfold loop_step. cbn [tasks system delivered nth_error resume replace_nth].
  rewrite app_nil_r. reflexivity.
Qed.

Lemma step_streaming_nil (name : string) (m : MixtureOfAdapters) (ds : list delivery) :
  loop_step {| tasks := [Streaming name []]; system := m; delivered := ds |} 0 =
  {| tasks := [Finished]; system := snd (generate_response_finish m); delivered := ds |}.
Proof.
  unfold loop_step. cbn [tasks system delivered nth_error resume replace_nth].
  rewrite app_nil_r. reflexivity.
Qed.

Lemma step_streaming_cons (name text : string) (chunks : list string)
  (m : MixtureOfAdapters) (ds : list delivery) :
  loop_step {| tasks := [Streaming name (text :: chunks)]; system := m; delivered := ds |} 0 =
  {| tasks := [Streaming name chunks]; system := m;
     delivered :=
       ds ++ (if nonempty text
              then [Chunk 0 name (model_label m) (peft_active (adapter_manager m)) text]
              else []) |}.
Proof. reflexivity. Qed.

Lemma step_pending_ok (query : string) (messages : list message)
  (m m1 : MixtureOfAdapters) (started : string * list string) (ds : list delivery) :
  generate_response_setup query messages true m = (Ok started, m1) ->
  loop_step {| tasks := [Pending query messages]; system := m; delivered := ds |} 0 =
  {| tasks := [Streaming (fst started) (snd started)]; system := m1;
     delivered := ds ++ [Activated 0 (fst started)] |}.
Proof.
  intro H. unfold loop_step. cbn [tasks system delivered nth_error resume].
  rewrite H. reflexivity.
Qed.

Lemma finished_stays (m : MixtureOfAdapters) (ds : list delivery) (k : nat) :
  let s := run_schedule {| tasks := [Finished]; system := m; delivered := ds |}
             (repeat 0%nat k) in
  tasks s = [Finished] /\ delivered s = ds.
Proof.
  induction k as [|k IH]; [split; reflexivity|].
  cbv zeta in *. simpl repeat. unfold run_schedule in *. simpl fold_left.
  rewrite step_finished. exact IH.
Qed.

Lemma streaming_runs_out (name : string) (chunks : list string) :
  forall (m : MixtureOfAdapters) (ds : list delivery) (k : nat),
    current_adapter m = Some name ->
    peft_active (adapter_manager m) = Some name ->
    (List.length chunks + 1 <= k)%nat ->
    let s := run_schedule
               {| tasks := [Streaming name chunks]; system := m; delivered := ds |}
               (repeat 0%nat k) in
    tasks s = [Finished] /\ delivered s = ds ++ own_chunks 0 name chunks.
Proof.
  induction chunks as [|text chunks IH]; intros m ds k Hc Hp Hk; cbv zeta.
  - destruct k as [|k]; [simpl in Hk; lia|].
    simpl repeat. unfold run_schedule. simpl fold_left.
    rewrite step_streaming_nil. unfold own_chunks. simpl. rewrite app_nil_r.
    apply (finished_stays (snd (generate_response_finish m)) ds k).
  - destruct k as [|k]; [simpl in Hk; lia|].
    simpl repeat. unfold run_schedule. simpl fold_left.
    rewrite step_streaming_cons.
    assert (Hk' : (List.length chunks + 1 <= k)%nat) by (simpl in Hk; lia).
    destruct (IH m (ds ++ (if nonempty text
                           then [Chunk 0 name (model_label m)
                                   (peft_active (adapter_manager m)) text]
                           else [])) k Hc Hp Hk') as [Ht Hd].
    unfold run_schedule in Ht, Hd. split; [exact Ht|].
    rewrite Hd, <- app_assoc. f_equal.
    unfold own_chunks. simpl filter.
    rewrite (model_label_of m name Hc), Hp.
    destruct (nonempty text); reflexivity.
Qed.

(** A streaming request left alone on the event loop finishes: once its
    set-up has succeeded, resuming it at least two times more than it has
    chunks ends it, and it has then delivered, after its activation, every
    non-empty chunk exactly once and in order, each under its own adapter. *)
Theorem lone_request_delivers_every_chunk :
  forall (m m1 : MixtureOfAdapters) (query : string) (messages : list message)
         (started : string * list string) (n : nat),
    generate_response_setup query messages true m = (Ok started, m1) ->
    (List.length (snd started) + 2 <= n)%nat ->
    let s := run_schedule
               {| tasks := [Pending query messages]; system := m; delivered := [] |}
               (repeat 0%nat n) in
    tasks s = [Finished] /\
    delivered s =
    Activated 0 (fst started) :: own_chunks 0 (fst started) (snd started).
Proof.
  intros m m1 query messages started n Hsetup Hn. cbv zeta.
  destruct n as [|n]; [lia|].
  simpl repeat. unfold run_schedule. simpl fold_left.
  rewrite (step_pending_ok _ _ _ _ _ _ Hsetup). cbn [app].
  destruct (generate_response_setup_ok _ _ _ _ _ _ Hsetup) as (Hc & Hp & _).
  assert (Hn' : (List.length (snd started) + 1 <= n)%nat) by lia.
  apply (streaming_runs_out (fst started) (snd started) m1
           [Activated 0 (fst started)] n Hc Hp Hn').
Qed.

Lemma lone_request_delivers_every_chunk_witness :
  let s := run_schedule
             {| tasks := [Pending "alpha" (ask "alpha")];
                system := demo_system false demo_router; delivered := [] |}
             (repeat 0%nat 4) in
  tasks s = [Finished] /\
  delivered s = Activated 0 "a" :: own_chunks 0 "a" ["a-1"; "a-2"].
Proof.
  apply (lone_request_delivers_every_chunk (demo_system false demo_router)
           (snd (generate_response_setup "alpha" (ask "alpha") true
                   (demo_system false demo_router)))
           "alpha" (ask "alpha") ("a", ["a-1"; "a-2"]) 4).
  - vm_compute. reflexivity.
  - simpl. lia.
Defined.

